(** * archaid: the partition-provisioning engine of [installerworker.cpp]

  A shallow embedding of the device helpers and of the three provisioning
  strategies of [InstallerWorker], with the properties of its specification
  proved (or refuted) against it.

  Conventions of the embedding.
  - [QString] is [string]; the Qt string functions the engine uses are
    written out in [Module Qt] with the behaviour Qt documents for them on
    ASCII text.
  - [double] values are exact rationals ([Q]).  Every number the engine
    reads is a short decimal MiB figure, on which the two agree; the
    conversions [static_cast<long long>] and [static_cast<qulonglong>] are
    truncations and are only defined by C++ inside the target range.
  - [QSet<QString>] is [gset string], a [QJsonObject] is [gmap string string].
  - External processes, the file system and the signals of the worker are
    effects: a computation takes the state of the machine and returns its
    result, the new state and the events it produced, in program order. *)

From Stdlib Require Import ZArith QArith Qround Ascii String DecimalString DecimalPos Lia.
From stdpp Require Import base tactics option list gmap strings.

Local Open Scope Z_scope.

(** ** Qt string functions *)

Module Qt.

Definition isDigit (c : ascii) : bool :=
  match Ascii.is_nat c with Some _ => true | None => false end.

Definition isSpace (c : ascii) : bool := Ascii.is_space c.

(** ASCII lower-casing, as [QChar::toLower] acts on ASCII letters. *)
Definition lowerChar (c : ascii) : ascii :=
  let n := nat_of_ascii c in
  if (Nat.leb 65 n && Nat.leb n 90)%bool then ascii_of_nat (n + 32) else c.

Fixpoint toLower (s : string) : string :=
  match s with
  | EmptyString => EmptyString
  | String c r => String (lowerChar c) (toLower r)
  end.

Definition isEmpty (s : string) : bool :=
  match s with EmptyString => true | _ => false end.

(** [s.startsWith(p)] *)
Fixpoint startsWith (p s : string) : bool :=
  match p, s with
  | EmptyString, _ => true
  | String a p', String b s' => if Ascii.eqb a b then startsWith p' s' else false
  | String _ _, EmptyString => false
  end.

(** [s.startsWith(p, Qt::CaseInsensitive)] *)
Definition startsWithCI (p s : string) : bool :=
  startsWith (toLower p) (toLower s).

(** [s.mid(n)]: the string from position [n] on. *)
Fixpoint mid (n : nat) (s : string) : string :=
  match n, s with
  | O, _ => s
  | S n', String _ r => mid n' r
  | S _, EmptyString => EmptyString
  end.

(** [s.contains(sub)] and its case-insensitive form. *)
Fixpoint contains (sub s : string) : bool :=
  if startsWith sub s then true
  else match s with
       | EmptyString => false
       | String _ r => contains sub r
       end.

Definition containsCI (sub s : string) : bool :=
  contains (toLower sub) (toLower s).

(** [s.remove(sub)]: every occurrence found by a left-to-right scan. *)
Fixpoint removeWith (test : string -> bool) (len : nat) (fuel : nat) (s : string) : string :=
  match fuel with
  | O => s
  | S fuel' =>
      match s with
      | EmptyString => EmptyString
      | String c r =>
          if test s then removeWith test len fuel' (mid len s)
          else String c (removeWith test len fuel' r)
      end
  end.

Definition remove (sub s : string) : string :=
  if isEmpty sub then s
  else removeWith (startsWith sub) (String.length sub) (String.length s) s.

Definition removeCI (sub s : string) : string :=
  if isEmpty sub then s
  else removeWith (startsWithCI sub) (String.length sub) (String.length s) s.

(** [s.remove(QRegularExpression("[^0-9\\.]"))]: keep digits and dots. *)
Fixpoint keepDigitsAndDots (s : string) : string :=
  match s with
  | EmptyString => EmptyString
  | String c r =>
      if (isDigit c || Ascii.eqb c ".")%bool
      then String c (keepDigitsAndDots r) else keepDigitsAndDots r
  end.

(** [s.replace(a, b)] on characters. *)
Fixpoint replaceChar (a b : ascii) (s : string) : string :=
  match s with
  | EmptyString => EmptyString
  | String c r => String (if Ascii.eqb c a then b else c) (replaceChar a b r)
  end.

Fixpoint dropSpaces (s : string) : string :=
  match s with
  | String c r => if isSpace c then dropSpaces r else s
  | EmptyString => EmptyString
  end.

(** [s.trimmed()] *)
Definition trimmed (s : string) : string :=
  String.rev (dropSpaces (String.rev (dropSpaces s))).

(** [s.split(sep)] with the default [Qt::KeepEmptyParts]. *)
Fixpoint splitGo (sep : ascii) (cur : string) (s : string) : list string :=
  match s with
  | EmptyString => [String.rev cur]
  | String c r =>
      if Ascii.eqb c sep then String.rev cur :: splitGo sep EmptyString r
      else splitGo sep (String c cur) r
  end.

Definition split (sep : ascii) (s : string) : list string :=
  splitGo sep EmptyString s.

(** [s.split(sep, Qt::SkipEmptyParts)] *)
Definition splitSkipEmpty (sep : ascii) (s : string) : list string :=
  List.filter (fun p => negb (isEmpty p)) (split sep s).

(** The lines of a process output: [split('\n', Qt::SkipEmptyParts)]. *)
Definition lines (s : string) : list string := splitSkipEmpty "010" s.

(** [s.split(QRegularExpression("\\s+"), Qt::SkipEmptyParts)] *)
Definition splitWs (s : string) : list string := String.words s.

(** [s.split(QRegularExpression("\\s+"))], which keeps the empty fields a
    leading or trailing run of blanks produces. *)
Fixpoint splitWsKeepGo (cur : string) (inSep : bool) (s : string) : list string :=
  match s with
  | EmptyString => if inSep then [EmptyString] else [String.rev cur]
  | String c r =>
      if isSpace c then
        if inSep then splitWsKeepGo EmptyString true r
        else String.rev cur :: splitWsKeepGo EmptyString true r
      else splitWsKeepGo (String c cur) false r
  end.

Definition splitWsKeep (s : string) : list string :=
  splitWsKeepGo EmptyString false s.

(** [s.section('/', -1)]: the text after the last separator. *)
Definition lastSection (sep : ascii) (s : string) : string :=
  List.last (split sep s) EmptyString.

(** [list.at(i)] / [list[i]] on a list whose size was checked. *)
Definition at_ (l : list string) (i : nat) : string := nth i l EmptyString.

(** [QString::number(n)] for an integer. *)
Definition number (n : Z) : string := NilZero.string_of_int (Z.to_int n).

(** [a.compare(b, Qt::CaseInsensitive) == 0] *)
Definition equalCI (a b : string) : bool := String.eqb (toLower a) (toLower b).

End Qt.

(** ** Numbers read from text *)

Module Num.

(** A maximal run of decimal digits: its value, its length and the rest. *)
Fixpoint digitsGo (s : string) (acc : Z) (n : nat) : Z * nat * string :=
  match s with
  | String c r =>
      match Ascii.is_nat c with
      | Some d => digitsGo r (10 * acc + Z.of_nat d) (S n)
      | None => (acc, n, s)
      end
  | EmptyString => (acc, n, s)
  end.

Definition signOf (s : string) : Z * string :=
  match s with
  | String "-" r => (-1, r)
  | String "+" r => (1, r)
  | _ => (1, s)
  end.

(** The rational [m * 10 ^ e]. *)
Definition scale10 (m e : Z) : Q :=
  if 0 <=? e then inject_Z (m * 10 ^ e)
  else Qred (Qmake m (Z.to_pos (10 ^ (- e)))).

(** [QString::toDouble(&ok)] in the C locale: blanks around the number are
    ignored, then an optional sign, digits with an optional fraction, and
    an optional decimal exponent.  [None] is [ok == false].  The spellings
    of infinity and NaN have no rational value and are not read. *)
Definition toDoubleOk (s : string) : option Q :=
  let '(sg, s1) := signOf (Qt.trimmed s) in
  let '(ip, n1, s2) := digitsGo s1 0 O in
  let '(fp, n2, s3) :=
    match s2 with
    | String "." r => digitsGo r 0 O
    | _ => (0, O, s2)
    end in
  if (Nat.eqb n1 0 && Nat.eqb n2 0)%bool then None
  else
    let m := sg * (ip * 10 ^ Z.of_nat n2 + fp) in
    match s3 with
    | EmptyString => Some (scale10 m (- Z.of_nat n2))
    | String c r =>
        if (Ascii.eqb c "e" || Ascii.eqb c "E")%bool then
          let '(esg, r1) := signOf r in
          let '(ev, n3, r2) := digitsGo r1 0 O in
          if (Nat.eqb n3 0 || negb (Qt.isEmpty r2))%bool then None
          else Some (scale10 m (esg * ev - Z.of_nat n2))
        else None
    end.

(** [s.toDouble()]: 0.0 when the text is not a number. *)
Definition toDouble (s : string) : Q := default 0%Q (toDoubleOk s).

(** [s.toLongLong(&ok)] / [s.toInt(&ok)], base 10. *)
Definition toIntegerOk (s : string) : option Z :=
  let '(sg, s1) := signOf (Qt.trimmed s) in
  let '(v, n, rest) := digitsGo s1 0 O in
  if (Nat.eqb n 0 || negb (Qt.isEmpty rest))%bool then None else Some (sg * v).

Definition toLongLong (s : string) : Z :=
  match toIntegerOk s with
  | Some v => if (- 2 ^ 63 <=? v) && (v <? 2 ^ 63) then v else 0
  | None => 0
  end.

Definition toIntOk (s : string) : option Z :=
  match toIntegerOk s with
  | Some v => if (- 2 ^ 31 <=? v) && (v <? 2 ^ 31) then Some v else None
  | None => None
  end.

Definition toInt (s : string) : Z := default 0 (toIntOk s).

(** Comparisons of doubles. *)
Definition ltb (a b : Q) : bool := negb (Qle_bool b a).
Definition leb (a b : Q) : bool := Qle_bool a b.

(** [std::ceil], [std::floor] followed by the cast to [long long]. *)
Definition ceil (a : Q) : Z := Qceiling a.
Definition floor (a : Q) : Z := Qfloor a.

(** [static_cast<qulonglong>(v)]: truncation toward zero. *)
Definition truncate (a : Q) : Z := Z.quot (Qnum a) (Zpos (Qden a)).

End Num.

(** ** The machine: processes, files and signals *)

(** What a run of the worker does to the outside, in program order. *)
Inductive Event : Type :=
| Execute (argv : list string) (exit : Z)
                                 (* [QProcess::execute(prog, args)] and its exit code *)
| Start (argv : list string)     (* [p.start(prog, args); p.waitForFinished()] *)
| LogMessage (msg : string)      (* [emit logMessage(msg)] *)
| ErrorOccurred (msg : string)   (* [emit errorOccurred(msg)] *)
| InstallComplete                (* [emit installComplete()] *)
| Warning (msg : string)         (* [qWarning() << msg] *)
| RemoveFile (path : string)     (* [QFile::remove(path)] *)
| WriteJson (path : string) (obj : gmap string string)
| Sleep (secs : Z).              (* [QThread::sleep(secs)] *)

(** The services the worker asks of the machine it runs on.  [W] is the
    state of that machine: partition tables, mounts, files. *)
Class Machine (W : Type) : Type := {
  (** exit code of a finished process *)
  processExit : list string -> W -> Z * W;
  (** standard output of a finished process *)
  processOutput : list string -> W -> string * W;
  (** [QStandardPaths::findExecutable] *)
  findExecutable : string -> W -> string;
  (** [QFileInfo::exists] *)
  fileExists : string -> W -> bool;
  (** [QFileInfo(path).canonicalFilePath()] *)
  canonicalFilePath : string -> W -> string;
  (** the lines [QFile::readLine] yields, when the file opens *)
  fileLines : string -> W -> option (list string);
  (** [QFile::remove] *)
  fileRemove : string -> W -> W;
  (** whether the file opens for writing, and the machine once written *)
  fileOpensForWrite : string -> W -> bool;
  fileWriteJson : string -> gmap string string -> W -> W;
  (** the sub-directories of a directory, when it exists *)
  dirEntries : string -> W -> option (list string)
}.

(** A computation: result, new machine state, events produced. *)
Definition M (W A : Type) : Type := W -> A * W * list Event.

Definition result {W A} (r : A * W * list Event) : A := r.1.1.
Definition machine {W A} (r : A * W * list Event) : W := r.1.2.
Definition events {W A} (r : A * W * list Event) : list Event := r.2.

Definition M_ret {W A} (a : A) : M W A := fun w => (a, w, []).

Definition M_bind {W A B} (k : A -> M W B) (m : M W A) : M W B :=
  fun w =>
    let r1 := m w in
    let r2 := k (result r1) (machine r1) in
    (result r2, machine r2, events r1 ++ events r2).

#[global] Instance M_mret W : MRet (M W) := @M_ret W.
#[global] Instance M_mbind W : MBind (M W) := @M_bind W.

Section Worker.

Context {W : Type} `{Machine W}.

Definition emit (e : Event) : M W unit := fun w => (tt, w, [e]).

(** [QProcess::execute("sudo", {...})]: runs to completion, gives the exit code. *)
Definition execute (argv : list string) : M W Z :=
  fun w => let r := processExit argv w in (r.1, r.2, [Execute argv r.1]).

(** [p.start(...); p.waitForFinished(); p.readAllStandardOutput()] *)
Definition startAndRead (argv : list string) : M W string :=
  fun w => let r := processOutput argv w in (r.1, r.2, [Start argv]).

(** Reading the machine without changing it. *)
Definition ask {A} (f : W -> A) : M W A := fun w => (f w, w, []).

Definition sleep (secs : Z) : M W unit := emit (Sleep secs).

(** [QFile::remove(path)] *)
Definition removeFile (path : string) : M W unit :=
  fun w => (tt, fileRemove path w, [RemoveFile path]).

(** [f.write(QJsonDocument(obj).toJson(QJsonDocument::Compact))] *)
Definition writeJson (path : string) (obj : gmap string string) : M W unit :=
  fun w => (tt, fileWriteJson path obj w, [WriteJson path obj]).

(** [for (x : l) body(x);] *)
Fixpoint forEach {A} (l : list A) (body : A -> M W unit) : M W unit :=
  match l with
  | [] => mret tt
  | x :: l' => body x ;; forEach l' body
  end.

(** *** Mount-state file *)

Definition targetStateFilePath : string := "/tmp/archaid-target.json".

Definition recordTargetMountState (rootDev espDev : string) : M W unit :=
  let obj : gmap string string := <["root" := rootDev]> ∅ in
  let obj := if Qt.isEmpty espDev then obj else <["esp" := espDev]> obj in
  opens ← ask (fileOpensForWrite targetStateFilePath);
  if opens : bool then writeJson targetStateFilePath obj
  else emit (Warning "Failed to persist target mount state:").

(** [locatePartedBinary] *)
Definition locatePartedBinary : M W string :=
  p ← ask (findExecutable "parted");
  if negb (Qt.isEmpty p) then mret p
  else
    e1 ← ask (fileExists "/usr/sbin/parted");
    if e1 : bool then mret "/usr/sbin/parted"
    else
      e2 ← ask (fileExists "/sbin/parted");
      if e2 : bool then mret "/sbin/parted" else mret "".

(** *** Partition listing *)

(** [devPath.startsWith("/dev/") ? devPath.mid(5) : devPath] *)
Definition baseNameOf (devPath : string) : string :=
  if Qt.startsWith "/dev/" devPath then Qt.mid 5 devPath else devPath.

(** The loop of [childPartitionsSet] over the rows of [lsblk]. *)
Definition childPartitionsOfRows (base : string) (rows : list string) : gset string :=
  foldl (fun (out : gset string) r =>
           let cols := Qt.splitWs r in
           if (length cols <? 3)%nat then out
           else
             let name := Qt.at_ cols 0 in
             let type := Qt.at_ cols 1 in
             let pk := Qt.at_ cols 2 in
             if (String.eqb type "part" && String.eqb pk base)%bool
             then {[ name ]} ∪ out else out)
        ∅ rows.

Definition childPartitionsSet (devPath : string) : M W (gset string) :=
  let base := baseNameOf devPath in
  out ← startAndRead ["lsblk"; "-ln"; "-o"; "NAME,TYPE,PKNAME"];
  mret (childPartitionsOfRows base (Qt.lines out)).

Definition isPartitionVfat (partPath : string) : M W bool :=
  out ← startAndRead ["lsblk"; "-no"; "FSTYPE"; partPath];
  let fstype := Qt.toLower (Qt.trimmed out) in
  mret (String.eqb fstype "vfat" || String.eqb fstype "fat32" || String.eqb fstype "msdos")%bool.

(** [after - before], then the one name it holds or the empty string. *)
Definition newPartitionOf (after before : gset string) : string :=
  let diff := after ∖ before in
  if negb (size diff =? 1)%nat then ""
  else "/dev/" +:+ hd "" (elements diff).

Definition detectNewPartitionNode (devPath : string) (before : gset string) : M W string :=
  after ← childPartitionsSet devPath;
  mret (newPartitionOf after before).

Definition endsWithDigit (s : string) : bool :=
  match String.rev s with
  | String c _ => Qt.isDigit c
  | EmptyString => false
  end.

Definition partitionNodeFor (baseName : string) (partNum : Z) : string :=
  if endsWithDigit baseName
  then "/dev/" +:+ baseName +:+ "p" +:+ Qt.number partNum
  else "/dev/" +:+ baseName +:+ Qt.number partNum.

(** The call pattern of every creation site:
    [x = detectNewPartitionNode(devPath, before);
     if (x.isEmpty()) { emit errorOccurred(msg); return; }] and then the
    rest of the function, which receives the node. *)
Definition detectOrFail (devPath : string) (before : gset string) (msg : string)
    (rest : string -> M W unit) : M W unit :=
  node ← detectNewPartitionNode devPath before;
  if Qt.isEmpty node then emit (ErrorOccurred msg) else rest node.

(** *** Existing boot partitions *)

Definition espGuid : string := "c12a7328-f81f-11d2-ba4b-00a0c93ec93b".

(** First loop of [findExistingEsp]: the first row of [lsblk] that looks
    like an ESP of this disk. *)
Fixpoint espFromLsblkRows (base : string) (rows : list string) : option string :=
  match rows with
  | [] => None
  | r :: rows' =>
      let cols := Qt.splitWs r in
      if (length cols <? 6)%nat then espFromLsblkRows base rows'
      else
        let name := Qt.at_ cols 0 in
        let type := Qt.at_ cols 1 in
        let pk := Qt.at_ cols 2 in
        let parttype := Qt.toLower (Qt.at_ cols 3) in
        let label := Qt.toLower (Qt.at_ cols 4) in
        let fstype := Qt.toLower (Qt.at_ cols 5) in
        if (String.eqb type "part" && String.eqb pk base
            && (String.eqb parttype espGuid
                || Qt.contains "esp" label
                || Qt.contains "efi system" label
                || String.eqb fstype "vfat" || String.eqb fstype "fat32"))%bool
        then Some ("/dev/" +:+ name)
        else espFromLsblkRows base rows'
  end.

Definition firstIsDigit (s : string) : bool :=
  match s with
  | String c _ => Qt.isDigit c
  | EmptyString => false
  end.

(** Second loop of [findExistingEsp], over [parted -m print]. *)
Fixpoint espFromPartedLines (base : string) (plines : list string) : option string :=
  match plines with
  | [] => None
  | line :: plines' =>
      let cols := Qt.split ":" line in
      if (7 <=? length cols)%nat then
        let number := Qt.at_ cols 0 in
        let flags := Qt.at_ cols 6 in
        if (negb (Qt.isEmpty number) && firstIsDigit number
            && Qt.containsCI "esp" flags)%bool
        then Some (partitionNodeFor base (Num.toInt number))
        else espFromPartedLines base plines'
      else espFromPartedLines base plines'
  end.

Definition findExistingEsp (partedBin devPath : string) : M W string :=
  out ← startAndRead ["lsblk"; "-ln"; "-o"; "NAME,TYPE,PKNAME,PARTTYPE,PARTLABEL,FSTYPE"];
  let base := baseNameOf devPath in
  match espFromLsblkRows base (Qt.lines out) with
  | Some node => mret node
  | None =>
      pout ← startAndRead ["sudo"; partedBin; devPath; "-m"; "unit"; "MiB"; "print"];
      mret (default "" (espFromPartedLines base (Qt.lines pout)))
  end.

(** The loop of [findExistingBiosGrub]. *)
Fixpoint biosGrubFromPartedLines (base : string) (lines : list string) : option string :=
  match lines with
  | [] => None
  | line :: lines' =>
      let cols := Qt.split ":" line in
      if (length cols <? 7)%nat then biosGrubFromPartedLines base lines'
      else
        let number := Qt.at_ cols 0 in
        if (Qt.isEmpty number || negb (firstIsDigit number))%bool
        then biosGrubFromPartedLines base lines'
        else
          let flags := Qt.toLower (Qt.at_ cols 6) in
          if Qt.contains "bios_grub" flags then
            match Num.toIntOk number with
            | Some idx => Some (partitionNodeFor base idx)
            | None => Some (partitionNodeFor base (Num.toInt number))
            end
          else biosGrubFromPartedLines base lines'
  end.

Definition findExistingBiosGrub (partedBin devPath : string) : M W string :=
  out ← startAndRead ["sudo"; partedBin; devPath; "-m"; "unit"; "MiB"; "print"];
  let base := baseNameOf devPath in
  mret (default "" (biosGrubFromPartedLines base (Qt.lines out))).

(** *** The disk of the running system *)

(** The hop loop of [resolveBaseDisk]; [hops] is what is left of the six. *)
Fixpoint resolveBaseDiskFrom (hops : nat) (cur : string) : M W string :=
  match hops with
  | O => mret ""
  | S hops' =>
      raw ← startAndRead ["lsblk"; "-ln"; "-o"; "NAME,TYPE,PKNAME"; cur];
      let out := Qt.trimmed raw in
      if Qt.isEmpty out then mret ""
      else
        let cols := Qt.splitWs out in
        if (2 <=? length cols)%nat then
          let name := Qt.at_ cols 0 in
          let type := Qt.at_ cols 1 in
          let pk := if (3 <=? length cols)%nat then Qt.at_ cols 2 else "" in
          if String.eqb type "disk" then mret ("/dev/" +:+ name)
          else if negb (Qt.isEmpty pk) then resolveBaseDiskFrom hops' ("/dev/" +:+ pk)
          else mret ""
        else mret ""
  end.

Definition resolveBaseDisk (devOrMapper : string) : M W string :=
  if negb (Qt.startsWith "/dev/" devOrMapper) then mret ""
  else resolveBaseDiskFrom 6 devOrMapper.

(** The loop over [/proc/mounts]: the first line whose second field is [/]. *)
Fixpoint rootFromMounts (lines : list string) : option string :=
  match lines with
  | [] => None
  | line :: lines' =>
      let cols := Qt.split " " line in
      if ((2 <=? length cols)%nat && String.eqb (Qt.at_ cols 1) "/")%bool
      then Some (Qt.at_ cols 0)
      else rootFromMounts lines'
  end.

Definition rootSourceDevice : M W string :=
  raw ← startAndRead ["findmnt"; "-no"; "SOURCE"; "/"];
  let src0 := Qt.trimmed raw in
  src ← (if Qt.isEmpty src0 then
           mounts ← ask (fileLines "/proc/mounts");
           match mounts with
           | Some lines => mret (default src0 (rootFromMounts lines))
           | None => mret src0
           end
         else mret src0);
  if (negb (Qt.startsWith "/dev/" src)
      && (Qt.startsWith "UUID=" src || Qt.startsWith "LABEL=" src))%bool
  then
    braw ← (if Qt.startsWith "UUID=" src
            then startAndRead ["blkid"; "-U"; Qt.mid 5 src]
            else startAndRead ["blkid"; "-L"; Qt.mid 6 src]);
    let dev := Qt.trimmed braw in
    if Qt.startsWith "/dev/" dev then mret dev else mret src
  else mret src.

Definition isSystemDisk (devPath : string) : M W bool :=
  rootSrc ← rootSourceDevice;
  if Qt.isEmpty rootSrc then mret false
  else
    rootDisk ← resolveBaseDisk rootSrc;
    targetDisk ← resolveBaseDisk devPath;
    if (Qt.isEmpty rootDisk || Qt.isEmpty targetDisk)%bool then mret false
    else
      c1 ← ask (canonicalFilePath rootDisk);
      c2 ← ask (canonicalFilePath targetDisk);
      mret (String.eqb c1 c2).

(** *** Detaching a disk *)

(** Both detach functions begin by unmounting the staging mount points. *)
Definition unmountStaging : M W unit :=
  execute ["sudo"; "umount"; "-Rl"; "/mnt/boot/efi"] ;;
  execute ["sudo"; "umount"; "-Rl"; "/mnt/boot"] ;;
  execute ["sudo"; "umount"; "-Rl"; "/mnt"] ;;
  mret tt.

Definition isExternalMountPoint (mp : string) : bool :=
  (negb (Qt.isEmpty mp)
   && (Qt.startsWith "/media/" mp || Qt.startsWith "/run/media/" mp
       || Qt.startsWith "/mnt/" mp))%bool.

Definition safePreflightUnmounts (devPath : string) : M W unit :=
  unmountStaging ;;
  sys ← isSystemDisk devPath;
  if sys : bool then
    execute ["sudo"; "udevadm"; "settle"] ;; mret tt
  else
    out ← startAndRead ["lsblk"; "-ln"; "-o"; "NAME,TYPE,MOUNTPOINT"; devPath];
    forEach (Qt.lines out) (fun line =>
      let cols := Qt.splitWsKeep line in
      if ((2 <=? length cols)%nat && String.eqb (Qt.at_ cols 1) "part")%bool then
        let node := "/dev/" +:+ Qt.at_ cols 0 in
        let mp := if (3 <=? length cols)%nat then Qt.at_ cols 2 else "" in
        if isExternalMountPoint mp
        then execute ["sudo"; "umount"; "-l"; node] ;; mret tt
        else mret tt
      else mret tt) ;;
    execute ["sudo"; "udevadm"; "settle"] ;; mret tt.

(** Steps 3 and 4 of [bestEffortDetachDevice] read the same listing. *)
Definition closeLuksOn (parts : gset string) : M W unit :=
  out ← startAndRead ["lsblk"; "-ln"; "-o"; "NAME,TYPE,PKNAME"];
  forEach (Qt.lines out) (fun r =>
    let cols := Qt.splitWs r in
    if (length cols <? 3)%nat then mret tt
    else
      let name := Qt.at_ cols 0 in
      let type := Qt.at_ cols 1 in
      let pk := Qt.at_ cols 2 in
      if (String.eqb type "crypt" && bool_decide (pk ∈ parts))%bool
      then execute ["sudo"; "cryptsetup"; "close"; "/dev/" +:+ name] ;; mret tt
      else mret tt).

Fixpoint volumeGroupsOn (parts : gset string) (rows : list string) (vgs : gset string)
    : M W (gset string) :=
  match rows with
  | [] => mret vgs
  | r :: rows' =>
      let cols := Qt.splitWs r in
      if (length cols <? 3)%nat then volumeGroupsOn parts rows' vgs
      else
        let name := Qt.at_ cols 0 in
        let type := Qt.at_ cols 1 in
        let pk := Qt.at_ cols 2 in
        if ((String.eqb type "lvm" || String.eqb type "dm") && bool_decide (pk ∈ parts))%bool
        then
          g ← startAndRead ["lvs"; "--noheadings"; "-o"; "vg_name"; "/dev/" +:+ name];
          let vg := Qt.trimmed g in
          volumeGroupsOn parts rows' (if negb (Qt.isEmpty vg) then {[ vg ]} ∪ vgs else vgs)
        else volumeGroupsOn parts rows' vgs
  end.

Definition deactivateVolumeGroupsOn (parts : gset string) : M W unit :=
  out ← startAndRead ["lsblk"; "-ln"; "-o"; "NAME,TYPE,PKNAME"];
  vgs ← volumeGroupsOn parts (Qt.lines out) ∅;
  forEach (elements vgs) (fun vg =>
    execute ["sudo"; "vgchange"; "-an"; vg] ;; mret tt).

Definition bestEffortDetachDevice (devPath : string) : M W unit :=
  unmountStaging ;;
  sys ← isSystemDisk devPath;
  if sys : bool then
    emit (Warning ("[detach] Target is system disk; skipping device-wide unmounts/kills for " +:+ devPath)) ;;
    execute ["sudo"; "udevadm"; "settle"] ;; mret tt
  else
    parts ← childPartitionsSet devPath;
    (* 1) udisks unmount of every partition of the disk *)
    forEach (elements parts) (fun pn =>
      execute ["sudo"; "udisksctl"; "unmount"; "-b"; "/dev/" +:+ pn] ;; mret tt) ;;
    (* 2) swapoff *)
    swaps ← startAndRead ["cat"; "/proc/swaps"];
    forEach (elements parts) (fun pn =>
      if Qt.contains ("/dev/" +:+ pn) swaps
      then execute ["sudo"; "swapoff"; "/dev/" +:+ pn] ;; mret tt
      else mret tt) ;;
    (* 3) LUKS mappings, 4) LVM volume groups *)
    closeLuksOn parts ;;
    deactivateVolumeGroupsOn parts ;;
    (* 5) kill remaining holders *)
    forEach (devPath :: map (fun pn => "/dev/" +:+ pn) (elements parts)) (fun n =>
      execute ["sudo"; "fuser"; "-km"; n] ;; mret tt) ;;
    (* 6) remove dm holders *)
    forEach (elements parts) (fun pn =>
      holders ← ask (dirEntries ("/sys/class/block/" +:+ pn +:+ "/holders"));
      match holders with
      | Some hs => forEach hs (fun h =>
                     execute ["sudo"; "dmsetup"; "remove"; "-f"; h] ;; mret tt)
      | None => mret tt
      end) ;;
    (* 7) reread, settle, power off *)
    execute ["sudo"; "blockdev"; "--rereadpt"; devPath] ;;
    execute ["sudo"; "partprobe"; devPath] ;;
    execute ["sudo"; "udevadm"; "settle"] ;;
    sleep 1 ;;
    execute ["sudo"; "udisksctl"; "power-off"; "-b"; devPath] ;;
    mret tt.

(** *** Geometry *)

(** The lambda [norm] of [parseMiBToBounds]. *)
Definition normMiB (s : string) : string :=
  Qt.trimmed (Qt.replaceChar "," "." (Qt.removeCI "MiB" s)).

(** [parseMiBToBounds(startStrIn, endStrIn, startMiB, endMiB)]: the result
    and the two output parameters, which keep the values they came with
    when parsing fails. *)
Definition parseMiBToBounds (startStrIn endStrIn : string) (startMiB endMiB : Z)
    : bool * Z * Z :=
  match Num.toDoubleOk (normMiB startStrIn), Num.toDoubleOk (normMiB endStrIn) with
  | Some s, Some e =>
      let startMiB := Num.ceil s in
      let endMiB := Num.floor e in
      let startMiB := if startMiB <? 1 then 1 else startMiB in
      (startMiB <? endMiB, startMiB, endMiB)
  | _, _ => (false, startMiB, endMiB)
  end.

Fixpoint leadingDigits (s : string) : string :=
  match s with
  | String c r => if Qt.isDigit c then String c (leadingDigits r) else EmptyString
  | EmptyString => EmptyString
  end.

Definition trailingDigits (s : string) : string :=
  String.rev (leadingDigits (String.rev s)).

Definition partitionNumberFromPath (partPath : string) : string :=
  trailingDigits (Qt.lastSection "/" partPath).

(** The match of [QRegularExpression("(\\d+)$")]: the digits that end the
    text, or that end it before one final newline. *)
Definition matchTrailingNumber (s : string) : option string :=
  let body := match String.rev s with
              | String "010" r => String.rev r
              | _ => s
              end in
  let d := trailingDigits body in
  if Qt.isEmpty d then None else Some d.

Fixpoint spanWhile (f : ascii -> bool) (s : string) : string * string :=
  match s with
  | String c r =>
      if f c then let '(a, b) := spanWhile f r in (String c a, b)
      else (EmptyString, s)
  | EmptyString => (EmptyString, EmptyString)
  end.

Definition isNumChar (c : ascii) : bool := (Qt.isDigit c || Ascii.eqb c ".")%bool.

(** One attempt of the pattern
    [^\s*<partNum>\s+([0-9.]+)MiB\s+([0-9.]+)MiB] at the start of [s]:
    the whole match and the two captures. *)
Definition matchPartLineAt (partNum s : string) : option (string * string * string) :=
  let '(ws0, s1) := spanWhile Qt.isSpace s in
  if negb (Qt.startsWith partNum s1) then None
  else
    let s2 := Qt.mid (String.length partNum) s1 in
    let '(ws1, s3) := spanWhile Qt.isSpace s2 in
    if Qt.isEmpty ws1 then None
    else
      let '(c1, s4) := spanWhile isNumChar s3 in
      if (Qt.isEmpty c1 || negb (Qt.startsWith "MiB" s4))%bool then None
      else
        let s5 := Qt.mid 3 s4 in
        let '(ws2, s6) := spanWhile Qt.isSpace s5 in
        if Qt.isEmpty ws2 then None
        else
          let '(c2, s7) := spanWhile isNumChar s6 in
          if (Qt.isEmpty c2 || negb (Qt.startsWith "MiB" s7))%bool then None
          else Some (ws0 +:+ partNum +:+ ws1 +:+ c1 +:+ "MiB" +:+ ws2 +:+ c2 +:+ "MiB",
                     c1, c2).

(** The places where [^] matches in multi-line mode. *)
Fixpoint afterNewlines (s : string) : list string :=
  match s with
  | EmptyString => []
  | String c r =>
      if Ascii.eqb c "010" then r :: afterNewlines r else afterNewlines r
  end.

(** The loop over [globalMatch]: the first match whose text, trimmed,
    starts with the partition number. *)
Fixpoint firstPartLine (partNum : string) (starts : list string) : option (string * string) :=
  match starts with
  | [] => None
  | s :: starts' =>
      match matchPartLineAt partNum s with
      | Some (line, c1, c2) =>
          if Qt.startsWith partNum (Qt.trimmed line) then Some (c1, c2)
          else firstPartLine partNum starts'
      | None => firstPartLine partNum starts'
      end
  end.

Definition newline : string := String "010" EmptyString.

(** [getPartitionGeometry]: the result and the two output parameters. *)
Definition getPartitionGeometry (targetPartition selectedDrive : string)
    (startMiB endMiB : string) : M W (bool * string * string) :=
  let partName := if Qt.startsWith "/dev/" targetPartition
                  then Qt.mid 5 targetPartition else targetPartition in
  match matchTrailingNumber partName with
  | None =>
      emit (LogMessage ("DEBUG: Could not extract partition number from " +:+ partName)) ;;
      mret (false, startMiB, endMiB)
  | Some partNum =>
      emit (LogMessage ("DEBUG: Extracted partition number: " +:+ partNum)) ;;
      output ← startAndRead ["sudo"; "parted"; "/dev/" +:+ selectedDrive; "unit"; "MiB"; "print"];
      emit (LogMessage ("DEBUG: parted output:" +:+ newline +:+ output)) ;;
      emit (LogMessage ("DEBUG: parted output:" +:+ newline +:+ output)) ;;
      match firstPartLine partNum (output :: afterNewlines output) with
      | Some (c1, c2) =>
          emit (LogMessage ("DEBUG: Partition geometry startMiB=" +:+ c1 +:+ " endMiB=" +:+ c2)) ;;
          mret (true, c1, c2)
      | None =>
          emit (LogMessage ("DEBUG: Could not parse partition geometry for partition number " +:+ partNum)) ;;
          mret (false, startMiB, endMiB)
      end
  end.

(** *** The worker object *)

Inductive InstallMode : Type := WipeDrive | UsePartition | UseFreeSpace.

Record InstallerWorker : Type := {
  selectedDrive : string;
  mode : InstallMode;
  targetPartition : string;
  efiInstall : bool
}.

(** [if (failed) { emit errorOccurred(msg); return; }] followed by the rest
    of the function. *)
Definition failIf (failed : bool) (msg : string) (rest : M W unit) : M W unit :=
  if failed then emit (ErrorOccurred msg) else rest.

(** [execute(c1) != 0 || execute(c2) != 0 || ...], left to right, stopping at
    the first command that fails. *)
Fixpoint anyFails (cmds : list (list string)) : M W bool :=
  match cmds with
  | [] => mret false
  | c :: cmds' =>
      rc ← execute c;
      if negb (rc =? 0) then mret true else anyFails cmds'
  end.

(** [partprobe], [udevadm settle] and the one-second sleep that follow every
    change of the table. *)
Definition settle (devPath : string) : M W unit :=
  execute ["sudo"; "partprobe"; devPath] ;;
  execute ["sudo"; "udevadm"; "settle"] ;;
  sleep 1.

(** The loop that reads the size of the disk from [parted -m print]. *)
Definition diskEndFromLines (devPath : string) (lines : list string) : Z :=
  foldl (fun (diskEndMiB : Z) line =>
           if Qt.startsWith (devPath +:+ ":") line then
             let cols := Qt.split ":" line in
             if (2 <=? length cols)%nat
             then Num.toLongLong (Qt.remove "MiB" (Qt.at_ cols 1))
             else diskEndMiB
           else diskEndMiB)
        0 lines.

(** *** [wipeDriveAndPartition] *)

Definition wipeDriveAndPartition (self : InstallerWorker) (partedBin devPath : string)
    : M W unit :=
  emit (LogMessage ("Preparing drive for "
                    +:+ (if efiInstall self then "EFI" else "BIOS/GRUB")
                    +:+ " wipe (GPT)...")) ;;
  bestEffortDetachDevice devPath ;;
  execute ["sudo"; "wipefs"; "-a"; devPath] ;;
  sgdisk ← ask (findExecutable "sgdisk");
  (if negb (Qt.isEmpty sgdisk)
   then execute ["sudo"; sgdisk; "--zap-all"; "--clear"; devPath] ;; mret tt
   else mret tt) ;;
  execute ["sudo"; "blockdev"; "--rereadpt"; devPath] ;;
  execute ["sudo"; "udevadm"; "settle"] ;;
  sleep 1 ;;
  rc ← execute ["sudo"; partedBin; devPath; "--script"; "mklabel"; "gpt"];
  failIf (negb (rc =? 0)) "Failed to create GPT partition table." (
  settle devPath ;;
  if efiInstall self then
    let espStart := "1MiB" in
    let espEnd := "513MiB" in
    out ← startAndRead ["sudo"; partedBin; devPath; "-m"; "unit"; "MiB"; "print"];
    let diskEndMiB := diskEndFromLines devPath (Qt.lines out) in
    failIf (diskEndMiB <=? 0) "Could not determine disk size." (
    let rootStart := espEnd in
    let rootEnd := Qt.number (diskEndMiB - 1) +:+ "MiB" in
    bad ← anyFails
      [ ["sudo"; partedBin; devPath; "--script"; "mkpart"; "primary"; "fat32"; espStart; espEnd];
        ["sudo"; partedBin; devPath; "--script"; "name"; "1"; "ESP"];
        ["sudo"; partedBin; devPath; "--script"; "set"; "1"; "esp"; "on"] ];
    failIf bad "Failed to create/flag ESP." (
    rc ← execute ["sudo"; partedBin; devPath; "--script"; "mkpart"; "primary"; "ext4"; rootStart; rootEnd];
    failIf (negb (rc =? 0)) "Failed to create root partition." (
    settle devPath ;;
    out ← startAndRead ["lsblk"; "-ln"; "-o"; "NAME"; devPath];
    let parts := Qt.lines out in
    failIf (length parts <? 2)%nat "Could not detect created partitions." (
    let espPart := "/dev/" +:+ hd "" parts in
    let rootPart := "/dev/" +:+ List.last parts "" in
    rc ← execute ["sudo"; "mkfs.fat"; "-F32"; espPart];
    failIf (negb (rc =? 0)) "Failed to format ESP." (
    rc ← execute ["sudo"; "mkfs.ext4"; "-F"; rootPart];
    failIf (negb (rc =? 0)) "Failed to format root." (
    execute ["sudo"; "e2fsck"; "-f"; rootPart] ;;
    emit (LogMessage "Mounting new partitions...") ;;
    execute ["sudo"; "mount"; rootPart; "/mnt"] ;;
    execute ["sudo"; "mkdir"; "-p"; "/mnt/boot/efi"] ;;
    execute ["sudo"; "mount"; espPart; "/mnt/boot/efi"] ;;
    recordTargetMountState rootPart espPart ;;
    emit InstallComplete))))))
  else
    let biosStart := "1MiB" in
    let biosEnd := "2MiB" in
    rc ← execute ["sudo"; partedBin; devPath; "--script"; "mkpart"; "primary"; biosStart; biosEnd];
    failIf (negb (rc =? 0)) "Failed to create bios_grub partition." (
    rc ← execute ["sudo"; partedBin; devPath; "--script"; "set"; "1"; "bios_grub"; "on"];
    failIf (negb (rc =? 0)) "Failed to set bios_grub flag." (
    out ← startAndRead ["sudo"; partedBin; devPath; "-m"; "unit"; "MiB"; "print"];
    let diskEndMiB := diskEndFromLines devPath (Qt.lines out) in
    failIf (diskEndMiB <=? 0) "Could not determine disk size." (
    let rootStart := "2MiB" in
    let rootEnd := Qt.number (diskEndMiB - 1) +:+ "MiB" in
    rc ← execute ["sudo"; partedBin; devPath; "--script"; "mkpart"; "primary"; "ext4"; rootStart; rootEnd];
    failIf (negb (rc =? 0)) "Failed to create root partition." (
    settle devPath ;;
    out ← startAndRead ["lsblk"; "-ln"; "-o"; "NAME"; devPath];
    let parts := Qt.lines out in
    failIf (Nat.eqb (length parts) 0) "Could not detect created root partition." (
    let rootPart := "/dev/" +:+ List.last parts "" in
    rc ← execute ["sudo"; "mkfs.ext4"; "-F"; rootPart];
    failIf (negb (rc =? 0)) "Failed to format root." (
    execute ["sudo"; "e2fsck"; "-f"; rootPart] ;;
    emit (LogMessage "Mounting root partition...") ;;
    execute ["sudo"; "mount"; rootPart; "/mnt"] ;;
    recordTargetMountState rootPart "" ;;
    emit InstallComplete))))))).

(** *** [recreateFromSelectedPartition]

    In the BIOS branch of the source, lines 845-885 repeat fragments of the
    neighbouring blocks with unbalanced braces and do not parse as part of
    the function.  The branch is embedded from its two complete blocks:
    the reuse of an existing bios_grub partition (lines 781-810) and the
    carving of a new one followed by the creation of root (lines 886-959,
    whose first part is also lines 812-844). *)

(** EFI, an ESP exists: root alone in the freed region. *)
Definition recreateReusingEsp (partedBin devPath existingEsp : string) (startMiB endMiB : Z)
    : M W unit :=
  before ← childPartitionsSet devPath;
  let rootStart := Qt.number startMiB +:+ "MiB" in
  let rootEnd := Qt.number (endMiB - 1) +:+ "MiB" in
  rc ← execute ["sudo"; partedBin; devPath; "--script"; "mkpart"; "primary"; "ext4"; rootStart; rootEnd];
  failIf (negb (rc =? 0)) "Failed to create root (existing partition)." (
  settle devPath ;;
  detectOrFail devPath before "Could not uniquely detect new root partition." (fun rootPart =>
  let espPart := existingEsp in
  rc ← execute ["sudo"; "mkfs.ext4"; "-F"; rootPart];
  failIf (negb (rc =? 0)) "Failed to format root." (
  execute ["sudo"; "e2fsck"; "-f"; rootPart] ;;
  emit (LogMessage "Mounting root partition...") ;;
  rc ← execute ["sudo"; "mount"; rootPart; "/mnt"];
  failIf (negb (rc =? 0)) "Failed to mount root at /mnt." (
  execute ["sudo"; "mkdir"; "-p"; "/mnt/boot/efi"] ;;
  rc ← execute ["sudo"; "mount"; espPart; "/mnt/boot/efi"];
  failIf (negb (rc =? 0)) "Failed to mount existing ESP at /mnt/boot/efi." (
  recordTargetMountState rootPart espPart ;;
  emit InstallComplete))))).

(** EFI, no ESP: a new ESP of 512 MiB, then root. *)
Definition recreateCarvingEsp (partedBin devPath : string) (startMiB endMiB : Z)
    : M W unit :=
  baseline ← childPartitionsSet devPath;
  let espStart := Qt.number startMiB +:+ "MiB" in
  let espEnd := Qt.number (startMiB + 512) +:+ "MiB" in
  rc ← execute ["sudo"; partedBin; devPath; "--script"; "mkpart"; "primary"; "fat32"; espStart; espEnd];
  failIf (negb (rc =? 0)) "Failed to create ESP (existing partition)." (
  settle devPath ;;
  detectOrFail devPath baseline "Could not uniquely detect new ESP." (fun espPart =>
  let espNum := partitionNumberFromPath espPart in
  failIf (Qt.isEmpty espNum) "Could not determine ESP partition number." (
  execute ["sudo"; partedBin; devPath; "--script"; "name"; espNum; "ESP"] ;;
  execute ["sudo"; partedBin; devPath; "--script"; "set"; espNum; "esp"; "on"] ;;
  beforeRoot ← childPartitionsSet devPath;
  let rootStart := espEnd in
  let rootEnd := Qt.number (endMiB - 1) +:+ "MiB" in
  rc ← execute ["sudo"; partedBin; devPath; "--script"; "mkpart"; "primary"; "ext4"; rootStart; rootEnd];
  failIf (negb (rc =? 0)) "Failed to create root (existing partition)." (
  settle devPath ;;
  detectOrFail devPath beforeRoot "Could not uniquely detect new root partition." (fun rootPart =>
  rc ← execute ["sudo"; "mkfs.fat"; "-F32"; espPart];
  failIf (negb (rc =? 0)) "Failed to format ESP." (
  rc ← execute ["sudo"; "mkfs.ext4"; "-F"; rootPart];
  failIf (negb (rc =? 0)) "Failed to format root." (
  execute ["sudo"; "e2fsck"; "-f"; rootPart] ;;
  emit (LogMessage "Mounting root partition...") ;;
  rc ← execute ["sudo"; "mount"; rootPart; "/mnt"];
  failIf (negb (rc =? 0)) "Failed to mount root at /mnt." (
  execute ["sudo"; "mkdir"; "-p"; "/mnt/boot/efi"] ;;
  execute ["sudo"; "mount"; espPart; "/mnt/boot/efi"] ;;
  recordTargetMountState rootPart espPart ;;
  emit InstallComplete)))))))).

(** BIOS, a bios_grub partition exists: root alone in the freed region. *)
Definition recreateReusingBiosGrub (partedBin devPath existingBios : string)
    (startMiB endMiB : Z) : M W unit :=
  emit (LogMessage ("Found existing bios_grub partition: " +:+ existingBios)) ;;
  before ← childPartitionsSet devPath;
  let rootStart := Qt.number startMiB +:+ "MiB" in
  let rootEnd := Qt.number (endMiB - 1) +:+ "MiB" in
  rc ← execute ["sudo"; partedBin; devPath; "--script"; "mkpart"; "primary"; "ext4"; rootStart; rootEnd];
  failIf (negb (rc =? 0)) "Failed to create root (existing partition)." (
  settle devPath ;;
  detectOrFail devPath before "Could not uniquely detect new root partition." (fun rootDev =>
  rc ← execute ["sudo"; "mkfs.ext4"; "-F"; rootDev];
  failIf (negb (rc =? 0)) "Failed to format root." (
  execute ["sudo"; "e2fsck"; "-f"; rootDev] ;;
  emit (LogMessage "Mounting root partition...") ;;
  rc ← execute ["sudo"; "mount"; rootDev; "/mnt"];
  failIf (negb (rc =? 0)) "Failed to mount root at /mnt." (
  recordTargetMountState rootDev "" ;;
  emit InstallComplete)))).

(** BIOS, no bios_grub: a new one of 2 MiB at the start of the freed
    region, then root. *)
Definition recreateCarvingBiosGrub (partedBin devPath : string) (startMiB endMiB : Z)
    : M W unit :=
  let biosEndMiB := startMiB + 2 in
  failIf (endMiB <=? biosEndMiB)
    "Selected partition is too small to host bios_grub and root partitions." (
  let biosStart := Qt.number startMiB +:+ "MiB" in
  let biosEnd := Qt.number biosEndMiB +:+ "MiB" in
  beforeBios ← childPartitionsSet devPath;
  rc ← execute ["sudo"; partedBin; devPath; "--script"; "mkpart"; "primary"; biosStart; biosEnd];
  failIf (negb (rc =? 0)) "Failed to create bios_grub partition." (
  settle devPath ;;
  detectOrFail devPath beforeBios "Could not detect newly created bios_grub partition." (fun biosPart =>
  let biosNum := partitionNumberFromPath biosPart in
  failIf (Qt.isEmpty biosNum) "Could not determine bios_grub partition number." (
  rc ← execute ["sudo"; partedBin; devPath; "--script"; "set"; biosNum; "bios_grub"; "on"];
  failIf (negb (rc =? 0)) "Failed to flag bios_grub partition." (
  emit (LogMessage ("Created bios_grub partition: " +:+ biosPart)) ;;
  let rootStartMiB := biosEndMiB in
  failIf (endMiB <=? rootStartMiB + 1)
    "Remaining space after bios_grub is insufficient for root partition." (
  let rootStart := Qt.number rootStartMiB +:+ "MiB" in
  let rootEnd := Qt.number (endMiB - 1) +:+ "MiB" in
  beforeRoot ← childPartitionsSet devPath;
  rc ← execute ["sudo"; partedBin; devPath; "--script"; "mkpart"; "primary"; "ext4"; rootStart; rootEnd];
  failIf (negb (rc =? 0)) "Failed to create root (existing partition)." (
  settle devPath ;;
  detectOrFail devPath beforeRoot "Could not uniquely detect new root partition." (fun rootDev =>
  rc ← execute ["sudo"; "mkfs.ext4"; "-F"; rootDev];
  failIf (negb (rc =? 0)) "Failed to format root." (
  execute ["sudo"; "e2fsck"; "-f"; rootDev] ;;
  emit (LogMessage "Mounting root partition...") ;;
  rc ← execute ["sudo"; "mount"; rootDev; "/mnt"];
  failIf (negb (rc =? 0)) "Failed to mount root at /mnt." (
  recordTargetMountState rootDev "" ;;
  emit InstallComplete)))))))))).

Definition recreateFromSelectedPartition (self : InstallerWorker)
    (partedBin devPath : string) : M W unit :=
  geo ← getPartitionGeometry (targetPartition self) (selectedDrive self) "" "";
  let '(found, startStr, endStr) := geo in
  failIf (negb found) "Could not query selected partition geometry (parted)." (
  let '(valid, startMiB, endMiB) := parseMiBToBounds startStr endStr 0 0 in
  failIf (negb valid) "Invalid geometry for selected partition." (
  isEsp ← (if efiInstall self then
             existingEsp ← findExistingEsp partedBin devPath;
             ct ← ask (canonicalFilePath (targetPartition self));
             ce ← ask (canonicalFilePath existingEsp);
             mret (negb (Qt.isEmpty existingEsp) && String.eqb ct ce)%bool
           else mret false);
  failIf isEsp
    "Selected partition is the EFI System Partition. Please choose a different partition for root." (
  execute ["sudo"; "umount"; "-l"; targetPartition self] ;;
  let partNum := partitionNumberFromPath (targetPartition self) in
  failIf (Qt.isEmpty partNum) "Could not determine selected partition number." (
  rc ← execute ["sudo"; partedBin; devPath; "--script"; "rm"; partNum];
  failIf (negb (rc =? 0)) "Failed to delete selected partition." (
  settle devPath ;;
  if efiInstall self then
    existingEsp ← findExistingEsp partedBin devPath;
    if negb (Qt.isEmpty existingEsp)
    then recreateReusingEsp partedBin devPath existingEsp startMiB endMiB
    else recreateCarvingEsp partedBin devPath startMiB endMiB
  else
    existingBios ← findExistingBiosGrub partedBin devPath;
    if negb (Qt.isEmpty existingBios)
    then recreateReusingBiosGrub partedBin devPath existingBios startMiB endMiB
    else recreateCarvingBiosGrub partedBin devPath startMiB endMiB))))).

(** *** [createFromFreeSpace] *)

(** The lambda [miB]: [QString::number(static_cast<qulonglong>(v + 0.5)) + "MiB"]. *)
Definition miB (v : Q) : string :=
  Qt.number (Num.truncate (v + (1 # 2))) +:+ "MiB".

(** The lambda [toMiBnum]. *)
Definition toMiBnum (s : string) : Q := Num.toDouble (Qt.keepDigitsAndDots s).

(** The lambda [stripMiB]. *)
Definition stripMiB (s : string) : Q := Num.toDouble (Qt.removeCI "MiB" s).

(** [selStartMiB] and [selEndMiB], read from a ["__FREE__:start:end"] token. *)
Definition selectedExtent (targetPartition : string) : Q * Q :=
  if Qt.startsWith "__FREE__:" targetPartition then
    let t := Qt.split ":" targetPartition in
    if (3 <=? length t)%nat
    then (Num.toDouble (Qt.at_ t 1), Num.toDouble (Qt.at_ t 2))
    else (- (1), - (1))%Q
  else (- (1), - (1))%Q.

(** One turn of the loop over the lines of [parted -m print free]; the
    state is [(bestSize, bestStart, bestEnd)]. *)
Definition largestFreeStep (best : Q * Q * Q) (lRaw : string) : Q * Q * Q :=
  let '(bestSize, bestStart, bestEnd) := best in
  let l := Qt.trimmed lRaw in
  if Qt.isEmpty l then best
  else if Qt.startsWith "BYT" l then best
  else if Qt.startsWith "/dev/" l then best
  else
    let cols := Qt.split ":" l in
    if (length cols <? 4)%nat then best
    else
      let isFree := existsb (fun c => Qt.equalCI c "free") cols in
      if negb isFree then best
      else
        let s := toMiBnum (Qt.at_ cols 1) in
        let e := toMiBnum (Qt.at_ cols 2) in
        let z := toMiBnum (Qt.at_ cols 3) in
        if negb (Num.ltb bestSize z && Num.ltb s e) then best
        else (z, s, e).

Definition largestFree (lines : list string) : Q * Q * Q :=
  foldl largestFreeStep (0, - (1), - (1))%Q lines.

(** The extent the strategy settles on, as the two ["<n>MiB"] strings, with
    the message logged for it; [None] is "No suitable free space found." *)
Definition chooseExtent (targetPartition : string) (lines : list string)
    : option (string * string * string) :=
  let '(selStartMiB, selEndMiB) := selectedExtent targetPartition in
  if (Num.ltb 0 selStartMiB && Num.ltb selStartMiB selEndMiB)%bool then
    let bestStartStr := miB selStartMiB in
    let bestEndStr := miB selEndMiB in
    Some (bestStartStr, bestEndStr,
          "Using selected free extent: " +:+ bestStartStr +:+ " → " +:+ bestEndStr)
  else
    let '(bestSize, bestStart, bestEnd) := largestFree lines in
    if Num.ltb bestStart 0 then None
    else
      let bestStartStr := miB bestStart in
      let bestEndStr := miB bestEnd in
      Some (bestStartStr, bestEndStr,
            "Using largest free extent: " +:+ bestStartStr +:+ " → " +:+ bestEndStr).

(** The common end of the EFI branch: format and mount. *)
Definition freeSpaceFormatAndMount (espPart rootPart : string) (createdNewEsp : bool)
    : M W unit :=
  let formatRootAndMount : M W unit :=
    emit (LogMessage "Formatting root as ext4…") ;;
    rc ← execute ["sudo"; "mkfs.ext4"; "-F"; rootPart];
    failIf (negb (rc =? 0)) "Failed to format root." (
    execute ["sudo"; "e2fsck"; "-f"; rootPart] ;;
    emit (LogMessage "Mounting partitions…") ;;
    execute ["sudo"; "mount"; rootPart; "/mnt"] ;;
    execute ["sudo"; "mkdir"; "-p"; "/mnt/boot/efi"] ;;
    execute ["sudo"; "mount"; espPart; "/mnt/boot/efi"] ;;
    emit InstallComplete) in
  if createdNewEsp then
    emit (LogMessage "Formatting new ESP as FAT32…") ;;
    rc ← execute ["sudo"; "mkfs.fat"; "-F32"; espPart];
    failIf (negb (rc =? 0)) "Failed to format new ESP." formatRootAndMount
  else
    emit (LogMessage "Reusing existing ESP (will not format) …") ;;
    formatRootAndMount.

(** EFI, an ESP exists on the disk: it must be FAT, and root takes the
    whole extent. *)
Definition freeSpaceReusingEsp (partedBin devPath existingEsp : string) (startMiB endMiB : Q)
    : M W unit :=
  let espPart := existingEsp in
  emit (LogMessage ("Found existing ESP: " +:+ espPart)) ;;
  vfat ← isPartitionVfat espPart;
  failIf (negb vfat)
    ("Existing ESP (" +:+ espPart +:+ ") is not FAT32. Refusing to modify it.") (
  before ← childPartitionsSet devPath;
  let rootStart := miB startMiB in
  let rootEnd := miB (endMiB - 1) in
  rc ← execute ["sudo"; partedBin; devPath; "--script";
                "mkpart"; "primary"; "ext4"; rootStart; rootEnd];
  failIf (negb (rc =? 0)) "Failed to create root partition (free space)." (
  settle devPath ;;
  detectOrFail devPath before "Could not uniquely detect new root partition." (fun rootPart =>
  freeSpaceFormatAndMount espPart rootPart false))).

(** EFI, no ESP: a new ESP of 512 MiB at the start of the extent, then root
    in what remains. *)
Definition freeSpaceCarvingEsp (partedBin devPath : string) (startMiB endMiB : Q)
    : M W unit :=
  beforeEsp ← childPartitionsSet devPath;
  let espStart := miB startMiB in
  let espEnd := miB (startMiB + 512) in
  rc ← execute ["sudo"; partedBin; devPath; "--script";
                "mkpart"; "primary"; "fat32"; espStart; espEnd];
  failIf (negb (rc =? 0)) "Failed to create ESP (free space)." (
  settle devPath ;;
  detectOrFail devPath beforeEsp "Could not uniquely detect new ESP." (fun espPart =>
  let espNum := partitionNumberFromPath espPart in
  failIf (Qt.isEmpty espNum) "Could not determine ESP partition number." (
  execute ["sudo"; partedBin; devPath; "--script"; "name"; espNum; "ESP"] ;;
  execute ["sudo"; partedBin; devPath; "--script"; "set"; espNum; "esp"; "on"] ;;
  beforeRoot ← childPartitionsSet devPath;
  let rootStart := espEnd in
  let rootEnd := miB (endMiB - 1) in
  rc ← execute ["sudo"; partedBin; devPath; "--script";
                "mkpart"; "primary"; "ext4"; rootStart; rootEnd];
  failIf (negb (rc =? 0)) "Failed to create root partition (free space)." (
  settle devPath ;;
  detectOrFail devPath beforeRoot "Could not uniquely detect new root partition." (fun rootPart =>
  freeSpaceFormatAndMount espPart rootPart true))))).

(** BIOS: a single ext4 root in the extent. *)
Definition freeSpaceBiosRoot (partedBin devPath : string) (startMiB endMiB : Q)
    : M W unit :=
  before ← childPartitionsSet devPath;
  let rootStart := miB startMiB in
  let rootEnd := miB (endMiB - 1) in
  rc ← execute ["sudo"; partedBin; devPath; "--script";
                "mkpart"; "primary"; "ext4"; rootStart; rootEnd];
  failIf (negb (rc =? 0)) "Failed to create root partition (free space)." (
  settle devPath ;;
  detectOrFail devPath before "Could not uniquely detect new root partition." (fun rootPartNew =>
  emit (LogMessage "Formatting root as ext4…") ;;
  rc ← execute ["sudo"; "mkfs.ext4"; "-F"; rootPartNew];
  failIf (negb (rc =? 0)) "Failed to format root." (
  execute ["sudo"; "e2fsck"; "-f"; rootPartNew] ;;
  emit (LogMessage "Mounting root partition…") ;;
  rc ← execute ["sudo"; "mount"; rootPartNew; "/mnt"];
  failIf (negb (rc =? 0)) "Failed to mount root at /mnt." (
  emit InstallComplete)))).

(** The part of [createFromFreeSpace] that follows the choice of the
    extent: the size check, then one of the three layouts. *)
Definition createInExtent (efi : bool) (partedBin devPath bestStartStr bestEndStr : string)
    : M W unit :=
  let startMiB := stripMiB bestStartStr in
  let endMiB := stripMiB bestEndStr in
  failIf (Num.leb endMiB (startMiB + 10)) "Selected free space is too small." (
  baseline ← childPartitionsSet devPath;
  if efi then
    existingEsp ← findExistingEsp partedBin devPath;
    if negb (Qt.isEmpty existingEsp)
    then freeSpaceReusingEsp partedBin devPath existingEsp startMiB endMiB
    else freeSpaceCarvingEsp partedBin devPath startMiB endMiB
  else freeSpaceBiosRoot partedBin devPath startMiB endMiB).

Definition createFromFreeSpace (self : InstallerWorker) (partedBin devPath : string)
    : M W unit :=
  emit (LogMessage "Searching for free space…") ;;
  out ← startAndRead ["sudo"; partedBin; devPath; "-m"; "unit"; "MiB"; "print"; "free"];
  let lines := Qt.lines out in
  match chooseExtent (targetPartition self) lines with
  | None => emit (ErrorOccurred "No suitable free space found.")
  | Some (bestStartStr, bestEndStr, msg) =>
      emit (LogMessage msg) ;;
      createInExtent (efiInstall self) partedBin devPath bestStartStr bestEndStr
  end.

(** *** [run] *)

(** The [WipeDrive] branch of [run]. *)
Definition runWipeDrive (self : InstallerWorker) (partedBin devPath : string) : M W unit :=
  let efi := efiInstall self in
  emit (LogMessage (if efi then "Preparing drive for EFI (GPT + ESP + root)"
                    else "Preparing drive for BIOS/GRUB (GPT + bios_grub + root)")) ;;
  rc ← execute ["sudo"; partedBin; devPath; "--script"; "mklabel"; "gpt"];
  failIf (negb (rc =? 0)) "Failed to create GPT partition table." (
  settle devPath ;;
  let formatAndMount : M W unit :=
    settle devPath ;;
    out ← startAndRead ["lsblk"; "-ln"; "-o"; "NAME"; devPath];
    let parts := Qt.lines out in
    failIf (length parts <? 2)%nat "Could not detect created partitions after wipe." (
    let espPart := if efi then "/dev/" +:+ Qt.at_ parts (length parts - 2) else "" in
    let rootPart := "/dev/" +:+ List.last parts "" in
    let formatRootAndMount : M W unit :=
      emit (LogMessage "Formatting root as ext4...") ;;
      rc ← execute ["sudo"; "mkfs.ext4"; "-F"; rootPart];
      failIf (negb (rc =? 0)) "Failed to format root partition." (
      execute ["sudo"; "e2fsck"; "-f"; rootPart] ;;
      emit (LogMessage "Mounting new partitions...") ;;
      execute ["sudo"; "mount"; rootPart; "/mnt"] ;;
      (if efi then
         execute ["sudo"; "mkdir"; "-p"; "/mnt/boot/efi"] ;;
         execute ["sudo"; "mount"; espPart; "/mnt/boot/efi"] ;;
         mret tt
       else mret tt) ;;
      recordTargetMountState rootPart (if efi then espPart else "") ;;
      emit InstallComplete) in
    if efi then
      emit (LogMessage "Formatting ESP as FAT32...") ;;
      rc ← execute ["sudo"; "mkfs.fat"; "-F32"; espPart];
      failIf (negb (rc =? 0)) "Failed to format ESP." formatRootAndMount
    else formatRootAndMount) in
  if efi then
    bad ← anyFails
      [ ["sudo"; partedBin; devPath; "--script"; "mkpart"; "primary"; "fat32"; "1MiB"; "513MiB"];
        ["sudo"; partedBin; devPath; "--script"; "name"; "1"; "ESP"];
        ["sudo"; partedBin; devPath; "--script"; "set"; "1"; "esp"; "on"] ];
    failIf bad "Failed to create/set ESP partition." (
    rc ← execute ["sudo"; partedBin; devPath; "--script"; "mkpart"; "primary"; "ext4"; "513MiB"; "100%"];
    failIf (negb (rc =? 0)) "Failed to create root partition." formatAndMount)
  else
    bad ← anyFails
      [ ["sudo"; partedBin; devPath; "--script"; "mkpart"; "primary"; "1MiB"; "3MiB"];
        ["sudo"; partedBin; devPath; "--script"; "set"; "1"; "bios_grub"; "on"] ];
    failIf bad "Failed to create/set bios_grub partition." (
    rc ← execute ["sudo"; partedBin; devPath; "--script"; "mkpart"; "primary"; "ext4"; "3MiB"; "100%"];
    failIf (negb (rc =? 0)) "Failed to create root partition." formatAndMount)).

(** [run]; the [qputenv("PATH", ...)] of its first line only changes the
    environment of the worker's own process. *)
Definition run (self : InstallerWorker) : M W unit :=
  partedBin ← locatePartedBinary;
  failIf (Qt.isEmpty partedBin) "parted not found" (
  removeFile targetStateFilePath ;;
  let devPath := "/dev/" +:+ selectedDrive self in
  emit (LogMessage ("efiInstall = " +:+ (if efiInstall self then "true" else "false"))) ;;
  emit (LogMessage "Preparing mounts...") ;;
  safePreflightUnmounts devPath ;;
  match mode self with
  | WipeDrive => runWipeDrive self partedBin devPath
  | UseFreeSpace => createFromFreeSpace self partedBin devPath
  | UsePartition => recreateFromSelectedPartition self partedBin devPath
  end).

End Worker.

(** ** A scripted machine

    A small stand-in for a host with a system disk [sda] (root on [sda2])
    and a target disk [sdb], used to run the worker on concrete inputs.  It
    answers the commands the worker issues from the partition table it
    keeps; [parted mkpart] adds the lowest free partition number and
    [parted rm] removes one. *)

Module Scripted.

Record Host : Type := {
  (** numbers of the partitions of [sdb], in table order *)
  partitions : list Z;
  (** size of [sdb] in MiB *)
  diskSizeMiB : Z;
  (** what [findmnt -no SOURCE /] prints *)
  rootSource : string;
  (** rows of [lsblk -o NAME,TYPE,PKNAME,PARTTYPE,PARTLABEL,FSTYPE] for [sdb] *)
  typedRows : list string;
  (** partition rows of [parted -m ... print], flags included *)
  partedRows : list string;
  (** rows of [parted -m ... print free] *)
  freeRows : list string;
  (** the table [parted ... unit MiB print] shows for [sdb] *)
  humanRows : list string;
  (** rows of [lsblk -o NAME,TYPE,MOUNTPOINT /dev/sdb] *)
  mountRows : list string;
  (** commands that exit with status 1 *)
  failing : list (list string);
  (** JSON files on disk *)
  jsonFiles : gmap string (gmap string string)
}.

Definition unlines (rows : list string) : string :=
  foldr (fun r acc => r +:+ newline +:+ acc) "" rows.

Definition partName (n : Z) : string := "sdb" +:+ Qt.number n.

(** The lowest partition number not in use, searched from [n]. *)
Fixpoint lowestFree (fuel : nat) (n : Z) (used : list Z) : Z :=
  match fuel with
  | O => n
  | S fuel' => if bool_decide (n ∈ used) then lowestFree fuel' (n + 1) used else n
  end.

Definition withPartitions (h : Host) (ps : list Z) : Host :=
  {| partitions := ps; diskSizeMiB := diskSizeMiB h; rootSource := rootSource h;
     typedRows := typedRows h; partedRows := partedRows h; freeRows := freeRows h;
     humanRows := humanRows h; mountRows := mountRows h; failing := failing h;
     jsonFiles := jsonFiles h |}.

Definition withJsonFiles (h : Host) (fs : gmap string (gmap string string)) : Host :=
  {| partitions := partitions h; diskSizeMiB := diskSizeMiB h; rootSource := rootSource h;
     typedRows := typedRows h; partedRows := partedRows h; freeRows := freeRows h;
     humanRows := humanRows h; mountRows := mountRows h; failing := failing h;
     jsonFiles := fs |}.

Definition withFreeRows (h : Host) (rows : list string) : Host :=
  {| partitions := partitions h; diskSizeMiB := diskSizeMiB h; rootSource := rootSource h;
     typedRows := typedRows h; partedRows := partedRows h; freeRows := rows;
     humanRows := humanRows h; mountRows := mountRows h; failing := failing h;
     jsonFiles := jsonFiles h |}.

Definition exitCode (h : Host) (argv : list string) : Z :=
  if bool_decide (argv ∈ failing h) then 1 else 0.

Definition hostExit (argv : list string) (h : Host) : Z * Host :=
  let rc := exitCode h argv in
  if negb (rc =? 0) then (rc, h)
  else if String.eqb (Qt.at_ argv 4) "mkpart" then
    (rc, withPartitions h
           (partitions h ++ [lowestFree (S (length (partitions h))) 1 (partitions h)]))
  else if String.eqb (Qt.at_ argv 4) "rm" then
    (rc, withPartitions h
           (List.filter (fun n => negb (String.eqb (Qt.number n) (Qt.at_ argv 5)))
                        (partitions h)))
  else (rc, h).

Definition sdaRows : list string :=
  ["sda disk"; "sda1 part sda"; "sda2 part sda"].

Definition sdbRows (h : Host) : list string :=
  "sdb disk" :: map (fun n => partName n +:+ " part sdb") (partitions h).

Definition hostOutput (argv : list string) (h : Host) : string * Host :=
  let out :=
    match argv with
    | ["findmnt"; _; _; _] => rootSource h +:+ newline
    | ["lsblk"; "-ln"; "-o"; "NAME,TYPE,PKNAME"] => unlines (sdaRows ++ sdbRows h)
    | ["lsblk"; "-ln"; "-o"; "NAME,TYPE,PKNAME"; dev] =>
        if String.eqb dev "/dev/sda" then unlines sdaRows
        else if String.eqb dev "/dev/sdb" then unlines (sdbRows h)
        else if Qt.startsWith "/dev/sda" dev then Qt.mid 5 dev +:+ " part sda" +:+ newline
        else if Qt.startsWith "/dev/sdb" dev then Qt.mid 5 dev +:+ " part sdb" +:+ newline
        else ""
    | ["lsblk"; "-ln"; "-o"; "NAME,TYPE,MOUNTPOINT"; _] => unlines (mountRows h)
    | ["lsblk"; "-ln"; "-o"; "NAME"; _] => unlines ("sdb" :: map partName (partitions h))
    | ["lsblk"; "-ln"; "-o"; _] => unlines (typedRows h)
    | ["lsblk"; "-no"; "FSTYPE"; _] => "vfat" +:+ newline
    | ["blkid"; "-U"; "0a1b2c3d-root"] => "/dev/sda2" +:+ newline
    | ["sudo"; _; _; "-m"; "unit"; "MiB"; "print"] =>
        unlines (["BYT;"; "/dev/sdb:" +:+ Qt.number (diskSizeMiB h) +:+ "MiB:scsi:512:512:gpt:QEMU HARDDISK:;"]
                 ++ partedRows h)
    | ["sudo"; _; _; "-m"; "unit"; "MiB"; "print"; "free"] =>
        unlines (["BYT;"; "/dev/sdb:" +:+ Qt.number (diskSizeMiB h) +:+ "MiB:scsi:512:512:gpt:QEMU HARDDISK:;"]
                 ++ freeRows h)
    | ["sudo"; "parted"; _; "unit"; "MiB"; "print"] => unlines (humanRows h)
    | _ => ""
    end in
  (out, h).

#[global] Instance hostMachine : Machine Host := {|
  processExit := hostExit;
  processOutput := hostOutput;
  findExecutable := fun name _ => if String.eqb name "parted" then "/usr/sbin/parted" else "";
  fileExists := fun _ _ => false;
  canonicalFilePath := fun path _ => path;
  fileLines := fun _ _ => None;
  fileRemove := fun path h => withJsonFiles h (delete path (jsonFiles h));
  fileOpensForWrite := fun _ _ => true;
  fileWriteJson := fun path obj h => withJsonFiles h (<[path := obj]> (jsonFiles h));
  dirEntries := fun _ _ => None
|}.

(** An empty 50 GiB [sdb] next to the system disk, a stale state file left
    by an earlier run, every command succeeding. *)
Definition blank : Host := {|
  partitions := [];
  diskSizeMiB := 51200;
  rootSource := "/dev/sda2";
  typedRows := [];
  partedRows := [];
  freeRows := ["1:0.02MiB:51200MiB:51200MiB:free;"];
  humanRows := [];
  mountRows := ["sdb disk"];
  failing := [];
  jsonFiles := {[ targetStateFilePath := {[ "root" := "/dev/sdz9" ]} ]}
|}.

Definition withRootSource (h : Host) (src : string) : Host :=
  {| partitions := partitions h; diskSizeMiB := diskSizeMiB h; rootSource := src;
     typedRows := typedRows h; partedRows := partedRows h; freeRows := freeRows h;
     humanRows := humanRows h; mountRows := mountRows h; failing := failing h;
     jsonFiles := jsonFiles h |}.

Definition withFailing (h : Host) (cmds : list (list string)) : Host :=
  {| partitions := partitions h; diskSizeMiB := diskSizeMiB h; rootSource := rootSource h;
     typedRows := typedRows h; partedRows := partedRows h; freeRows := freeRows h;
     humanRows := humanRows h; mountRows := mountRows h; failing := cmds;
     jsonFiles := jsonFiles h |}.

(** [sdb] with a data partition [sdb1] (1-100 MiB) and a partition [sdb3]
    from [start] to [stop] MiB; no ESP and no bios_grub partition. *)
Definition dataDisk (start stop : Z) : Host := {|
  partitions := [1; 3];
  diskSizeMiB := 51200;
  rootSource := "/dev/sda2";
  typedRows := ["sdb disk"; "sdb1 part sdb 0fc63daf-8483-4772-8e79-3d69d8477de4 data ext4"];
  partedRows := ["1:1.00MiB:100MiB:99.0MiB:ext4:data:;"];
  freeRows := [];
  humanRows :=
    ["Number  Start    End      Size     File system  Name  Flags";
     " 1      1.00MiB  100MiB   99.0MiB  ext4         data";
     " 3      " +:+ Qt.number start +:+ "MiB   " +:+ Qt.number stop +:+ "MiB   "
       +:+ Qt.number (stop - start) +:+ "MiB   ext4         old"];
  mountRows := ["sdb disk"; "sdb1 part"; "sdb3 part"];
  failing := [];
  jsonFiles := {[ targetStateFilePath := {[ "root" := "/dev/sdz9" ]} ]}
|}.

(** The same disk when [sdb1] is an EFI System Partition. *)
Definition espDisk (start stop : Z) : Host := {|
  partitions := [1; 3];
  diskSizeMiB := 51200;
  rootSource := "/dev/sda2";
  typedRows := ["sdb disk"; "sdb1 part sdb c12a7328-f81f-11d2-ba4b-00a0c93ec93b ESP vfat"];
  partedRows := ["1:1.00MiB:100MiB:99.0MiB:fat32:ESP:boot, esp;"];
  freeRows := [];
  humanRows :=
    ["Number  Start    End      Size     File system  Name  Flags";
     " 1      1.00MiB  100MiB   99.0MiB  fat32        ESP   boot, esp";
     " 3      " +:+ Qt.number start +:+ "MiB   " +:+ Qt.number stop +:+ "MiB   "
       +:+ Qt.number (stop - start) +:+ "MiB   ext4         old"];
  mountRows := ["sdb disk"; "sdb1 part"; "sdb3 part"];
  failing := [];
  jsonFiles := ∅
|}.

(** The requests the examples make of the worker. *)
Definition wipe (efi : bool) : InstallerWorker :=
  {| selectedDrive := "sdb"; mode := WipeDrive; targetPartition := ""; efiInstall := efi |}.

Definition useFreeSpace (token : string) (efi : bool) : InstallerWorker :=
  {| selectedDrive := "sdb"; mode := UseFreeSpace; targetPartition := token; efiInstall := efi |}.

Definition usePartition (part : string) (efi : bool) : InstallerWorker :=
  {| selectedDrive := "sdb"; mode := UsePartition; targetPartition := part; efiInstall := efi |}.

(** A [parted --script] command line on [sdb]. *)
Definition parted (args : list string) : list string :=
  ["sudo"; "/usr/sbin/parted"; "/dev/sdb"; "--script"] ++ args.

End Scripted.

(** ** Vocabulary of the statements *)

(** [if (startMiB < 1) startMiB = 1;] applied to [ceil s]. *)
Definition clampedStart (s : Q) : Z := if Num.ceil s <? 1 then 1 else Num.ceil s.

(** The program a command line runs: the word after [sudo] when there is
    one. *)
Definition programOf (argv : list string) : string :=
  match argv with
  | "sudo" :: p :: _ => p
  | p :: _ => p
  | [] => ""
  end.

(** The command line of a process event. *)
Definition commandOf (e : Event) : option (list string) :=
  match e with
  | Execute argv _ => Some argv
  | Start argv => Some argv
  | _ => None
  end.

(** The commands run with [QProcess::execute], in order. *)
Definition executed (evs : list Event) : list (list string) :=
  omap (fun e => match e with Execute argv _ => Some argv | _ => None end) evs.

(** Holder-kill, swapoff, LUKS-close and VG-deactivate, and the removal of
    device-mapper holders with them. *)
Definition isHolderCommand (e : Event) : bool :=
  match commandOf e with
  | Some argv =>
      bool_decide (programOf argv ∈ ["fuser"; "swapoff"; "cryptsetup"; "vgchange"; "dmsetup"])
  | None => false
  end.

(** The read-only look-ups of the system-disk test. *)
Definition isLookup (e : Event) : bool :=
  match e with
  | Start (p :: _) => bool_decide (p ∈ ["findmnt"; "blkid"; "lsblk"])
  | _ => false
  end.

(** A change of the partition table: a [parted --script] command. *)
Definition isTableMutation (e : Event) : bool :=
  match e with
  | Execute argv _ => String.eqb (Qt.at_ argv 3) "--script"
  | _ => false
  end.

Definition isMkpart (e : Event) : bool :=
  match e with
  | Execute argv _ =>
      (String.eqb (Qt.at_ argv 3) "--script" && String.eqb (Qt.at_ argv 4) "mkpart")%bool
  | _ => false
  end.

#[global] Instance Event_eq_dec : EqDecision Event.
Proof. solve_decision. Defined.

(** A command that ran and exited with status 0. *)
Definition succeeded (argv : list string) : Event := Execute argv 0.

(** The events of a run that pass a test, in order. *)
Definition only (P : Event -> bool) (evs : list Event) : list Event :=
  List.filter P evs.

(** The two mount commands of the staging tree. *)
Definition mountRoot (node : string) : list string := ["sudo"; "mount"; node; "/mnt"].
Definition mountEsp (node : string) : list string := ["sudo"; "mount"; node; "/mnt/boot/efi"].

(** A mount on the staging tree: [sudo mount <node> <dir>]. *)
Definition isMount (e : Event) : bool :=
  match e with
  | Execute argv _ => (Nat.eqb (length argv) 4 && String.eqb (Qt.at_ argv 1) "mount")%bool
  | _ => false
  end.

(** The errors of a failed mount: "Failed to mount root at /mnt." and
    "Failed to mount existing ESP at /mnt/boot/efi." *)
Definition isMountError (e : Event) : bool :=
  match e with
  | ErrorOccurred msg => Qt.startsWith "Failed to mount" msg
  | _ => false
  end.

(** An error about a region that is too small. *)
Definition isTooSmallError (e : Event) : bool :=
  match e with
  | ErrorOccurred msg => Qt.contains "too small" msg
  | _ => false
  end.

(** The arguments of a [parted --script] command: what follows
    [sudo <parted> <disk> --script]. *)
Definition partedArgs (argv : list string) : list string := drop 4 argv.

(** Among [mkpart] commands, only the two of the EFI wipe in [run]. *)
Definition isWipeEfiMkpart (e : Event) : bool :=
  match e with
  | Execute argv _ =>
      (negb (isMkpart e)
       || bool_decide (partedArgs argv = ["mkpart"; "primary"; "fat32"; "1MiB"; "513MiB"])
       || bool_decide (partedArgs argv = ["mkpart"; "primary"; "ext4"; "513MiB"; "100%"]))%bool
  | _ => true
  end.

Definition isWriteJson (e : Event) : bool :=
  match e with WriteJson _ _ => true | _ => false end.

Definition isError (e : Event) : bool :=
  match e with ErrorOccurred _ => true | _ => false end.

Definition isComplete (e : Event) : bool :=
  match e with InstallComplete => true | _ => false end.

(** The free extent a line of [parted -m print free] describes, as
    [(size, start, end)]: the line must pass the filters of the selection
    loop of [createFromFreeSpace]. *)
Definition freeRow (lRaw : string) : option (Q * Q * Q) :=
  let l := Qt.trimmed lRaw in
  if (Qt.isEmpty l || Qt.startsWith "BYT" l || Qt.startsWith "/dev/" l)%bool then None
  else
    let cols := Qt.split ":" l in
    if (length cols <? 4)%nat then None
    else if negb (existsb (fun c => Qt.equalCI c "free") cols) then None
    else Some (toMiBnum (Qt.at_ cols 3), toMiBnum (Qt.at_ cols 1), toMiBnum (Qt.at_ cols 2)).

(** The value of a decimal numeral read from the left, after [acc]. *)
Fixpoint uintValue (d : Decimal.uint) (acc : Z) : Z :=
  match d with
  | Decimal.Nil => acc
  | Decimal.D0 l => uintValue l (10 * acc)
  | Decimal.D1 l => uintValue l (10 * acc + 1)
  | Decimal.D2 l => uintValue l (10 * acc + 2)
  | Decimal.D3 l => uintValue l (10 * acc + 3)
  | Decimal.D4 l => uintValue l (10 * acc + 4)
  | Decimal.D5 l => uintValue l (10 * acc + 5)
  | Decimal.D6 l => uintValue l (10 * acc + 6)
  | Decimal.D7 l => uintValue l (10 * acc + 7)
  | Decimal.D8 l => uintValue l (10 * acc + 8)
  | Decimal.D9 l => uintValue l (10 * acc + 9)
  end.

(** A text of decimal digits only. *)
Fixpoint allDigits (s : string) : bool :=
  match s with
  | EmptyString => true
  | String c r => (Qt.isDigit c && allDigits r)%bool
  end.

(** [v] rounded to the nearest MiB, halves up: what [miB] prints for a
    non-negative [v]. *)
Definition roundMiB (v : Q) : Z := Qfloor (v + (1 # 2)).

(** The extent [createFromFreeSpace] settles on, as numbers: the explicit
    extent of the token when it is usable, else the largest free row. *)
Definition chosenExtent (targetPartition : string) (lines : list string) : option (Q * Q) :=
  let '(selStartMiB, selEndMiB) := selectedExtent targetPartition in
  if (Num.ltb 0 selStartMiB && Num.ltb selStartMiB selEndMiB)%bool
  then Some (selStartMiB, selEndMiB)
  else
    let '(_, bestStart, bestEnd) := largestFree lines in
    if Num.ltb bestStart 0 then None else Some (bestStart, bestEnd).

(** The worker after [setTargetPartition(part)]. *)
Definition withTargetPartition (self : InstallerWorker) (part : string) : InstallerWorker :=
  {| selectedDrive := selectedDrive self; mode := mode self;
     targetPartition := part; efiInstall := efiInstall self |}.

(** The command that lists the free space of a disk. *)
Definition printFree (partedBin devPath : string) : list string :=
  ["sudo"; partedBin; devPath; "-m"; "unit"; "MiB"; "print"; "free"].

(** The unmounts of the staging mount points. *)
Definition stagingUnmounts : list (list string) :=
  [ ["sudo"; "umount"; "-Rl"; "/mnt/boot/efi"];
    ["sudo"; "umount"; "-Rl"; "/mnt/boot"];
    ["sudo"; "umount"; "-Rl"; "/mnt"] ].

(** Every event a computation produces, from any machine state, passes [P]. *)
Definition emitsOnly {W A : Type} (P : Event -> bool) (m : M W A) : Prop :=
  forall w, forallb P (events (m w)) = true.

(** *** Orders of events

    An order of events is given by a transition function on a state; a
    list of events respects it when the transitions never fail. *)
Fixpoint runOver {S : Type} (step : S -> Event -> option S) (s : S) (evs : list Event)
    : option S :=
  match evs with
  | [] => Some s
  | e :: evs' =>
      match step s e with
      | Some s' => runOver step s' evs'
      | None => None
      end
  end.

(** From state [s], every run of [m] respects the order. *)
Definition accepted {W A S : Type} (step : S -> Event -> option S) (s : S) (m : M W A)
    : Prop :=
  forall w, is_Some (runOver step s (events (m w))).

(** From state [s], every run of [m] respects the order and ends in [s']. *)
Definition moves {W A S : Type} (step : S -> Event -> option S) (s s' : S) (m : M W A)
    : Prop :=
  forall w, runOver step s (events (m w)) = Some s'.

(** Root before ESP: the state counts the mounts made so far; the first
    must be on [/mnt], the second on [/mnt/boot/efi], and there is no
    third. *)
Definition mountStep (mounted : nat) (e : Event) : option nat :=
  if isMount e then
    match e, mounted with
    | Execute argv _, O => if String.eqb (Qt.at_ argv 3) "/mnt" then Some 1%nat else None
    | Execute argv _, S O =>
        if String.eqb (Qt.at_ argv 3) "/mnt/boot/efi" then Some 2%nat else None
    | _, _ => None
    end
  else Some mounted.

Definition isRecordOrComplete (e : Event) : bool :=
  match e with
  | WriteJson _ _ | Warning _ | InstallComplete => true
  | _ => false
  end.

(** Record before completion: [installComplete] may only follow, directly,
    the writing of the mount-state file (or the warning that it could not
    be opened). *)
Definition recordStep (recorded : bool) (e : Event) : option bool :=
  match e with
  | WriteJson _ _ => Some true
  | Warning _ => Some true
  | InstallComplete => if recorded then Some false else None
  | _ => Some false
  end.

(** The mount of root on [/mnt], of an ESP on [/mnt/boot/efi]. *)
Definition isRootMount (e : Event) : bool :=
  match e with
  | Execute argv _ => (isMount e && String.eqb (Qt.at_ argv 3) "/mnt")%bool
  | _ => false
  end.

Definition isEspMount (e : Event) : bool :=
  match e with
  | Execute argv _ => (isMount e && String.eqb (Qt.at_ argv 3) "/mnt/boot/efi")%bool
  | _ => false
  end.

(** A command that exited with a status other than 0. *)
Definition hasFailed (e : Event) : bool :=
  match e with
  | Execute _ rc => negb (rc =? 0)
  | _ => false
  end.

(** A failed mount is fatal: once a mount that [which] selects has failed,
    [installComplete] may not follow. *)
Definition fatalStep (which : Event -> bool) (failed : bool) (e : Event) : option bool :=
  if failed then (if isComplete e then None else Some true)
  else Some (which e && hasFailed e)%bool.

(** ** Vocabulary of the further properties *)

(** *** Tests on lists of events *)

(** No event that passes [bad] comes after one that passes [trigger]. *)
Fixpoint noneAfter (trigger bad : Event -> bool) (evs : list Event) : bool :=
  match evs with
  | [] => true
  | e :: evs' =>
      if trigger e then forallb (fun e' => negb (bad e')) evs'
      else noneAfter trigger bad evs'
  end.

(** Every event that passes [late] has one that passes [early] before it. *)
Fixpoint onlyAfter (early late : Event -> bool) (evs : list Event) : bool :=
  match evs with
  | [] => true
  | e :: evs' =>
      if early e then true
      else (negb (late e) && onlyAfter early late evs')%bool
  end.

(** The two outcomes a run signals. *)
Definition isOutcome (e : Event) : bool := (isError e || isComplete e)%bool.

(** One outcome, and it is the last event. *)
Fixpoint endsWithOneOutcome (evs : list Event) : bool :=
  match evs with
  | [] => false
  | e :: evs' =>
      match evs' with
      | [] => isOutcome e
      | _ :: _ => (negb (isOutcome e) && endsWithOneOutcome evs')%bool
      end
  end.

(** The same three tests as orders of events. *)
Definition noneAfterStep (trigger bad : Event -> bool) (seen : bool) (e : Event)
    : option bool :=
  if seen then (if bad e then None else Some true) else Some (trigger e).

Definition onlyAfterStep (early late : Event -> bool) (seen : bool) (e : Event)
    : option bool :=
  if seen then Some true
  else if early e then Some true
  else if late e then None else Some false.

Definition outcomeStep (done : bool) (e : Event) : option bool :=
  if done then None else Some (isOutcome e).

(** *** Tests on commands *)

(** A [parted --script] command: [sudo <parted> <disk> --script <args>]. *)
Definition isPartedScript (e : Event) : bool :=
  match e with
  | Execute argv _ =>
      ((5 <=? length argv)%nat && String.eqb (Qt.at_ argv 3) "--script")%bool
  | _ => false
  end.

(** Every [parted --script] command among the events is on [devPath]. *)
Definition partedScriptOn (devPath : string) (e : Event) : bool :=
  match e with
  | Execute argv _ => implb (isPartedScript e) (String.eqb (Qt.at_ argv 2) devPath)
  | _ => true
  end.

(** The commands of the thorough detach of [bestEffortDetachDevice]:
    [udisksctl unmount|power-off -b], [swapoff], [cryptsetup close],
    [vgchange -an], [fuser -km], [dmsetup remove -f] and
    [blockdev --rereadpt]. *)
Definition isDetachCommand (e : Event) : bool :=
  match e with
  | Execute argv _ =>
      match argv with
      | [_; p; _] => String.eqb p "swapoff"
      | [_; p; a; _] =>
          ((String.eqb p "fuser" && String.eqb a "-km")
           || (String.eqb p "cryptsetup" && String.eqb a "close")
           || (String.eqb p "vgchange" && String.eqb a "-an")
           || (String.eqb p "blockdev" && String.eqb a "--rereadpt"))%bool
      | [_; p; a; b; _] =>
          ((String.eqb p "dmsetup" && String.eqb a "remove" && String.eqb b "-f")
           || (String.eqb p "udisksctl" && String.eqb b "-b"))%bool
      | _ => false
      end
  | _ => false
  end.

(** The errors about the request itself, which the source raises before it
    changes the partition table. *)
Definition preconditionMessages : list string :=
  [ "parted not found";
    "Could not query selected partition geometry (parted).";
    "Invalid geometry for selected partition.";
    "Selected partition is the EFI System Partition. Please choose a different partition for root.";
    "Could not determine selected partition number.";
    "No suitable free space found.";
    "Selected free space is too small." ].

Definition isPreconditionError (e : Event) : bool :=
  match e with
  | ErrorOccurred msg =>
      (existsb (String.eqb msg) preconditionMessages
       || Qt.startsWith "Existing ESP (" msg)%bool
  | _ => false
  end.

(** [mkpart primary <fs> <start> <end>] that exited with status 0. *)
Definition isCreated (fs : string) (e : Event) : bool :=
  match e with
  | Execute argv rc =>
      (Nat.eqb (length argv) 9 && String.eqb (Qt.at_ argv 3) "--script"
       && String.eqb (Qt.at_ argv 4) "mkpart" && String.eqb (Qt.at_ argv 6) fs
       && (rc =? 0))%bool
  | _ => false
  end.

(** [sudo <mkfs> <option> <node>] *)
Definition isMkfs (mkfs : string) (e : Event) : bool :=
  match e with
  | Execute argv _ => (Nat.eqb (length argv) 4 && String.eqb (Qt.at_ argv 1) mkfs)%bool
  | _ => false
  end.

Definition isFormatted (mkfs : string) (e : Event) : bool :=
  (isMkfs mkfs e && negb (hasFailed e))%bool.

(** *** The mounts and the state file *)

(** The state file agrees with the mounts: whenever it is written, it goes
    to [targetStateFilePath], its [root] is the node last mounted on [/mnt]
    and its [esp] the node last mounted on [/mnt/boot/efi], absent when
    nothing was. *)
Definition mountsRecordedStep (mounted : option string * option string) (e : Event)
    : option (option string * option string) :=
  match e with
  | Execute argv _ =>
      if isRootMount e then Some (Some (Qt.at_ argv 2), mounted.2)
      else if isEspMount e then Some (mounted.1, Some (Qt.at_ argv 2))
      else Some mounted
  | WriteJson path obj =>
      if bool_decide (path = targetStateFilePath
                      /\ obj !! "root" = mounted.1 /\ obj !! "esp" = mounted.2)
      then Some mounted else None
  | _ => Some mounted
  end.

Definition recordsItsMounts (evs : list Event) : bool :=
  bool_decide (is_Some (runOver mountsRecordedStep (None, None) evs)).

(** A machine on which nothing is installed: no executable is found, no
    file exists, every command exits with 127 and prints nothing. *)
#[global] Instance bareMachine : Machine unit := {|
  processExit := fun _ w => (127, w);
  processOutput := fun _ w => (EmptyString, w);
  findExecutable := fun _ _ => EmptyString;
  fileExists := fun _ _ => false;
  canonicalFilePath := fun path _ => path;
  fileLines := fun _ _ => None;
  fileRemove := fun _ w => w;
  fileOpensForWrite := fun _ _ => false;
  fileWriteJson := fun _ _ w => w;
  dirEntries := fun _ _ => None
|}.

(** *** Results of the device helpers *)

(** A node under [/dev/], or the empty string that stands for "none". *)
Definition emptyOrDev (s : string) : bool :=
  (Qt.isEmpty s || Qt.startsWith "/dev/" s)%bool.

(** Every result of a computation, from any machine state, passes [Q]. *)
Definition returns {W A : Type} (Q : A -> bool) (m : M W A) : Prop :=
  forall w, Q (result (m w)) = true.

(** The row of [lsblk -o NAME,TYPE,PKNAME] that makes [name] a child
    partition of [base]. *)
Definition isChildRow (base name r : string) : bool :=
  let cols := Qt.splitWs r in
  ((3 <=? length cols)%nat && String.eqb (Qt.at_ cols 0) name
   && String.eqb (Qt.at_ cols 1) "part" && String.eqb (Qt.at_ cols 2) base)%bool.

(** The node a [mount] or a [mkfs] is given is under [/dev/]. *)
Definition onDevNode (e : Event) : bool :=
  match e with
  | Execute argv _ =>
      if isMount e then Qt.startsWith "/dev/" (Qt.at_ argv 2)
      else if (isMkfs "mkfs.fat" e || isMkfs "mkfs.ext4" e)%bool
           then Qt.startsWith "/dev/" (Qt.at_ argv 3)
           else true
  | _ => true
  end.

(** A command that makes, names, flags, formats or mounts an ESP:
    [mkpart primary fat32], [name <n> ESP], [set <n> esp on], [mkfs.fat],
    and a mount on [/mnt/boot/efi]. *)
Definition touchesEsp (e : Event) : bool :=
  match e with
  | Execute argv _ =>
      (isMkfs "mkfs.fat" e || isEspMount e
       || (isPartedScript e
           && ((Nat.eqb (length argv) 9 && String.eqb (Qt.at_ argv 4) "mkpart"
                && String.eqb (Qt.at_ argv 6) "fat32")
               || (String.eqb (Qt.at_ argv 4) "name" && String.eqb (Qt.at_ argv 6) "ESP")
               || (String.eqb (Qt.at_ argv 4) "set" && String.eqb (Qt.at_ argv 6) "esp"))))%bool
  | _ => false
  end.

(** A change of the partition table, or the signal of completion. *)
Definition changesTableOrCompletes (e : Event) : bool :=
  (isPartedScript e || isComplete e)%bool.

(** *** Texts *)

(** The character [c] does not occur in [s]. *)
Fixpoint lacks (c : ascii) (s : string) : bool :=
  match s with
  | EmptyString => true
  | String a r => (negb (Ascii.eqb a c) && lacks c r)%bool
  end.

(** *** A disk with a partition mounted by the desktop *)

(** [sdb] as in [Scripted.dataDisk], with [sdb1] mounted on [/media/usb]
    and [sdb3] on [/home]. *)
Definition mountedDisk : Scripted.Host := {|
  Scripted.partitions := [1; 3];
  Scripted.diskSizeMiB := 51200;
  Scripted.rootSource := "/dev/sda2";
  Scripted.typedRows := Scripted.typedRows (Scripted.dataDisk 100 2000);
  Scripted.partedRows := Scripted.partedRows (Scripted.dataDisk 100 2000);
  Scripted.freeRows := [];
  Scripted.humanRows := Scripted.humanRows (Scripted.dataDisk 100 2000);
  Scripted.mountRows := ["sdb disk"; "sdb1 part /media/usb"; "sdb3 part /home"];
  Scripted.failing := [];
  Scripted.jsonFiles := ∅
|}.

(** *** What a run may destroy *)

Definition isWipeDrive (m : InstallMode) : bool :=
  match m with WipeDrive => true | _ => false end.

Definition isUsePartition (m : InstallMode) : bool :=
  match m with UsePartition => true | _ => false end.

(** A new partition table is only written when the drive is to be wiped,
    and a partition is only removed when it is the one that was selected. *)
Definition destroysAsAsked (self : InstallerWorker) (e : Event) : bool :=
  match e with
  | Execute argv _ =>
      if negb (isPartedScript e) then true
      else if String.eqb (Qt.at_ argv 4) "mklabel" then isWipeDrive (mode self)
      else if String.eqb (Qt.at_ argv 4) "rm" then
        (isUsePartition (mode self)
         && String.eqb (Qt.at_ argv 5) (partitionNumberFromPath (targetPartition self)))%bool
      else true
  | _ => true
  end.

(** * Properties *)

(** ** Sanity checks of the Qt and number functions *)

Example trimmed_ex : Qt.trimmed "  sda disk  " = "sda disk".
Proof. reflexivity. Qed.

Example removeCI_ex : Qt.removeCI "MiB" "1.00mib" = "1.00".
Proof. reflexivity. Qed.

Example remove_scan_ex : Qt.remove "MiB" "MMiBiB" = "MiB".
Proof. reflexivity. Qed.

Example lines_ex : Qt.lines "a

b
" = ["a"; "b"].
Proof. reflexivity. Qed.

Example splitWs_ex : Qt.splitWs " sdb1  part sdb" = ["sdb1"; "part"; "sdb"].
Proof. reflexivity. Qed.

Example splitWsKeep_ex : Qt.splitWsKeep " sdb1  part " = [""; "sdb1"; "part"; ""].
Proof. reflexivity. Qed.

Example number_ex : Qt.number 513 = "513" /\ Qt.number 0 = "0" /\ Qt.number (-4) = "-4".
Proof. repeat split; reflexivity. Qed.

Example toDouble_ex1 : Num.toDoubleOk "1.25" = Some (5 # 4)%Q.
Proof. reflexivity. Qed.

Example toDouble_ex2 : Num.toDoubleOk " 2048.00 " = Some (2048 # 1)%Q.
Proof. reflexivity. Qed.

Example toDouble_ex3 : Num.toDoubleOk "1e3" = Some (1000 # 1)%Q /\ Num.toDoubleOk "25e-1" = Some (5 # 2)%Q.
Proof. split; reflexivity. Qed.

Example toDouble_ex4 : Num.toDoubleOk "MiB" = None /\ Num.toDoubleOk "" = None /\ Num.toDoubleOk "1.2.3" = None.
Proof. repeat split; reflexivity. Qed.

Example toInt_ex : Num.toInt "12" = 12 /\ Num.toInt "1x" = 0 /\ Num.toLongLong "51200" = 51200.
Proof. repeat split; reflexivity. Qed.

(** ** Laws of computations *)

Section Laws.

Context {W : Type} `{Machine W}.

Lemma events_bind {A B} (m : M W A) (k : A -> M W B) (w : W) :
  events ((m ≫= k) w) = events (m w) ++ events (k (result (m w)) (machine (m w))).
Proof. reflexivity. Qed.

Lemma result_bind {A B} (m : M W A) (k : A -> M W B) (w : W) :
  result ((m ≫= k) w) = result (k (result (m w)) (machine (m w))).
Proof. reflexivity. Qed.

Lemma machine_bind {A B} (m : M W A) (k : A -> M W B) (w : W) :
  machine ((m ≫= k) w) = machine (k (result (m w)) (machine (m w))).
Proof. reflexivity. Qed.

Lemma bind_ext {A B} (m : M W A) (k k' : A -> M W B) (w : W) :
  (forall a w', k a w' = k' a w') -> (m ≫= k) w = (m ≫= k') w.
Proof. intros Hk. unfold mbind, M_mbind, M_bind. by rewrite Hk. Qed.

Lemma events_ret {A} (a : A) (w : W) : events ((mret a : M W A) w) = [].
Proof. reflexivity. Qed.

Lemma events_failIf_true (msg : string) (rest : M W unit) (w : W) :
  events (failIf true msg rest w) = [ErrorOccurred msg].
Proof. reflexivity. Qed.

Lemma events_failIf_false (msg : string) (rest : M W unit) (w : W) :
  events (failIf false msg rest w) = events (rest w).
Proof. reflexivity. Qed.

(** *** Computations whose events all pass a test *)

Lemma emitsOnly_ret {A} (P : Event -> bool) (a : A) : emitsOnly P (mret a : M W A).
Proof. intros w. reflexivity. Qed.

Lemma emitsOnly_bind {A B} (P : Event -> bool) (m : M W A) (k : A -> M W B) :
  emitsOnly P m -> (forall a, emitsOnly P (k a)) -> emitsOnly P (m ≫= k).
Proof.
  intros Hm Hk w. rewrite events_bind, forallb_app, Hm. apply Hk.
Qed.

Lemma emitsOnly_ask {A} (P : Event -> bool) (f : W -> A) : emitsOnly P (ask f).
Proof. intros w. reflexivity. Qed.

Lemma emitsOnly_emit (P : Event -> bool) (e : Event) :
  P e = true -> emitsOnly P (emit e : M W unit).
Proof. intros He w. cbn. by rewrite He. Qed.

Lemma emitsOnly_execute (P : Event -> bool) (argv : list string) :
  (forall rc, P (Execute argv rc) = true) -> emitsOnly P (execute argv).
Proof. intros He w. cbn. by rewrite He. Qed.

Lemma emitsOnly_startAndRead (P : Event -> bool) (argv : list string) :
  P (Start argv) = true -> emitsOnly P (startAndRead argv).
Proof. intros He w. cbn. by rewrite He. Qed.

Lemma emitsOnly_removeFile (P : Event -> bool) (path : string) :
  P (RemoveFile path) = true -> emitsOnly P (removeFile path).
Proof. intros He w. cbn. by rewrite He. Qed.

Lemma emitsOnly_writeJson (P : Event -> bool) (path : string) (obj : gmap string string) :
  P (WriteJson path obj) = true -> emitsOnly P (writeJson path obj).
Proof. intros He w. cbn. by rewrite He. Qed.

Lemma emitsOnly_forEach {A} (P : Event -> bool) (l : list A) (body : A -> M W unit) :
  (forall x, emitsOnly P (body x)) -> emitsOnly P (forEach l body).
Proof.
  intros Hb. induction l as [| x l IH]; cbn [forEach].
  - apply emitsOnly_ret.
  - apply emitsOnly_bind; [apply Hb | intros _; exact IH].
Qed.

Lemma emitsOnly_failIf (P : Event -> bool) (failed : bool) (msg : string) (rest : M W unit) :
  P (ErrorOccurred msg) = true -> emitsOnly P rest -> emitsOnly P (failIf failed msg rest).
Proof. intros He Hr. destruct failed; cbn [failIf]; [by apply emitsOnly_emit | exact Hr]. Qed.

Lemma emitsOnly_anyFails (P : Event -> bool) (cmds : list (list string)) :
  Forall (fun c => forall rc, P (Execute c rc) = true) cmds -> emitsOnly P (anyFails cmds).
Proof.
  induction cmds as [| c cmds IH]; cbn [anyFails]; intros Hc.
  - apply emitsOnly_ret.
  - apply Forall_cons in Hc as [Hc1 Hc2].
    apply emitsOnly_bind; [by apply emitsOnly_execute |].
    intros rc. destruct (negb (rc =? 0)); [apply emitsOnly_ret | by apply IH].
Qed.

Lemma emitsOnly_weaken {A} (P Q : Event -> bool) (m : M W A) :
  (forall e, P e = true -> Q e = true) -> emitsOnly P m -> emitsOnly Q m.
Proof.
  intros HPQ Hm w. specialize (Hm w).
  rewrite forallb_forall in *. intros e He. apply HPQ, Hm, He.
Qed.

End Laws.

(** Goals [emitsOnly P m] are settled by following the shape of [m]. *)
Ltac emits_step :=
  lazymatch goal with
  | |- emitsOnly _ (_ ≫= _) => apply emitsOnly_bind; [| intros ?]
  | |- emitsOnly _ (mret _) => apply emitsOnly_ret
  | |- emitsOnly _ (ask _) => apply emitsOnly_ask
  | |- emitsOnly _ (emit _) => apply emitsOnly_emit; reflexivity
  | |- emitsOnly _ (sleep _) => apply emitsOnly_emit; reflexivity
  | |- emitsOnly _ (execute _) => apply emitsOnly_execute; intros ?; reflexivity
  | |- emitsOnly _ (startAndRead _) => apply emitsOnly_startAndRead; reflexivity
  | |- emitsOnly _ (removeFile _) => apply emitsOnly_removeFile; reflexivity
  | |- emitsOnly _ (writeJson _ _) => apply emitsOnly_writeJson; reflexivity
  | |- emitsOnly _ (forEach _ _) => apply emitsOnly_forEach; intros ?
  | |- emitsOnly _ (anyFails _) =>
      apply emitsOnly_anyFails; repeat (constructor; [intros ?; reflexivity |]); constructor
  | |- emitsOnly _ (failIf _ _ _) => apply emitsOnly_failIf; [reflexivity |]
  | |- emitsOnly _ (if ?c then _ else _) => destruct c
  | |- emitsOnly _ (match ?x with _ => _ end) => destruct x
  | |- emitsOnly _ (let '_ := ?x in _) => destruct x
  end.

Ltac emits_only := repeat emits_step.

(** ** Detection of the new partition *)

Lemma newPartitionOf_singleton (after before : gset string) (k : string) :
  after ∖ before = {[ k ]} -> newPartitionOf after before = "/dev/" +:+ k.
Proof.
  intros Hd. unfold newPartitionOf. rewrite Hd.
  rewrite size_singleton, elements_singleton. reflexivity.
Qed.

Lemma newPartitionOf_ambiguous (after before : gset string) :
  size (after ∖ before) ≠ 1%nat -> newPartitionOf after before = "".
Proof.
  intros Hn. unfold newPartitionOf.
  destruct (Nat.eqb_spec (size (after ∖ before)) 1) as [Heq | _]; [contradiction | reflexivity].
Qed.

Lemma newPartitionOf_nonempty (after before : gset string) :
  size (after ∖ before) = 1%nat ->
  exists k, after ∖ before = {[ k ]} /\ newPartitionOf after before = "/dev/" +:+ k.
Proof.
  intros Hs. apply size_1_elem_of in Hs as [k Hk].
  apply leibniz_equiv in Hk. exists k. split; [exact Hk |].
  by apply newPartitionOf_singleton.
Qed.

Lemma newPartitionOf_empty_iff (after before : gset string) :
  newPartitionOf after before = "" <-> size (after ∖ before) ≠ 1%nat.
Proof.
  split.
  - intros He Hs. apply newPartitionOf_nonempty in Hs as (k & _ & Hk).
    rewrite Hk in He. discriminate He.
  - apply newPartitionOf_ambiguous.
Qed.

Lemma events_detectNewPartitionNode
    {W : Type} `{Machine W} (devPath : string) (before : gset string) (w : W) :
  events (detectNewPartitionNode devPath before w)
  = events (childPartitionsSet devPath w).
Proof.
  unfold detectNewPartitionNode. rewrite events_bind, events_ret.
  apply app_nil_r.
Qed.

(** C1. [detectNewPartitionNode] returns the one element of
    [after - before], as a [/dev] path, exactly when that difference has one
    element; when it has none or several the result is the empty string,
    and a creation site reports an error at that point without running the
    rest of its plan - no other partition is picked. *)
Theorem detectNewPartitionNode_unique_diff
    {W : Type} `{Machine W} (devPath : string) (before : gset string) (w : W) :
  let after := result (childPartitionsSet devPath w) in
  let node := result (detectNewPartitionNode devPath before w) in
  (forall k, after ∖ before = {[ k ]} -> node = "/dev/" +:+ k)
  /\ (size (after ∖ before) = 1%nat <->
      exists k, after ∖ before = {[ k ]} /\ node = "/dev/" +:+ k)
  /\ (size (after ∖ before) ≠ 1%nat <-> node = "")
  /\ (forall msg rest,
        size (after ∖ before) ≠ 1%nat ->
        events (detectOrFail devPath before msg rest w)
        = events (childPartitionsSet devPath w) ++ [ErrorOccurred msg]).
Proof.
  intros after node.
  assert (Hnode : node = newPartitionOf after before) by reflexivity.
  repeat split.
  - intros k Hk. rewrite Hnode. by apply newPartitionOf_singleton.
  - intros Hs. rewrite Hnode. by apply newPartitionOf_nonempty.
  - intros (k & Hk & _). rewrite Hk. apply size_singleton.
  - intros Hs. rewrite Hnode. by apply newPartitionOf_ambiguous.
  - intros He. rewrite Hnode in He. by apply newPartitionOf_empty_iff.
  - intros msg rest Hs.
    unfold detectOrFail. rewrite events_bind.
    change (result (detectNewPartitionNode devPath before w)) with node.
    rewrite Hnode, (newPartitionOf_ambiguous _ _ Hs).
    rewrite events_detectNewPartitionNode. reflexivity.
Qed.

(** On the scripted host: [sdb1] was there before, [sdb1] and [sdb2] are
    there now, the new node is [/dev/sdb2]. *)
Lemma detectNewPartitionNode_unique_diff_witness :
  result (detectNewPartitionNode "/dev/sdb" {[ "sdb1" ]}
            (Scripted.withPartitions Scripted.blank [1; 2]))
  = "/dev/sdb2".
Proof.
  apply (detectNewPartitionNode_unique_diff "/dev/sdb" {[ "sdb1" ]}
           (Scripted.withPartitions Scripted.blank [1; 2])).
  vm_compute. reflexivity.
Defined.

(** ** Partition nodes and numbers *)

Example partitionNodeFor_ex :
  partitionNodeFor "nvme0n1" 2 = "/dev/nvme0n1p2"
  /\ partitionNodeFor "mmcblk0" 1 = "/dev/mmcblk0p1"
  /\ partitionNodeFor "sda" 3 = "/dev/sda3".
Proof. repeat split; reflexivity. Qed.

Example partitionNumberFromPath_ex :
  partitionNumberFromPath "/dev/mmcblk0p1" = "1"
  /\ partitionNumberFromPath "/dev/nvme0n1p12" = "12"
  /\ partitionNumberFromPath "/dev/sda3" = "3"
  /\ partitionNumberFromPath "/dev/sda" = "".
Proof. repeat split; reflexivity. Qed.

Example matchPartLineAt_ex :
  matchPartLineAt "3" " 3      100MiB   200MiB   100MiB   ext4"
  = Some (" 3      100MiB   200MiB", "100", "200")
  /\ matchPartLineAt "3" " 31     100MiB   200MiB" = None
  /\ matchTrailingNumber "sdb3" = Some "3"
  /\ matchTrailingNumber "sdb" = None.
Proof. repeat split; reflexivity. Qed.

(** ** Geometry: [parseMiBToBounds] *)

Example parseMiBToBounds_ex1 :
  parseMiBToBounds "1.00MiB" "513.00MiB" 0 0 = (true, 1, 513).
Proof. reflexivity. Qed.

Example parseMiBToBounds_ex2 :
  parseMiBToBounds "0,02MiB" " 2048.75mib" 0 0 = (true, 1, 2048).
Proof. reflexivity. Qed.

Example parseMiBToBounds_ex3 :
  parseMiBToBounds "abc" "513MiB" 7 9 = (false, 7, 9).
Proof. reflexivity. Qed.

Lemma clampedStart_max (s : Q) : clampedStart s = Z.max 1 (Num.ceil s).
Proof. unfold clampedStart. destruct (Z.ltb_spec (Num.ceil s) 1); lia. Qed.

Lemma parseMiBToBounds_parsed (startStr endStr : string) (s e : Q) (s0 e0 : Z) :
  Num.toDoubleOk (normMiB startStr) = Some s ->
  Num.toDoubleOk (normMiB endStr) = Some e ->
  parseMiBToBounds startStr endStr s0 e0
  = (clampedStart s <? Num.floor e, clampedStart s, Num.floor e).
Proof. intros Hs He. unfold parseMiBToBounds. rewrite Hs, He. reflexivity. Qed.

Lemma parseMiBToBounds_unparsed (startStr endStr : string) (s0 e0 : Z) :
  Num.toDoubleOk (normMiB startStr) = None \/ Num.toDoubleOk (normMiB endStr) = None ->
  parseMiBToBounds startStr endStr s0 e0 = (false, s0, e0).
Proof.
  intros [Hn | Hn]; unfold parseMiBToBounds; rewrite Hn;
    [| destruct (Num.toDoubleOk (normMiB startStr))]; reflexivity.
Qed.

(** A non-empty rounded range lies inside the real one. *)
Lemma rounded_range_inside (s e : Q) :
  clampedStart s < Num.floor e -> Num.ceil s <= Num.floor e /\ (s < e)%Q.
Proof.
  rewrite clampedStart_max. unfold Num.ceil, Num.floor. intros Hlt.
  assert (Hc : Qceiling s < Qfloor e) by lia.
  split; [lia |].
  apply Qle_lt_trans with (inject_Z (Qceiling s)); [apply Qle_ceiling |].
  apply Qlt_le_trans with (inject_Z (Qfloor e)); [| apply Qfloor_le].
  by rewrite <- Zlt_Qlt.
Qed.




(** ** The disk of the running system *)

Lemma isEmpty_true (s : string) : Qt.isEmpty s = true <-> s = "".
Proof. destruct s; split; by intros. Qed.

Lemma isEmpty_false (s : string) : Qt.isEmpty s = false <-> s ≠ "".
Proof. destruct s; split; by intros. Qed.

Section SystemDisk.

Context {W : Type} `{Machine W}.

Lemma resolveBaseDiskFrom_lookups (hops : nat) (cur : string) :
  emitsOnly isLookup (resolveBaseDiskFrom hops cur).
Proof.
  revert cur. induction hops as [| hops IH]; intros cur; cbn [resolveBaseDiskFrom].
  - emits_only.
  - emits_only. apply IH.
Qed.

Lemma resolveBaseDisk_lookups (dev : string) : emitsOnly isLookup (resolveBaseDisk dev).
Proof. unfold resolveBaseDisk. emits_only. apply resolveBaseDiskFrom_lookups. Qed.

Lemma rootSourceDevice_lookups : emitsOnly isLookup (rootSourceDevice : M W string).
Proof. unfold rootSourceDevice. emits_only. Qed.

Lemma isSystemDisk_lookups (devPath : string) : emitsOnly isLookup (isSystemDisk devPath).
Proof.
  unfold isSystemDisk. emits_only;
    solve [apply rootSourceDevice_lookups | apply resolveBaseDisk_lookups].
Qed.

(** A device that is not under [/dev/] has no base disk. *)
Lemma resolveBaseDisk_outside_dev (dev : string) (w : W) :
  Qt.startsWith "/dev/" dev = false -> resolveBaseDisk dev w = ("", w, []).
Proof. intros Hd. unfold resolveBaseDisk. rewrite Hd. reflexivity. Qed.

(** The walk asks [lsblk] at most [hops] times. *)
Lemma resolveBaseDiskFrom_hops (hops : nat) (cur : string) (w : W) :
  (length (events (resolveBaseDiskFrom hops cur w)) <= hops)%nat.
Proof.
  revert cur w. induction hops as [| hops IH]; intros cur w; cbn [resolveBaseDiskFrom].
  - cbn. lia.
  - rewrite events_bind, length_app. cbn [startAndRead events snd length].
    repeat match goal with
           | |- context [if ?c then _ else _] => destruct c
           end; rewrite ?events_ret; cbn [length]; try lia.
    all: match goal with
         | |- context [resolveBaseDiskFrom _ ?c ?m] => specialize (IH c m); lia
         end.
Qed.

(** X20. The walk to the base disk ends whatever [lsblk] answers - a chain
    of parents that is long, or that loops: [resolveBaseDisk] starts at most
    six processes. *)
Lemma resolveBaseDisk_at_most_six_hops (dev : string) (w : W) :
  (length (events (resolveBaseDisk dev w)) <= 6)%nat.
Proof.
  unfold resolveBaseDisk. destruct (negb (Qt.startsWith "/dev/" dev)).
  - cbn. lia.
  - apply resolveBaseDiskFrom_hops.
Qed.

(** X21. A root mounted by UUID is followed through [blkid -U]: when
    [findmnt] prints [UUID=<u>] and [blkid -U <u>] prints a node under
    [/dev/], that node is the source of [/]. *)
Lemma rootSourceDevice_follows_uuid (uuid : string) (w : W) :
  let found := startAndRead ["findmnt"; "-no"; "SOURCE"; "/"] w in
  let dev := Qt.trimmed (result (startAndRead ["blkid"; "-U"; uuid] (machine found))) in
  Qt.trimmed (result found) = "UUID=" +:+ uuid ->
  Qt.startsWith "/dev/" dev = true ->
  result (rootSourceDevice w) = dev.
Proof.
  intros found dev Hsrc Hdev. unfold rootSourceDevice.
  rewrite result_bind. fold found. rewrite Hsrc.
  change (Qt.isEmpty ("UUID=" +:+ uuid)) with false. cbv iota.
  rewrite result_bind.
  change (result ((mret ("UUID=" +:+ uuid) : M W string) (machine found)))
    with ("UUID=" +:+ uuid).
  change (Qt.startsWith "/dev/" ("UUID=" +:+ uuid)) with false.
  change (Qt.startsWith "UUID=" ("UUID=" +:+ uuid)) with true.
  cbn [negb andb orb]. rewrite result_bind.
  change (Qt.mid 5 ("UUID=" +:+ uuid)) with uuid.
  change (machine ((mret ("UUID=" +:+ uuid) : M W string) (machine found)))
    with (machine found).
  fold dev. rewrite Hdev. reflexivity.
Qed.

(** And by label through [blkid -L]. *)
Lemma rootSourceDevice_follows_label (label : string) (w : W) :
  let found := startAndRead ["findmnt"; "-no"; "SOURCE"; "/"] w in
  let dev := Qt.trimmed (result (startAndRead ["blkid"; "-L"; label] (machine found))) in
  Qt.trimmed (result found) = "LABEL=" +:+ label ->
  Qt.startsWith "/dev/" dev = true ->
  result (rootSourceDevice w) = dev.
Proof.
  intros found dev Hsrc Hdev. unfold rootSourceDevice.
  rewrite result_bind. fold found. rewrite Hsrc.
  change (Qt.isEmpty ("LABEL=" +:+ label)) with false. cbv iota.
  rewrite result_bind.
  change (result ((mret ("LABEL=" +:+ label) : M W string) (machine found)))
    with ("LABEL=" +:+ label).
  change (Qt.startsWith "/dev/" ("LABEL=" +:+ label)) with false.
  change (Qt.startsWith "UUID=" ("LABEL=" +:+ label)) with false.
  change (Qt.startsWith "LABEL=" ("LABEL=" +:+ label)) with true.
  cbn [negb andb orb]. rewrite result_bind.
  change (Qt.mid 6 ("LABEL=" +:+ label)) with label.
  change (machine ((mret ("LABEL=" +:+ label) : M W string) (machine found)))
    with (machine found).
  fold dev. rewrite Hdev. reflexivity.
Qed.


End SystemDisk.


(** ** Detaching a disk *)

Section Detach.

Context {W : Type} `{Machine W}.

Lemma executed_app (evs1 evs2 : list Event) :
  executed (evs1 ++ evs2) = executed evs1 ++ executed evs2.
Proof. apply omap_app. Qed.

Lemma executed_forEach {A} (l : list A) (body : A -> M W unit) (x : A) (argv : list string) :
  x ∈ l -> (forall w, argv ∈ executed (events (body x w))) ->
  forall w, argv ∈ executed (events (forEach l body w)).
Proof.
  intros Hx Hb. induction l as [| y l IH]; intros w.
  - by apply elem_of_nil in Hx.
  - cbn [forEach]. rewrite events_bind, executed_app. apply elem_of_app.
    apply elem_of_cons in Hx as [-> | Hx]; [left; apply Hb | right; by apply IH].
Qed.

Lemma lookup_is_not_holder_command (e : Event) :
  isLookup e = true -> isHolderCommand e = false.
Proof.
  destruct e as [argv rc | argv | | | | | | |]; try discriminate.
  destruct argv as [| p argv]; [discriminate |].
  cbn [isLookup]. intros Hp%bool_decide_eq_true.
  repeat (apply elem_of_cons in Hp as [-> | Hp]; [reflexivity |]).
  by apply elem_of_nil in Hp.
Qed.

Lemma lookups_execute_nothing (evs : list Event) :
  forallb isLookup evs = true -> executed evs = [].
Proof.
  induction evs as [| e evs IH]; [reflexivity |].
  cbn [forallb]. intros [He Hevs]%andb_prop.
  destruct e; try discriminate. cbn. by apply IH.
Qed.

Lemma lookups_spare_holders (evs : list Event) :
  forallb isLookup evs = true ->
  forallb (fun e => negb (isHolderCommand e)) evs = true.
Proof.
  rewrite !forallb_forall. intros Hl e He.
  by rewrite (lookup_is_not_holder_command e (Hl e He)).
Qed.

Lemma events_unmountStaging (w : W) :
  executed (events (unmountStaging w)) = stagingUnmounts
  /\ forallb (fun e => negb (isHolderCommand e)) (events (unmountStaging w)) = true.
Proof. split; reflexivity. Qed.

(** What [bestEffortDetachDevice] does on the system disk. *)
Lemma bestEffortDetachDevice_on_system_disk (devPath : string) (w : W) :
  result (isSystemDisk devPath (machine (unmountStaging w))) = true ->
  exists rc,
    events (bestEffortDetachDevice devPath w)
    = events (unmountStaging w)
      ++ events (isSystemDisk devPath (machine (unmountStaging w)))
      ++ [ Warning ("[detach] Target is system disk; skipping device-wide unmounts/kills for "
                    +:+ devPath);
           Execute ["sudo"; "udevadm"; "settle"] rc ].
Proof.
  intros Hsys. unfold bestEffortDetachDevice.
  rewrite events_bind, events_bind, Hsys. eexists. reflexivity.
Qed.

(** What [safePreflightUnmounts] does on the system disk. *)
Lemma safePreflightUnmounts_on_system_disk (devPath : string) (w : W) :
  result (isSystemDisk devPath (machine (unmountStaging w))) = true ->
  exists rc,
    events (safePreflightUnmounts devPath w)
    = events (unmountStaging w)
      ++ events (isSystemDisk devPath (machine (unmountStaging w)))
      ++ [ Execute ["sudo"; "udevadm"; "settle"] rc ].
Proof.
  intros Hsys. unfold safePreflightUnmounts.
  rewrite events_bind, events_bind, Hsys. eexists. reflexivity.
Qed.

(** C2. On the system disk the detach operation executes the three staging
    unmounts and [udevadm settle] and nothing else - the only other
    processes are the read-only look-ups of the system-disk test - so no
    holder-kill, swapoff, LUKS-close or VG-deactivate command is issued.  On
    another disk it issues an unmount for every partition of that disk, a
    mounted one included. *)
Theorem bestEffortDetachDevice_spares_system_disk (devPath : string) (w : W) :
  let sys := isSystemDisk devPath (machine (unmountStaging w)) in
  let evs := events (bestEffortDetachDevice devPath w) in
  (result sys = true ->
   executed evs = stagingUnmounts ++ [ ["sudo"; "udevadm"; "settle"] ]
   /\ forallb (fun e => negb (isHolderCommand e)) evs = true)
  /\ (result sys = false ->
      forall pn, pn ∈ result (childPartitionsSet devPath (machine sys)) ->
                 ["sudo"; "udisksctl"; "unmount"; "-b"; "/dev/" +:+ pn] ∈ executed evs).
Proof.
  intros sys evs. split.
  - intros Hsys. subst evs.
    destruct (bestEffortDetachDevice_on_system_disk _ _ Hsys) as [rc ->].
    fold sys. pose proof (isSystemDisk_lookups devPath (machine (unmountStaging w))) as Hl.
    fold sys in Hl. destruct (events_unmountStaging w) as [Hu1 Hu2]. split.
    + rewrite !executed_app, Hu1, (lookups_execute_nothing _ Hl). reflexivity.
    + rewrite !forallb_app, Hu2, (lookups_spare_holders _ Hl). reflexivity.
  - intros Hsys pn Hpn. subst evs. unfold bestEffortDetachDevice.
    rewrite events_bind, events_bind. fold sys. rewrite Hsys.
    rewrite !executed_app. apply elem_of_app. right. apply elem_of_app. right.
    rewrite events_bind, executed_app. apply elem_of_app. right.
    rewrite events_bind, executed_app. apply elem_of_app. left.
    apply executed_forEach with (x := pn).
    + by apply elem_of_elements.
    + intros w'. rewrite events_bind, executed_app. apply elem_of_app. left.
      apply list_elem_of_here.
Qed.

(** X19. The preflight of [run] obeys the same guard: on the system disk it
    executes the three staging unmounts and [udevadm settle] and nothing
    else; on another disk it unmounts every partition listed with a mount
    point under [/media/], [/run/media/] or [/mnt/]. *)
Theorem safePreflightUnmounts_spares_system_disk (devPath : string) (w : W) :
  let sys := isSystemDisk devPath (machine (unmountStaging w)) in
  let evs := events (safePreflightUnmounts devPath w) in
  (result sys = true ->
   executed evs = stagingUnmounts ++ [ ["sudo"; "udevadm"; "settle"] ]
   /\ forallb (fun e => negb (isHolderCommand e)) evs = true)
  /\ (result sys = false ->
      forall name mp rest,
        (name :: "part" :: mp :: rest)
        ∈ Qt.splitWsKeep <$>
            Qt.lines (result (startAndRead ["lsblk"; "-ln"; "-o"; "NAME,TYPE,MOUNTPOINT"; devPath]
                                (machine sys))) ->
        isExternalMountPoint mp = true ->
        ["sudo"; "umount"; "-l"; "/dev/" +:+ name] ∈ executed evs).
Proof.
  intros sys evs. split.
  - intros Hsys. subst evs.
    destruct (safePreflightUnmounts_on_system_disk _ _ Hsys) as [rc ->].
    fold sys. pose proof (isSystemDisk_lookups devPath (machine (unmountStaging w))) as Hl.
    fold sys in Hl. destruct (events_unmountStaging w) as [Hu1 Hu2]. split.
    + rewrite !executed_app, Hu1, (lookups_execute_nothing _ Hl). reflexivity.
    + rewrite !forallb_app, Hu2, (lookups_spare_holders _ Hl). reflexivity.
  - intros Hsys name mp rest Hrow Hmp. subst evs. unfold safePreflightUnmounts.
    rewrite events_bind, events_bind. fold sys. rewrite Hsys.
    rewrite !executed_app. apply elem_of_app. right. apply elem_of_app. right.
    rewrite events_bind, executed_app. apply elem_of_app. right.
    rewrite events_bind, executed_app. apply elem_of_app. left.
    apply list_elem_of_fmap in Hrow as (line & Hcols & Hline).
    apply executed_forEach with (x := line); [exact Hline |].
    intros w'. rewrite <- Hcols. cbn [length Nat.leb Qt.at_ nth].
    rewrite String.eqb_refl. cbn [andb]. rewrite Hmp.
    rewrite events_bind, executed_app. apply elem_of_app. left. apply list_elem_of_here.
Qed.

End Detach.

(** On the scripted host: detaching the system disk [sda] executes the
    staging unmounts and the settle step only; detaching [sdb], which has a
    partition [sdb1], unmounts [/dev/sdb1]. *)
Lemma bestEffortDetachDevice_spares_system_disk_witness :
  executed (events (bestEffortDetachDevice "/dev/sda" Scripted.blank))
  = stagingUnmounts ++ [ ["sudo"; "udevadm"; "settle"] ]
  /\ ["sudo"; "udisksctl"; "unmount"; "-b"; "/dev/sdb1"]
     ∈ executed (events (bestEffortDetachDevice "/dev/sdb"
                           (Scripted.withPartitions Scripted.blank [1]))).
Proof.
  split.
  - apply (bestEffortDetachDevice_spares_system_disk "/dev/sda" Scripted.blank).
    vm_compute. reflexivity.
  - apply (bestEffortDetachDevice_spares_system_disk "/dev/sdb"
             (Scripted.withPartitions Scripted.blank [1]));
      [vm_compute; reflexivity |].
    apply (bool_decide_unpack _). vm_compute. exact I.
Defined.

(** A root file system mounted by UUID, and one whose source cannot be
    resolved. *)
Example isSystemDisk_by_uuid :
  let byUuid := Scripted.withRootSource Scripted.blank "UUID=0a1b2c3d-root" in
  let unknown := Scripted.withRootSource Scripted.blank "UUID=ffffffff" in
  result (rootSourceDevice byUuid) = "/dev/sda2"
  /\ result (isSystemDisk "/dev/sda" byUuid) = true
  /\ result (isSystemDisk "/dev/sdb" byUuid) = false
  /\ result (isSystemDisk "/dev/sda" unknown) = false
  /\ result (isSystemDisk "/dev/sda" (Scripted.withRootSource Scripted.blank "")) = false
  /\ result (isSystemDisk "sda" Scripted.blank) = false.
Proof. repeat split; vm_compute; reflexivity. Qed.

Example bestEffortDetachDevice_other_disk_ex :
  executed (events (bestEffortDetachDevice "/dev/sdb"
                      (Scripted.withPartitions Scripted.blank [1])))
  = stagingUnmounts
    ++ [ ["sudo"; "udisksctl"; "unmount"; "-b"; "/dev/sdb1"];
         ["sudo"; "fuser"; "-km"; "/dev/sdb"];
         ["sudo"; "fuser"; "-km"; "/dev/sdb1"];
         ["sudo"; "blockdev"; "--rereadpt"; "/dev/sdb"];
         ["sudo"; "partprobe"; "/dev/sdb"];
         ["sudo"; "udevadm"; "settle"];
         ["sudo"; "udisksctl"; "power-off"; "-b"; "/dev/sdb"] ].
Proof. vm_compute. reflexivity. Qed.

(** ** Choice of the free extent *)

Lemma ltb_lt (a b : Q) : Num.ltb a b = true <-> (a < b)%Q.
Proof.
  unfold Num.ltb. rewrite negb_true_iff, <- not_true_iff_false, Qle_bool_iff.
  split; [apply Qnot_le_lt | apply Qlt_not_le].
Qed.

Lemma ltb_ge (a b : Q) : Num.ltb a b = false <-> (b <= a)%Q.
Proof. unfold Num.ltb. rewrite negb_false_iff. apply Qle_bool_iff. Qed.

Lemma leb_le (a b : Q) : Num.leb a b = true <-> (a <= b)%Q.
Proof. apply Qle_bool_iff. Qed.

Lemma largestFreeStep_freeRow (best : Q * Q * Q) (l : string) :
  largestFreeStep best l
  = match freeRow l with
    | Some (z, s, e) => if (Num.ltb best.1.1 z && Num.ltb s e)%bool then (z, s, e) else best
    | None => best
    end.
Proof.
  destruct best as [[bestSize bestStart] bestEnd].
  unfold largestFreeStep, freeRow. cbn [fst snd].
  destruct (Qt.isEmpty (Qt.trimmed l)); [reflexivity |].
  destruct (Qt.startsWith "BYT" (Qt.trimmed l)); [reflexivity |].
  destruct (Qt.startsWith "/dev/" (Qt.trimmed l)); [reflexivity |].
  cbn [orb].
  destruct (length (Qt.split ":" (Qt.trimmed l)) <? 4)%nat; [reflexivity |].
  destruct (existsb _ _); cbn [negb]; [| reflexivity].
  by destruct (Num.ltb bestSize _ && Num.ltb _ _)%bool.
Qed.

(** The loop keeps a row at least as large as every usable row it has
    seen, and never a negative size. *)
Lemma largestFree_is_largest (lines : list string) :
  let best := largestFree lines in
  (0 <= best.1.1)%Q
  /\ (forall l z s e,
         l ∈ lines -> freeRow l = Some (z, s, e) -> (s < e)%Q -> (z <= best.1.1)%Q)
  /\ (best = (0, - (1), - (1))%Q
      \/ exists l, l ∈ lines /\ freeRow l = Some best /\ (best.1.2 < best.2)%Q).
Proof.
  unfold largestFree. induction lines as [| l0 lines IH] using rev_ind.
  - cbn. split; [apply Qle_refl |]. split; [| by left].
    intros l z s e Hl. by apply elem_of_nil in Hl.
  - rewrite foldl_app. cbn [foldl].
    set (best := foldl largestFreeStep (0, - (1), - (1))%Q lines) in *.
    cbn zeta in IH. destruct IH as (Hpos & Hmax & Hfrom).
    rewrite largestFreeStep_freeRow.
    destruct (freeRow l0) as [[[z0 s0] e0] |] eqn:Hrow.
    + destruct (Num.ltb best.1.1 z0) eqn:Hz; cbn [andb].
      * destruct (Num.ltb s0 e0) eqn:Hse.
        -- apply ltb_lt in Hz, Hse. cbn [fst snd].
           split; [eapply Qle_trans; [exact Hpos | by apply Qlt_le_weak] |].
           split.
           ++ intros l z s e [Hl | Hl%list_elem_of_singleton]%elem_of_app Hr Hlt.
              ** eapply Qle_trans; [by eapply Hmax | by apply Qlt_le_weak].
              ** subst l. rewrite Hrow in Hr. injection Hr as -> -> ->. apply Qle_refl.
           ++ right. exists l0. split; [apply elem_of_app; right; apply list_elem_of_here |].
              split; [exact Hrow | exact Hse].
        -- apply ltb_ge in Hse.
           split; [exact Hpos |]. split.
           ++ intros l z s e [Hl | Hl%list_elem_of_singleton]%elem_of_app Hr Hlt.
              ** by eapply Hmax.
              ** subst l. rewrite Hrow in Hr. injection Hr as -> -> ->.
                 exfalso. by apply (Qlt_not_le s e).
           ++ destruct Hfrom as [Hinit | (l & Hl & Hr & Hlt)]; [by left |].
              right. exists l. split; [apply elem_of_app; by left | done].
      * apply ltb_ge in Hz.
        split; [exact Hpos |]. split.
        -- intros l z s e [Hl | Hl%list_elem_of_singleton]%elem_of_app Hr Hlt.
           ++ by eapply Hmax.
           ++ subst l. rewrite Hrow in Hr. by injection Hr as -> -> ->.
        -- destruct Hfrom as [Hinit | (l & Hl & Hr & Hlt)]; [by left |].
           right. exists l. split; [apply elem_of_app; by left | done].
    + split; [exact Hpos |]. split.
      * intros l z s e [Hl | Hl%list_elem_of_singleton]%elem_of_app Hr Hlt.
        -- by eapply Hmax.
        -- subst l. rewrite Hrow in Hr. discriminate Hr.
      * destruct Hfrom as [Hinit | (l & Hl & Hr & Hlt)]; [by left |].
        right. exists l. split; [apply elem_of_app; by left | done].
Qed.

Lemma selectedExtent_no_token : selectedExtent "" = (- (1), - (1))%Q.
Proof. reflexivity. Qed.

Lemma chooseExtent_unusable_token (targetPartition : string) (lines : list string) :
  let sel := selectedExtent targetPartition in
  ~ ((0 < sel.1)%Q /\ (sel.1 < sel.2)%Q) ->
  let best := largestFree lines in
  chooseExtent targetPartition lines
  = (if Num.ltb best.1.2 0 then None
     else Some (miB best.1.2, miB best.2,
                "Using largest free extent: " +:+ miB best.1.2 +:+ " → " +:+ miB best.2)).
Proof.
  intros sel Hbad best.
  assert (Hsel : (Num.ltb 0 sel.1 && Num.ltb sel.1 sel.2)%bool = false).
  { apply not_true_is_false. intros [H1 H2]%andb_prop.
    apply Hbad. split; by apply ltb_lt. }
  unfold chooseExtent. fold sel. destruct sel as [s e]. cbn [fst snd] in Hsel.
  rewrite Hsel. fold best. by destruct best as [[bz bs] be].
Qed.

Lemma chooseExtent_no_token (lines : list string) :
  let best := largestFree lines in
  chooseExtent "" lines
  = (if Num.ltb best.1.2 0 then None
     else Some (miB best.1.2, miB best.2,
                "Using largest free extent: " +:+ miB best.1.2 +:+ " → " +:+ miB best.2)).
Proof.
  apply (chooseExtent_unusable_token "" lines). rewrite selectedExtent_no_token.
  cbn [fst snd]. intros [Hpos _]. discriminate Hpos.
Qed.



(** A row counts as free only when one of its fields is exactly [free]; the
    field [free;], with the row terminator attached, is not recognised. *)
Example freeRow_needs_exact_field :
  freeRow "1:2048MiB:51200MiB:49152MiB:free" = Some (49152, 2048, 51200)%Q
  /\ freeRow "1:2048MiB:51200MiB:49152MiB:FREE:" = Some (49152, 2048, 51200)%Q
  /\ freeRow "1:2048MiB:51200MiB:49152MiB:free;" = None
  /\ freeRow "1:1024MiB:2048MiB:1024MiB:ext4::;" = None.
Proof. repeat split; reflexivity. Qed.

Example selectedExtent_malformed :
  selectedExtent "__FREE__:2048" = (- (1), - (1))%Q
  /\ selectedExtent "__FREE__:abc:def" = (0, 0)%Q
  /\ selectedExtent "__FREE__:-5:100" = (- (5), 100)%Q
  /\ selectedExtent "__FREE__:300.00:200.00" = (300, 200)%Q
  /\ selectedExtent "/dev/sdb3" = (- (1), - (1))%Q.
Proof. repeat split; reflexivity. Qed.

(** ** Numbers written and read back *)

Lemma digitsGo_string_of_uint (d : Decimal.uint) (acc : Z) (k : nat) :
  Num.digitsGo (NilEmpty.string_of_uint d) acc k
  = (uintValue d acc, (k + Decimal.nb_digits d)%nat, "").
Proof.
  revert acc k. induction d; intros acc k;
    cbn [NilEmpty.string_of_uint Num.digitsGo uintValue Decimal.nb_digits Ascii.is_nat].
  1: by rewrite Nat.add_0_r.
  all: rewrite IHd.
  all: replace (S k + Decimal.nb_digits d)%nat with (k + S (Decimal.nb_digits d))%nat by lia.
  all: do 3 f_equal; lia.
Qed.

Lemma uintValue_pos (d : Decimal.uint) (p : positive) :
  uintValue d (Zpos p) = Zpos (Pos.of_uint_acc d p).
Proof.
  revert p. induction d; intros p; cbn [uintValue Pos.of_uint_acc]; [reflexivity | ..];
    rewrite <- IHd; f_equal; lia.
Qed.

Lemma uintValue_zero (d : Decimal.uint) : uintValue d 0 = Z.of_uint d.
Proof.
  unfold Z.of_uint. induction d; cbn [uintValue Pos.of_uint]; [reflexivity | exact IHd | ..];
    cbn [Z.mul Z.add Z.of_N]; apply uintValue_pos.
Qed.

Lemma string_of_uint_allDigits (d : Decimal.uint) :
  allDigits (NilEmpty.string_of_uint d) = true.
Proof. induction d; cbn; auto. Qed.

Lemma digit_not_space (c : ascii) : Qt.isDigit c = true -> Qt.isSpace c = false.
Proof.
  destruct c as [[|] [|] [|] [|] [|] [|] [|] [|]]; intros Hd; try discriminate Hd; reflexivity.
Qed.

Lemma digit_not_sign (c : ascii) (r : string) :
  Qt.isDigit c = true -> Num.signOf (String c r) = (1, String c r).
Proof.
  destruct c as [[|] [|] [|] [|] [|] [|] [|] [|]]; intros Hd; try discriminate Hd; reflexivity.
Qed.

Lemma digit_not_m (c : ascii) (r : string) :
  Qt.isDigit c = true -> Qt.startsWithCI "MiB" (String c r) = false.
Proof.
  destruct c as [[|] [|] [|] [|] [|] [|] [|] [|]]; intros Hd; try discriminate Hd; reflexivity.
Qed.

Lemma rev_app_rev_app (s a b : string) :
  String.rev_app (String.rev_app s a) b = String.rev_app a (s +:+ b).
Proof.
  revert a b. induction s as [| c s IH]; intros a b; [reflexivity |].
  cbn [String.rev_app]. rewrite IH. reflexivity.
Qed.

Lemma append_empty (s : string) : s +:+ "" = s.
Proof.
  induction s as [| c s IH]; [reflexivity |].
  change (String c s +:+ "") with (String c (s +:+ "")). by rewrite IH.
Qed.

Lemma rev_rev (s : string) : String.rev (String.rev s) = s.
Proof. unfold String.rev. rewrite rev_app_rev_app. exact (append_empty s). Qed.

Lemma allDigits_rev_app (s a : string) :
  allDigits s = true -> allDigits a = true -> allDigits (String.rev_app s a) = true.
Proof.
  revert a. induction s as [| c s IH]; intros a Hs Ha; [exact Ha |].
  cbn [allDigits] in Hs. apply andb_prop in Hs as [Hc Hs].
  cbn [String.rev_app]. apply IH; [exact Hs |]. cbn [allDigits]. by rewrite Hc, Ha.
Qed.

Lemma dropSpaces_digits (s : string) : allDigits s = true -> Qt.dropSpaces s = s.
Proof.
  destruct s as [| c s]; [reflexivity |]. cbn [allDigits Qt.dropSpaces].
  intros [Hc _]%andb_prop. by rewrite (digit_not_space c Hc).
Qed.

Lemma trimmed_digits (s : string) : allDigits s = true -> Qt.trimmed s = s.
Proof.
  intros Hs. unfold Qt.trimmed. rewrite (dropSpaces_digits s Hs).
  rewrite dropSpaces_digits; [apply rev_rev |].
  by apply allDigits_rev_app.
Qed.

Lemma length_append (s t : string) :
  String.length (s +:+ t) = (String.length s + String.length t)%nat.
Proof.
  induction s as [| c s IH]; [reflexivity |].
  change (String c s +:+ t) with (String c (s +:+ t)). cbn [String.length]. by rewrite IH.
Qed.

Lemma removeWith_digits (s : string) (fuel : nat) :
  allDigits s = true -> (String.length s + 1 <= fuel)%nat ->
  Qt.removeWith (Qt.startsWithCI "MiB") 3 fuel (s +:+ "MiB") = s.
Proof.
  revert fuel. induction s as [| c s IH]; intros fuel Hs Hf.
  - destruct fuel as [| fuel]; [cbn in Hf; lia |].
    cbn. by destruct fuel.
  - cbn [allDigits] in Hs. apply andb_prop in Hs as [Hc Hs].
    destruct fuel as [| fuel]; [cbn in Hf; lia |].
    change (String c s +:+ "MiB") with (String c (s +:+ "MiB")).
    cbn [Qt.removeWith]. rewrite (digit_not_m c _ Hc).
    rewrite IH; [reflexivity | exact Hs | cbn in Hf; lia].
Qed.

Lemma removeCI_digits (s : string) :
  allDigits s = true -> Qt.removeCI "MiB" (s +:+ "MiB") = s.
Proof.
  intros Hs. unfold Qt.removeCI. cbn [Qt.isEmpty].
  apply removeWith_digits; [exact Hs |]. rewrite length_append. cbn. lia.
Qed.

Lemma toDoubleOk_string_of_uint (d : Decimal.uint) :
  d <> Decimal.Nil ->
  Num.toDoubleOk (NilEmpty.string_of_uint d) = Some (inject_Z (Z.of_uint d)).
Proof.
  intros Hd. unfold Num.toDoubleOk.
  rewrite (trimmed_digits _ (string_of_uint_allDigits d)).
  assert (Hsign : Num.signOf (NilEmpty.string_of_uint d) = (1, NilEmpty.string_of_uint d)).
  { pose proof (string_of_uint_allDigits d) as Ha.
    destruct (NilEmpty.string_of_uint d) as [| c r] eqn:Hstr; [reflexivity |].
    cbn [allDigits] in Ha. apply andb_prop in Ha as [Hc _]. by apply digit_not_sign. }
  rewrite Hsign, digitsGo_string_of_uint, uintValue_zero.
  assert (Hn : Nat.eqb (0 + Decimal.nb_digits d) 0 = false).
  { destruct d; [contradiction | ..]; reflexivity. }
  rewrite Hn. cbn [andb Nat.eqb Z.of_nat]. unfold Num.scale10. cbn [Z.opp Z.leb Z.compare].
  do 2 f_equal. cbn [Z.pow]. lia.
Qed.

Lemma number_nonneg (n : Z) :
  0 <= n ->
  exists d, d <> Decimal.Nil /\ Qt.number n = NilEmpty.string_of_uint d /\ Z.of_uint d = n.
Proof.
  intros Hn. destruct n as [| p | p]; [| | lia].
  - exists (Decimal.D0 Decimal.Nil). repeat split; discriminate.
  - exists (Pos.to_uint p). split; [apply DecimalPos.Unsigned.to_uint_nonnil |].
    split.
    + unfold Qt.number. cbn [Z.to_int NilZero.string_of_int]. unfold NilZero.string_of_uint.
      pose proof (DecimalPos.Unsigned.to_uint_nonnil p) as Hnn.
      by destruct (Pos.to_uint p).
    + unfold Z.of_uint. by rewrite DecimalPos.Unsigned.of_to.
Qed.

Lemma stripMiB_number (n : Z) : 0 <= n -> stripMiB (Qt.number n +:+ "MiB") = inject_Z n.
Proof.
  intros Hn. destruct (number_nonneg n Hn) as (d & Hd & Hstr & Hval).
  unfold stripMiB, Num.toDouble. rewrite Hstr.
  rewrite (removeCI_digits _ (string_of_uint_allDigits d)).
  rewrite (toDoubleOk_string_of_uint d Hd), Hval. reflexivity.
Qed.

Lemma truncate_nonneg (q : Q) : (0 <= q)%Q -> Num.truncate q = Qfloor q.
Proof.
  destruct q as [n d]. unfold Qle, Num.truncate, Qfloor. cbn [Qnum Qden]. intros Hn.
  apply Z.quot_div_nonneg; lia.
Qed.

Lemma half_nonneg (v : Q) : (0 <= v)%Q -> (0 <= v + (1 # 2))%Q.
Proof.
  intros Hv. apply Qle_trans with (v + 0)%Q.
  - by rewrite Qplus_0_r.
  - apply Qplus_le_r. discriminate.
Qed.

Lemma roundMiB_nonneg (v : Q) : (0 <= v)%Q -> 0 <= roundMiB v.
Proof.
  intros Hv. unfold roundMiB. change 0 with (Qfloor 0).
  apply Qfloor_resp_le. by apply half_nonneg.
Qed.

Lemma stripMiB_miB (v : Q) : (0 <= v)%Q -> stripMiB (miB v) = inject_Z (roundMiB v).
Proof.
  intros Hv. unfold miB. rewrite (truncate_nonneg _ (half_nonneg v Hv)).
  apply stripMiB_number. by apply roundMiB_nonneg.
Qed.

Lemma roundMiB_within_ten (s e : Q) : (e <= s + 10)%Q -> roundMiB e <= roundMiB s + 10.
Proof.
  intros Hle. unfold roundMiB.
  assert (Hlt : (inject_Z (Qfloor (e + (1 # 2))) < inject_Z (Qfloor (s + (1 # 2)) + 1 + 10))%Q).
  { apply Qle_lt_trans with (e + (1 # 2))%Q; [apply Qfloor_le |].
    apply Qle_lt_trans with (s + 10 + (1 # 2))%Q; [by apply Qplus_le_l |].
    rewrite inject_Z_plus.
    assert (Heq : (s + 10 + (1 # 2) == s + (1 # 2) + inject_Z 10)%Q) by ring.
    rewrite Heq. apply Qplus_lt_l. apply Qlt_floor. }
  rewrite <- Zlt_Qlt in Hlt. lia.
Qed.

Lemma small_extent_fails_check (s e : Q) :
  (0 <= s)%Q -> (0 <= e)%Q -> (e <= s + 10)%Q ->
  Num.leb (stripMiB (miB e)) (stripMiB (miB s) + 10) = true.
Proof.
  intros Hs He Hle. rewrite !stripMiB_miB by assumption.
  apply leb_le. change 10%Q with (inject_Z 10). rewrite <- inject_Z_plus.
  rewrite <- Zle_Qle. by apply roundMiB_within_ten.
Qed.

(** ** The size check of the free-space strategy *)

Lemma chooseExtent_chosen (targetPartition : string) (lines : list string) :
  match chosenExtent targetPartition lines with
  | None => chooseExtent targetPartition lines = None
  | Some (s, e) =>
      (0 <= s)%Q /\ (s < e)%Q
      /\ exists msg, chooseExtent targetPartition lines = Some (miB s, miB e, msg)
  end.
Proof.
  unfold chosenExtent, chooseExtent.
  destruct (selectedExtent targetPartition) as [ss se].
  destruct (Num.ltb 0 ss && Num.ltb ss se)%bool eqn:Hsel.
  - apply andb_prop in Hsel as [H0%ltb_lt Hlt%ltb_lt].
    split; [by apply Qlt_le_weak |]. split; [exact Hlt |]. by eexists.
  - pose proof (largestFree_is_largest lines) as (_ & _ & Hfrom). cbn zeta in Hfrom.
    destruct (largestFree lines) as [[bz bs] be]. cbn [fst snd] in Hfrom.
    destruct (Num.ltb bs 0) eqn:Hneg; [reflexivity |].
    apply ltb_ge in Hneg. split; [exact Hneg |].
    destruct Hfrom as [Hinit | (l & _ & _ & Hlt)].
    + injection Hinit as _ -> _. exfalso. by apply Hneg.
    + split; [exact Hlt |]. by eexists.
Qed.


(** ** The strategies, event by event *)

Create HintDb worker.

#[global] Hint Unfold settle childPartitionsSet detectNewPartitionNode detectOrFail
  isPartitionVfat findExistingEsp findExistingBiosGrub unmountStaging
  recordTargetMountState locatePartedBinary getPartitionGeometry
  freeSpaceFormatAndMount freeSpaceReusingEsp freeSpaceCarvingEsp freeSpaceBiosRoot
  createInExtent recreateReusingEsp recreateCarvingEsp
  recreateReusingBiosGrub recreateCarvingBiosGrub recreateFromSelectedPartition
  createFromFreeSpace runWipeDrive safePreflightUnmounts run : worker.

(** A test every look-up passes. *)
Ltac lookups_pass :=
  let e := fresh "e" in
  intros e; destruct e as [? ? | [| ? ?] | | | | | | |]; intros ?;
  try discriminate; reflexivity.

Ltac emits_all :=
  repeat first
    [ progress cbv beta iota
    | lazymatch goal with
      | |- emitsOnly _ (isSystemDisk _) =>
          apply (emitsOnly_weaken isLookup); [lookups_pass | apply isSystemDisk_lookups]
      end
    | emits_step
    | progress autounfold with worker ].

Section Strategies.

Context {W : Type} `{Machine W}.

(** No run of the free-space strategy writes the mount-state file. *)
Lemma createFromFreeSpace_never_records (self : InstallerWorker) (partedBin devPath : string) :
  emitsOnly (fun e => negb (isWriteJson e)) (createFromFreeSpace self partedBin devPath).
Proof. emits_all. Qed.

Lemma run_useFreeSpace_never_records (self : InstallerWorker) :
  mode self = UseFreeSpace ->
  emitsOnly (fun e => negb (isWriteJson e)) (run self).
Proof.
  intros Hmode. unfold run. rewrite Hmode. emits_all.
Qed.

(** X28. Once [parted] is located, a run begins by removing the mount-state
    file. *)
Lemma run_removes_state_first (self : InstallerWorker) (w : W) :
  result (locatePartedBinary w) ≠ "" ->
  exists rest, events (run self w) = RemoveFile targetStateFilePath :: rest.
Proof.
  intros Hp%isEmpty_false. unfold run. rewrite events_bind.
  assert (He : events (locatePartedBinary w) = []).
  { unfold locatePartedBinary. rewrite events_bind.
    repeat (first [ progress cbn [ask events snd app]
                  | match goal with |- context [if ?c then _ else _] => destruct c end
                  | rewrite events_bind ]); reflexivity. }
  rewrite He, Hp. cbn [app failIf]. rewrite events_bind. eexists. reflexivity.
Qed.

(** In EFI mode the wipe of [run] creates partitions with two commands
    only: the ESP from 1 MiB to 513 MiB and root from 513 MiB to [100%].
    It never reads the size of the disk. *)
Lemma run_wipe_efi_mkparts (self : InstallerWorker) :
  mode self = WipeDrive -> efiInstall self = true ->
  emitsOnly isWipeEfiMkpart (run self).
Proof.
  intros Hmode Hefi. unfold run, runWipeDrive. rewrite Hmode, Hefi. emits_all.
Qed.

(** The wipe of [run] has no error for a failed mount. *)
Lemma run_wipe_no_mount_error (self : InstallerWorker) :
  mode self = WipeDrive ->
  emitsOnly (fun e => negb (isMountError e)) (run self).
Proof.
  intros Hmode. unfold run. rewrite Hmode. emits_all.
Qed.

(** Neither has the EFI branch of the free-space strategy. *)
Lemma run_useFreeSpace_efi_no_mount_error (self : InstallerWorker) :
  mode self = UseFreeSpace -> efiInstall self = true ->
  emitsOnly (fun e => negb (isMountError e)) (run self).
Proof.
  intros Hmode Hefi. unfold run, createFromFreeSpace. rewrite Hmode, Hefi. emits_all.
Qed.

(** The EFI branch of the partition strategy has no "too small" error. *)
Lemma run_usePartition_efi_no_too_small_error (self : InstallerWorker) :
  mode self = UsePartition -> efiInstall self = true ->
  emitsOnly (fun e => negb (isTooSmallError e)) (run self).
Proof.
  intros Hmode Hefi. unfold run, recreateFromSelectedPartition. rewrite Hmode, Hefi.
  emits_all.
Qed.

(** Whatever the size of the freed region, the EFI branch that finds no ESP
    takes its snapshot and creates a 512 MiB ESP at once. *)
Lemma recreateCarvingEsp_starts_with_mkpart (partedBin devPath : string)
    (startMiB endMiB : Z) (w : W) :
  exists rc rest,
    events (recreateCarvingEsp partedBin devPath startMiB endMiB w)
    = Start ["lsblk"; "-ln"; "-o"; "NAME,TYPE,PKNAME"]
      :: Execute ["sudo"; partedBin; devPath; "--script"; "mkpart"; "primary"; "fat32";
                  Qt.number startMiB +:+ "MiB"; Qt.number (startMiB + 512) +:+ "MiB"] rc
      :: rest.
Proof.
  unfold recreateCarvingEsp. rewrite events_bind, events_bind. do 2 eexists. reflexivity.
Qed.

(** The BIOS branch checks the size of the freed region before it creates
    anything there. *)
Lemma recreateCarvingBiosGrub_too_small (partedBin devPath : string)
    (startMiB endMiB : Z) (w : W) :
  endMiB - startMiB < 2 + 1 ->
  events (recreateCarvingBiosGrub partedBin devPath startMiB endMiB w)
  = [ErrorOccurred "Selected partition is too small to host bios_grub and root partitions."].
Proof.
  intros Hsmall. unfold recreateCarvingBiosGrub.
  assert (Hle : (endMiB <=? startMiB + 2) = true) by (apply Z.leb_le; lia).
  cbv zeta. rewrite Hle. reflexivity.
Qed.

End Strategies.

Section FreeSpaceCheck.

Context {W : Type} `{Machine W}.


(** In EFI mode, when the extent passes the check of 10 MiB and the disk
    has no ESP, the next change of the table is the creation of a 512 MiB
    ESP at the start of the extent: nothing compares the extent with
    512 MiB first. *)
Lemma freeSpaceCarvingEsp_starts_with_mkpart
    (partedBin devPath : string) (startMiB endMiB : Q) (w : W) :
  exists rc rest,
    events (freeSpaceCarvingEsp partedBin devPath startMiB endMiB w)
    = Start ["lsblk"; "-ln"; "-o"; "NAME,TYPE,PKNAME"]
      :: Execute ["sudo"; partedBin; devPath; "--script"; "mkpart"; "primary"; "fat32";
                  miB startMiB; miB (startMiB + 512)] rc
      :: rest.
Proof.
  unfold freeSpaceCarvingEsp. rewrite events_bind, events_bind. do 2 eexists. reflexivity.
Qed.

Lemma createInExtent_efi_carves_unchecked
    (partedBin devPath bestStartStr bestEndStr : string) (w : W) :
  let w1 := machine (childPartitionsSet devPath w) in
  let esp := findExistingEsp partedBin devPath w1 in
  Num.leb (stripMiB bestEndStr) (stripMiB bestStartStr + 10) = false ->
  result esp = "" ->
  events (createInExtent true partedBin devPath bestStartStr bestEndStr w)
  = events (childPartitionsSet devPath w) ++ events esp
    ++ events (freeSpaceCarvingEsp partedBin devPath
                 (stripMiB bestStartStr) (stripMiB bestEndStr) (machine esp))
  /\ forallb (fun e => negb (isError e) && negb (isTableMutation e))%bool
       (events (childPartitionsSet devPath w) ++ events esp) = true.
Proof.
  intros w1 esp Hbig Hesp.
  assert (Hq : emitsOnly (fun e => negb (isError e) && negb (isTableMutation e))%bool
                 (findExistingEsp partedBin devPath : M W string)) by emits_all.
  split.
  - unfold createInExtent. cbv zeta. rewrite Hbig. cbn [failIf].
    rewrite events_bind, events_bind. fold w1. fold esp. rewrite Hesp. reflexivity.
  - rewrite forallb_app. unfold esp. rewrite (Hq w1). reflexivity.
Qed.

End FreeSpaceCheck.

(** ** Orders of events in the strategies *)

Section Orders.

Context {W : Type} `{Machine W} {S : Type} (step : S -> Event -> option S).

Lemma runOver_app (s : S) (evs1 evs2 : list Event) :
  runOver step s (evs1 ++ evs2)
  = match runOver step s evs1 with
    | Some s' => runOver step s' evs2
    | None => None
    end.
Proof.
  revert s. induction evs1 as [| e evs1 IH]; intros s; [reflexivity |].
  cbn [app runOver]. destruct (step s e); [apply IH | reflexivity].
Qed.

Lemma moves_bind {A B} (s s1 s2 : S) (m : M W A) (k : A -> M W B) :
  moves step s s1 m -> (forall a, moves step s1 s2 (k a)) -> moves step s s2 (m ≫= k).
Proof. intros Hm Hk w. rewrite events_bind, runOver_app, Hm. apply Hk. Qed.

Lemma accepted_bind {A B} (s s1 : S) (m : M W A) (k : A -> M W B) :
  moves step s s1 m -> (forall a, accepted step s1 (k a)) -> accepted step s (m ≫= k).
Proof. intros Hm Hk w. rewrite events_bind, runOver_app, Hm. apply Hk. Qed.

Lemma accepted_of_moves {A} (s s1 : S) (m : M W A) :
  moves step s s1 m -> accepted step s m.
Proof. intros Hm w. rewrite Hm. by eexists. Qed.

Lemma moves_ret {A} (s : S) (a : A) : moves step s s (mret a : M W A).
Proof. intros w. reflexivity. Qed.

Lemma moves_ask {A} (s : S) (f : W -> A) : moves step s s (ask f).
Proof. intros w. reflexivity. Qed.

Lemma moves_emit (s s1 : S) (e : Event) :
  step s e = Some s1 -> moves step s s1 (emit e : M W unit).
Proof. intros He w. cbn. by rewrite He. Qed.

Lemma moves_execute (s s1 : S) (argv : list string) :
  (forall rc, step s (Execute argv rc) = Some s1) -> moves step s s1 (execute argv).
Proof. intros He w. cbn. by rewrite He. Qed.

(** When the next state depends on the exit code, the rest of the
    computation is followed for each exit code. *)
Lemma accepted_execute_bind {B} (s : S) (argv : list string) (k : Z -> M W B) :
  (forall rc, exists s1, step s (Execute argv rc) = Some s1 /\ accepted step s1 (k rc)) ->
  accepted step s (execute argv ≫= k).
Proof.
  intros Hk w. rewrite events_bind, runOver_app.
  destruct (Hk (result (execute argv w))) as (s1 & Hs & Hacc).
  change (events (execute argv w)) with [Execute argv (result (execute argv w))].
  cbn [runOver]. rewrite Hs. apply Hacc.
Qed.

Lemma moves_startAndRead (s s1 : S) (argv : list string) :
  step s (Start argv) = Some s1 -> moves step s s1 (startAndRead argv).
Proof. intros He w. cbn. by rewrite He. Qed.

Lemma moves_removeFile (s s1 : S) (path : string) :
  step s (RemoveFile path) = Some s1 -> moves step s s1 (removeFile path).
Proof. intros He w. cbn. by rewrite He. Qed.

(** Events that leave the state where it is. *)
Lemma moves_staying {A} (stays : Event -> bool) (s : S) (m : M W A) :
  (forall e, stays e = true -> step s e = Some s) ->
  emitsOnly stays m -> moves step s s m.
Proof.
  intros Hstay Hm w. specialize (Hm w). revert Hm.
  induction (events (m w)) as [| e evs IH]; [reflexivity |].
  cbn [forallb runOver]. intros [He Hevs]%andb_prop.
  rewrite (Hstay e He). by apply IH.
Qed.

Lemma accepted_failIf (s s1 : S) (failed : bool) (msg : string) (rest : M W unit) :
  step s (ErrorOccurred msg) = Some s1 ->
  accepted step s rest -> accepted step s (failIf failed msg rest).
Proof.
  intros He Hr. destruct failed; cbn [failIf]; [| exact Hr].
  by apply (accepted_of_moves s s1), moves_emit.
Qed.

End Orders.

Ltac moves_tac stay :=
  first
    [ apply moves_ret
    | apply moves_ask
    | apply moves_emit; reflexivity
    | apply moves_execute; intros ?; reflexivity
    | apply moves_startAndRead; reflexivity
    | apply moves_removeFile; reflexivity
    | solve [stay]
    | eapply moves_bind; [moves_tac stay | intros ?; moves_tac stay]
    | lazymatch goal with
      | |- moves _ _ _ (if ?c then _ else _) => destruct c; moves_tac stay
      end ].

(** Goals [accepted step s m] are settled by following [m]; [stay] proves
    that a block leaves the state where it is, or where it takes it. *)
Ltac accepted_tac stay :=
  repeat first
    [ progress cbv beta iota
    | progress cbn [failIf negb Z.eqb mode efiInstall selectedDrive targetPartition]
    | lazymatch goal with
      | |- accepted _ _ (failIf _ _ _) => eapply accepted_failIf; [reflexivity |]
      | |- accepted _ _ (_ ≫= _) =>
          first
            [ eapply accepted_bind; [solve [moves_tac stay] | intros ?]
            | apply accepted_execute_bind;
              let rc := fresh "rc" in
              intros rc; destruct rc; eexists; (split; [reflexivity |]) ]
      | |- accepted _ _ (if ?c then _ else _) => destruct c
      | |- accepted _ _ (match ?x with _ => _ end) => destruct x
      | |- accepted _ _ (emit _) =>
          eapply accepted_of_moves; apply moves_emit; reflexivity
      | |- accepted _ _ (mret _) => eapply accepted_of_moves; apply moves_ret
      end
    | progress autounfold with worker ].

(** *** Root is mounted before the ESP *)

Lemma mountStep_stays (s : nat) (e : Event) :
  negb (isMount e) = true -> mountStep s e = Some s.
Proof. unfold mountStep. by intros ->%negb_true_iff. Qed.

Ltac mounts_stay :=
  apply (moves_staying mountStep (fun e => negb (isMount e)));
  [intros ? ?; by apply mountStep_stays | emits_all].

(** X22. In every strategy, on every machine: the mounts of a run are
    none, or root on [/mnt], or root on [/mnt] and then the ESP on
    [/mnt/boot/efi]. *)
Lemma run_mounts_root_before_esp {W : Type} `{Machine W} (self : InstallerWorker) :
  accepted mountStep 0%nat (run self).
Proof.
  destruct self as [drive [| |] target [|]]; unfold run;
    cbn [mode efiInstall selectedDrive targetPartition];
    accepted_tac mounts_stay.
Qed.

(** *** The state file is recorded before completion *)

Lemma recordStep_stays (e : Event) :
  negb (isRecordOrComplete e) = true -> recordStep false e = Some false.
Proof. by destruct e. Qed.

Lemma recordTargetMountState_moves {W : Type} `{Machine W} (s : bool) (rootDev espDev : string) :
  moves recordStep s true (recordTargetMountState rootDev espDev : M W unit).
Proof.
  intros w. unfold recordTargetMountState. rewrite events_bind.
  cbn [ask events snd app result fst]. by destruct (fileOpensForWrite _ _).
Qed.

Ltac records_stay :=
  first
    [ apply recordTargetMountState_moves
    | apply (moves_staying recordStep (fun e => negb (isRecordOrComplete e)));
      [intros ? ?; by apply recordStep_stays | emits_all] ].


(** *** Failed mounts *)

Lemma fatalStep_stays (which : Event -> bool) (e : Event) :
  negb (which e) = true -> fatalStep which false e = Some false.
Proof. unfold fatalStep. by intros ->%negb_true_iff. Qed.

Lemma fatalStep_failed (which : Event -> bool) (e : Event) :
  negb (isComplete e) = true -> fatalStep which true e = Some true.
Proof. unfold fatalStep. by intros ->%negb_true_iff. Qed.

Ltac root_fatal_stay :=
  first
    [ apply (moves_staying (fatalStep isRootMount) (fun e => negb (isRootMount e)));
      [intros ? ?; by apply fatalStep_stays | emits_all]
    | apply (moves_staying (fatalStep isRootMount) (fun e => negb (isComplete e)));
      [intros ? ?; by apply fatalStep_failed | emits_all] ].

Ltac esp_fatal_stay :=
  first
    [ apply (moves_staying (fatalStep isEspMount) (fun e => negb (isEspMount e)));
      [intros ? ?; by apply fatalStep_stays | emits_all]
    | apply (moves_staying (fatalStep isEspMount) (fun e => negb (isComplete e)));
      [intros ? ?; by apply fatalStep_failed | emits_all] ].

Section FailedMounts.

Context {W : Type} `{Machine W}.

(** X24. In the partition strategy, on every machine and in both boot
    modes, a failed mount of root is never followed by [installComplete]. *)
Lemma run_usePartition_failed_root_mount_fatal (self : InstallerWorker) :
  mode self = UsePartition ->
  accepted (fatalStep isRootMount) false (run self).
Proof.
  destruct self as [drive [| |] target [|]]; intros Hmode;
    cbn in Hmode; try discriminate Hmode;
    unfold run; cbn [mode efiInstall selectedDrive targetPartition];
    accepted_tac root_fatal_stay.
Qed.

(** X25. In the BIOS branch of the free-space strategy, on every machine,
    a failed mount of root is never followed by [installComplete]. *)
Lemma run_useFreeSpace_bios_failed_root_mount_fatal (self : InstallerWorker) :
  mode self = UseFreeSpace -> efiInstall self = false ->
  accepted (fatalStep isRootMount) false (run self).
Proof.
  destruct self as [drive [| |] target [|]]; intros Hmode Hefi;
    cbn in Hmode, Hefi; try discriminate Hmode; try discriminate Hefi;
    unfold run; cbn [mode efiInstall selectedDrive targetPartition];
    accepted_tac root_fatal_stay.
Qed.

(** X26. In the partition strategy a failed mount of the reused ESP is
    never followed by [installComplete]. *)
Lemma recreateReusingEsp_failed_esp_mount_fatal
    (partedBin devPath existingEsp : string) (startMiB endMiB : Z) :
  accepted (fatalStep isEspMount) false
    (recreateReusingEsp partedBin devPath existingEsp startMiB endMiB).
Proof. accepted_tac esp_fatal_stay. Qed.

(** In BIOS mode no ESP is mounted, in any strategy. *)
Lemma run_bios_mounts_no_esp (self : InstallerWorker) :
  efiInstall self = false ->
  emitsOnly (fun e => negb (isEspMount e)) (run self).
Proof.
  destruct self as [drive [| |] target [|]]; intros Hefi;
    cbn in Hefi; try discriminate Hefi;
    unfold run, runWipeDrive, createFromFreeSpace, createInExtent,
      recreateFromSelectedPartition;
    cbn [mode efiInstall selectedDrive targetPartition]; emits_all.
Qed.

End FailedMounts.

(** ** Runs on the scripted host *)

Import Scripted.

(** *** Wipe, EFI *)

Example run_wipe_efi_commands :
  executed (events (run (wipe true) blank))
  = stagingUnmounts
    ++ [ ["sudo"; "udevadm"; "settle"];
         parted ["mklabel"; "gpt"];
         ["sudo"; "partprobe"; "/dev/sdb"]; ["sudo"; "udevadm"; "settle"];
         parted ["mkpart"; "primary"; "fat32"; "1MiB"; "513MiB"];
         parted ["name"; "1"; "ESP"];
         parted ["set"; "1"; "esp"; "on"];
         parted ["mkpart"; "primary"; "ext4"; "513MiB"; "100%"];
         ["sudo"; "partprobe"; "/dev/sdb"]; ["sudo"; "udevadm"; "settle"];
         ["sudo"; "mkfs.fat"; "-F32"; "/dev/sdb1"];
         ["sudo"; "mkfs.ext4"; "-F"; "/dev/sdb2"];
         ["sudo"; "e2fsck"; "-f"; "/dev/sdb2"];
         ["sudo"; "mount"; "/dev/sdb2"; "/mnt"];
         ["sudo"; "mkdir"; "-p"; "/mnt/boot/efi"];
         ["sudo"; "mount"; "/dev/sdb1"; "/mnt/boot/efi"] ].
Proof. vm_compute. reflexivity. Qed.




(** The helper [wipeDriveAndPartition], which [run] does not call, is the
    one that reads the size and stops root one MiB short of it. *)
Example wipeDriveAndPartition_root_end :
  only isMkpart (events (wipeDriveAndPartition (wipe true) "/usr/sbin/parted" "/dev/sdb" blank))
  = map succeeded
      [ parted ["mkpart"; "primary"; "fat32"; "1MiB"; "513MiB"];
        parted ["mkpart"; "primary"; "ext4"; "513MiB"; "51199MiB"] ].
Proof. vm_compute. reflexivity. Qed.

(** *** The mount-state file *)

Example run_wipe_records_state :
  jsonFiles (machine (run (wipe true) blank)) !! targetStateFilePath
  = Some {[ "root" := "/dev/sdb2"; "esp" := "/dev/sdb1" ]}
  /\ jsonFiles (machine (run (wipe false) blank)) !! targetStateFilePath
     = Some {[ "root" := "/dev/sdb2" ]}.
Proof. split; vm_compute; reflexivity. Qed.

Example run_usePartition_records_state :
  jsonFiles (machine (run (usePartition "/dev/sdb3" false) (dataDisk 100 200)))
    !! targetStateFilePath
  = Some {[ "root" := "/dev/sdb3" ]}.
Proof. vm_compute. reflexivity. Qed.

(** C5 at its failing input.  A free-space run on the extent 2048-10240 MiB,
    BIOS mode, every command succeeding: the stale state file is removed
    first, the run emits [installComplete], and no state file is written -
    none exists afterwards.  The same holds in EFI mode. *)
Theorem run_useFreeSpace_completes_without_state :
  let bios := run (useFreeSpace "__FREE__:2048.00:10240.00" false) blank in
  let efi := run (useFreeSpace "__FREE__:2048.00:10240.00" true) blank in
  jsonFiles blank !! targetStateFilePath = Some {[ "root" := "/dev/sdz9" ]}
  /\ head (events bios) = Some (RemoveFile targetStateFilePath)
  /\ last (events bios) = Some InstallComplete
  /\ only isError (events bios) = []
  /\ only isWriteJson (events bios) = []
  /\ jsonFiles (machine bios) !! targetStateFilePath = None
  /\ last (events efi) = Some InstallComplete
  /\ only isWriteJson (events efi) = []
  /\ jsonFiles (machine efi) !! targetStateFilePath = None.
Proof. repeat split; vm_compute; reflexivity. Qed.

(** *** Size checks before carving a boot partition *)

Example parse_dataDisk_geometry :
  result (getPartitionGeometry "/dev/sdb3" "sdb" "" "" (dataDisk 100 200))
  = (true, "100", "200")
  /\ parseMiBToBounds "100" "200" 0 0 = (true, 100, 200).
Proof. split; vm_compute; reflexivity. Qed.

(** BIOS mode, a freed region of 2 MiB: the "too small" error, and no
    partition is created. *)
Example run_usePartition_bios_too_small :
  let r := run (usePartition "/dev/sdb3" false) (dataDisk 100 102) in
  only isError (events r)
  = [ErrorOccurred "Selected partition is too small to host bios_grub and root partitions."]
  /\ only isMkpart (events r) = []
  /\ only isComplete (events r) = [].
Proof. repeat split; vm_compute; reflexivity. Qed.

(** C6 at its failing input.  EFI mode, no ESP on the disk, the selected
    partition spans 100-200 MiB: the freed region of 100 MiB is smaller than
    512 + 1 MiB, yet no error is raised; an ESP is requested from 100 MiB to
    612 MiB, then root from 612 MiB to 199 MiB, and the run completes. *)
Theorem run_usePartition_efi_small_region_unchecked :
  let r := run (usePartition "/dev/sdb3" true) (dataDisk 100 200) in
  200 - 100 < 512 + 1
  /\ result (findExistingEsp "/usr/sbin/parted" "/dev/sdb" (dataDisk 100 200)) = ""
  /\ only isMkpart (events r)
     = map succeeded
         [ parted ["mkpart"; "primary"; "fat32"; "100MiB"; "612MiB"];
           parted ["mkpart"; "primary"; "ext4"; "612MiB"; "199MiB"] ]
  /\ only isError (events r) = []
  /\ last (events r) = Some InstallComplete.
Proof. split; [lia |]. repeat split; vm_compute; reflexivity. Qed.

(** The free-space strategy rejects an extent of ten MiB before it changes
    the table, and accepts one of eleven. *)
Example run_useFreeSpace_ten_MiB :
  let small := run (useFreeSpace "__FREE__:2048.00:2058.00" true) blank in
  let enough := run (useFreeSpace "__FREE__:2048.00:2059.00" false) blank in
  only isError (events small) = [ErrorOccurred "Selected free space is too small."]
  /\ only isTableMutation (events small) = []
  /\ only isMkpart (events enough)
     = [succeeded (parted ["mkpart"; "primary"; "ext4"; "2048MiB"; "2058MiB"])].
Proof. repeat split; vm_compute; reflexivity. Qed.

(** C7 at its failing input.  EFI mode, no ESP on the disk, the chosen
    extent is 2048-2148 MiB: 100 MiB passes the ten-MiB check, no further
    check is made, and an ESP is requested from 2048 MiB to 2560 MiB, past
    the end of the extent, then root from 2560 MiB to 2147 MiB. *)
Theorem run_useFreeSpace_efi_small_extent_unchecked :
  let r := run (useFreeSpace "__FREE__:2048.00:2148.00" true) blank in
  2148 - 2048 < 512
  /\ result (findExistingEsp "/usr/sbin/parted" "/dev/sdb" blank) = ""
  /\ only isMkpart (events r)
     = map succeeded
         [ parted ["mkpart"; "primary"; "fat32"; "2048MiB"; "2560MiB"];
           parted ["mkpart"; "primary"; "ext4"; "2560MiB"; "2147MiB"] ]
  /\ only isError (events r) = []
  /\ last (events r) = Some InstallComplete.
Proof. split; [lia |]. repeat split; vm_compute; reflexivity. Qed.

(** *** Mounting *)

(** Root is mounted first, the ESP second, in each strategy that mounts
    one. *)
Example mount_order :
  only isMount (events (run (wipe true) blank))
  = map succeeded [mountRoot "/dev/sdb2"; mountEsp "/dev/sdb1"]
  /\ only isMount (events (run (useFreeSpace "__FREE__:2048.00:10240.00" true) blank))
     = map succeeded [mountRoot "/dev/sdb2"; mountEsp "/dev/sdb1"]
  /\ only isMount (events (run (usePartition "/dev/sdb3" true) (dataDisk 100 2000)))
     = map succeeded [mountRoot "/dev/sdb3"; mountEsp "/dev/sdb2"].
Proof. repeat split; vm_compute; reflexivity. Qed.

Example findExistingEsp_on_espDisk :
  result (findExistingEsp "/usr/sbin/parted" "/dev/sdb" (espDisk 1000 3000)) = "/dev/sdb1".
Proof. vm_compute. reflexivity. Qed.

(** With an ESP to reuse: root first, then the existing ESP. *)
Example mount_order_reusing_esp :
  only isMount (events (run (usePartition "/dev/sdb3" true) (espDisk 1000 3000)))
  = map succeeded [mountRoot "/dev/sdb2"; mountEsp "/dev/sdb1"]
  /\ only isMount (events (run (useFreeSpace "__FREE__:2048.00:10240.00" true)
                              (espDisk 1000 2000)))
     = map succeeded [mountRoot "/dev/sdb2"; mountEsp "/dev/sdb1"].
Proof. split; vm_compute; reflexivity. Qed.

(** A failed mount of the reused ESP ends the plan in the partition
    strategy; the free-space strategy does not test it. *)
Example failed_reused_esp_mount :
  let part := run (usePartition "/dev/sdb3" true)
                (withFailing (espDisk 1000 3000) [mountEsp "/dev/sdb1"]) in
  let free := run (useFreeSpace "__FREE__:2048.00:10240.00" true)
                (withFailing (espDisk 1000 2000) [mountEsp "/dev/sdb1"]) in
  only isError (events part)
  = [ErrorOccurred "Failed to mount existing ESP at /mnt/boot/efi."]
  /\ only isComplete (events part) = []
  /\ only isError (events free) = []
  /\ last (events free) = Some InstallComplete.
Proof. repeat split; vm_compute; reflexivity. Qed.

(** Where the exit code of [mount] is tested, a failed mount of root ends
    the plan with an error. *)
Example failed_root_mount_is_fatal_where_checked :
  let part := run (usePartition "/dev/sdb3" true)
                (withFailing (dataDisk 100 2000) [mountRoot "/dev/sdb3"]) in
  let free := run (useFreeSpace "__FREE__:2048.00:10240.00" false)
                (withFailing blank [mountRoot "/dev/sdb1"]) in
  only isError (events part) = [ErrorOccurred "Failed to mount root at /mnt."]
  /\ only isComplete (events part) = []
  /\ only isError (events free) = [ErrorOccurred "Failed to mount root at /mnt."]
  /\ only isComplete (events free) = [].
Proof. repeat split; vm_compute; reflexivity. Qed.

(** The wipe and the EFI branch of the free-space strategy leave the order
    that the other branches keep: [installComplete] follows the failed mount
    of root. *)
Example failed_root_mount_not_fatal_elsewhere :
  let host := withFailing blank [mountRoot "/dev/sdb2"] in
  runOver (fatalStep isRootMount) false (events (run (wipe true) host)) = None
  /\ runOver (fatalStep isRootMount) false (events (run (wipe false) host)) = None
  /\ runOver (fatalStep isRootMount) false
       (events (run (useFreeSpace "__FREE__:2048.00:10240.00" true) host)) = None.
Proof. repeat split; vm_compute; reflexivity. Qed.

(** C9 at its failing inputs.  In the wipe of [run] (either boot mode) and
    in the EFI branch of the free-space strategy the exit code of
    [mount <root> /mnt] is not tested: the mount fails, no error is raised,
    and the run still emits [installComplete]. *)
Theorem run_completes_after_failed_root_mount :
  let host := withFailing blank [mountRoot "/dev/sdb2"] in
  let wipeEfi := run (wipe true) host in
  let wipeBios := run (wipe false) host in
  let freeEfi := run (useFreeSpace "__FREE__:2048.00:10240.00" true) host in
  exitCode host (mountRoot "/dev/sdb2") = 1
  /\ Execute (mountRoot "/dev/sdb2") 1 ∈ events wipeEfi
  /\ only isError (events wipeEfi) = []
  /\ last (events wipeEfi) = Some InstallComplete
  /\ Execute (mountRoot "/dev/sdb2") 1 ∈ events wipeBios
  /\ only isError (events wipeBios) = []
  /\ last (events wipeBios) = Some InstallComplete
  /\ Execute (mountRoot "/dev/sdb2") 1 ∈ events freeEfi
  /\ only isError (events freeEfi) = []
  /\ last (events freeEfi) = Some InstallComplete.
Proof.
  repeat split; try (vm_compute; reflexivity);
    apply (bool_decide_unpack _); vm_compute; exact I.
Qed.

(** * Further properties of the engine *)

(** ** Tests on lists of events and the orders that decide them *)

Lemma runOver_noneAfter_seen (trigger bad : Event -> bool) (evs : list Event) :
  is_Some (runOver (noneAfterStep trigger bad) true evs) ->
  forallb (fun e => negb (bad e)) evs = true.
Proof.
  induction evs as [| e evs IH]; [done |].
  cbn [runOver noneAfterStep forallb]. destruct (bad e); cbn.
  - by intros [? ?].
  - exact IH.
Qed.

Lemma runOver_noneAfter (trigger bad : Event -> bool) (evs : list Event) :
  is_Some (runOver (noneAfterStep trigger bad) false evs) ->
  noneAfter trigger bad evs = true.
Proof.
  induction evs as [| e evs IH]; [done |].
  cbn [runOver noneAfterStep noneAfter]. destruct (trigger e).
  - apply runOver_noneAfter_seen.
  - exact IH.
Qed.

Lemma runOver_onlyAfter (early late : Event -> bool) (evs : list Event) :
  is_Some (runOver (onlyAfterStep early late) false evs) ->
  onlyAfter early late evs = true.
Proof.
  induction evs as [| e evs IH]; [done |].
  cbn [runOver onlyAfterStep onlyAfter]. destruct (early e); [done |].
  destruct (late e); cbn.
  - by intros [? ?].
  - exact IH.
Qed.

Lemma runOver_outcome (evs : list Event) :
  runOver outcomeStep false evs = Some true -> endsWithOneOutcome evs = true.
Proof.
  induction evs as [| e evs IH]; [done |].
  cbn [runOver outcomeStep endsWithOneOutcome].
  destruct (isOutcome e); cbn.
  - destruct evs; [done | discriminate].
  - destruct evs; [discriminate | exact IH].
Qed.

Lemma noneAfterStep_stays (trigger bad : Event -> bool) (e : Event) :
  negb (trigger e) = true -> noneAfterStep trigger bad false e = Some false.
Proof. unfold noneAfterStep. by intros ->%negb_true_iff. Qed.

Lemma noneAfterStep_seen (trigger bad : Event -> bool) (e : Event) :
  negb (bad e) = true -> noneAfterStep trigger bad true e = Some true.
Proof. unfold noneAfterStep. by intros ->%negb_true_iff. Qed.

Lemma onlyAfterStep_stays (early late : Event -> bool) (e : Event) :
  (negb (early e) && negb (late e))%bool = true ->
  onlyAfterStep early late false e = Some false.
Proof.
  unfold onlyAfterStep. intros [->%negb_true_iff ->%negb_true_iff]%andb_prop. done.
Qed.

Lemma onlyAfterStep_seen (early late : Event -> bool) (e : Event) :
  true = true -> onlyAfterStep early late true e = Some true.
Proof. done. Qed.

Lemma outcomeStep_stays (e : Event) :
  negb (isOutcome e) = true -> outcomeStep false e = Some false.
Proof. unfold outcomeStep. by intros ->%negb_true_iff. Qed.

Section Reassociation.

Context {W : Type} `{Machine W} {S : Type} (step : S -> Event -> option S).

Lemma events_assoc {A B C} (m : M W A) (f : A -> M W B) (k : B -> M W C) (w : W) :
  events (((m ≫= f) ≫= k) w) = events ((m ≫= fun a => f a ≫= k) w).
Proof. rewrite !events_bind, result_bind, machine_bind. by rewrite app_assoc. Qed.

Lemma accepted_assoc {A B C} (s : S) (m : M W A) (f : A -> M W B) (k : B -> M W C) :
  accepted step s (m ≫= fun a => f a ≫= k) -> accepted step s ((m ≫= f) ≫= k).
Proof. intros Hm w. rewrite events_assoc. apply Hm. Qed.

Lemma moves_assoc {A B C} (s s' : S) (m : M W A) (f : A -> M W B) (k : B -> M W C) :
  moves step s s' (m ≫= fun a => f a ≫= k) -> moves step s s' ((m ≫= f) ≫= k).
Proof. intros Hm w. rewrite events_assoc. apply Hm. Qed.

Lemma moves_execute_bind {B} (s s' : S) (argv : list string) (k : Z -> M W B) :
  (forall rc, exists s1, step s (Execute argv rc) = Some s1 /\ moves step s1 s' (k rc)) ->
  moves step s s' (execute argv ≫= k).
Proof.
  intros Hk w. rewrite events_bind, runOver_app.
  destruct (Hk (result (execute argv w))) as (s1 & Hs & Hmv).
  change (events (execute argv w)) with [Execute argv (result (execute argv w))].
  cbn [runOver]. rewrite Hs. apply Hmv.
Qed.

Lemma moves_writeJson (s s1 : S) (path : string) (obj : gmap string string) :
  step s (WriteJson path obj) = Some s1 -> moves step s s1 (writeJson path obj).
Proof. intros He w. cbn. by rewrite He. Qed.

Lemma accepted_ret_bind {A B} (s : S) (a : A) (k : A -> M W B) :
  accepted step s (k a) -> accepted step s (mret a ≫= k).
Proof. intros Hk w. exact (Hk w). Qed.

Lemma moves_ret_bind {A B} (s s' : S) (a : A) (k : A -> M W B) :
  moves step s s' (k a) -> moves step s s' (mret a ≫= k).
Proof. intros Hk w. exact (Hk w). Qed.

End Reassociation.

(** Goals [accepted step s m] and [moves step s s' m] over a whole strategy:
    blocks that leave the state alone are passed by [stay]; at a command
    whose exit code matters the three kinds of exit code are followed. *)
Ltac order_step stay :=
  first
    [ progress cbv beta iota
    | progress cbn [failIf negb Z.eqb anyFails mode efiInstall selectedDrive targetPartition]
    | lazymatch goal with
      | |- accepted _ _ (failIf _ _ _) => eapply accepted_failIf; [reflexivity |]
      | |- accepted _ _ (mret _ ≫= _) => apply accepted_ret_bind
      | |- accepted _ _ (_ ≫= _) =>
          first
            [ eapply accepted_bind; [solve [moves_tac stay] | intros ?]
            | apply accepted_execute_bind;
              let rc := fresh "rc" in
              intros rc; destruct rc; eexists; (split; [reflexivity |])
            | apply accepted_assoc ]
      | |- accepted _ _ (if negb ?c then _ else _) => destruct c eqn:?
      | |- accepted _ _ (if ?c then _ else _) => destruct c eqn:?
      | |- accepted _ _ (match ?x with _ => _ end) => destruct x
      | |- accepted _ _ (emit _) =>
          eapply accepted_of_moves; apply moves_emit; reflexivity
      | |- accepted _ _ (mret _) => eapply accepted_of_moves; apply moves_ret
      | |- moves _ _ _ (failIf ?c _ _) => destruct c; cbn [failIf]
      | |- moves _ _ _ (mret _ ≫= _) => apply moves_ret_bind
      | |- moves _ _ _ (_ ≫= _) =>
          first
            [ eapply moves_bind; [solve [moves_tac stay] | intros ?]
            | apply moves_execute_bind;
              let rc := fresh "rc" in
              intros rc; destruct rc; eexists; (split; [reflexivity |])
            | apply moves_assoc ]
      | |- moves _ _ _ (if negb ?c then _ else _) => destruct c eqn:?
      | |- moves _ _ _ (if ?c then _ else _) => destruct c eqn:?
      | |- moves _ _ _ (match ?x with _ => _ end) => destruct x
      | |- moves _ _ _ (emit _) => apply moves_emit; reflexivity
      end
    | progress autounfold with worker ].

Ltac order_tac stay := repeat order_step stay.

(** The six requests: three strategies, two boot modes. *)
Ltac each_request self :=
  destruct self as [? [| |] ? [|]]; unfold run;
  cbn [mode efiInstall selectedDrive targetPartition].

Ltac none_after_stay trigger bad :=
  first
    [ apply (moves_staying (noneAfterStep trigger bad) (fun e => negb (trigger e)));
      [intros ? ?; by apply noneAfterStep_stays | emits_all]
    | apply (moves_staying (noneAfterStep trigger bad) (fun e => negb (bad e)));
      [intros ? ?; by apply noneAfterStep_seen | emits_all] ].

Ltac only_after_stay early late :=
  first
    [ apply (moves_staying (onlyAfterStep early late)
               (fun e => (negb (early e) && negb (late e))%bool));
      [intros ? ?; by apply onlyAfterStep_stays | emits_all]
    | apply (moves_staying (onlyAfterStep early late) (fun _ => true));
      [intros ? ?; by apply onlyAfterStep_seen | emits_all] ].

Ltac outcome_stay :=
  apply (moves_staying outcomeStep (fun e => negb (isOutcome e)));
  [intros ? ?; by apply outcomeStep_stays | emits_all].

(** [emits_all] with the test on a single event settled by [fin]. *)
Ltac emits_step_by fin :=
  lazymatch goal with
  | |- emitsOnly _ (_ ≫= _) => apply emitsOnly_bind; [| intros ?]
  | |- emitsOnly _ (mret _) => apply emitsOnly_ret
  | |- emitsOnly _ (ask _) => apply emitsOnly_ask
  | |- emitsOnly _ (emit _) => apply emitsOnly_emit; fin
  | |- emitsOnly _ (sleep _) => apply emitsOnly_emit; fin
  | |- emitsOnly _ (execute _) => apply emitsOnly_execute; intros ?; fin
  | |- emitsOnly _ (startAndRead _) => apply emitsOnly_startAndRead; fin
  | |- emitsOnly _ (removeFile _) => apply emitsOnly_removeFile; fin
  | |- emitsOnly _ (writeJson _ _) => apply emitsOnly_writeJson; fin
  | |- emitsOnly _ (forEach _ _) => apply emitsOnly_forEach; intros ?
  | |- emitsOnly _ (anyFails _) =>
      apply emitsOnly_anyFails; repeat (constructor; [intros ?; fin |]); constructor
  | |- emitsOnly _ (failIf _ _ _) => apply emitsOnly_failIf; [fin |]
  | |- emitsOnly _ (if ?c then _ else _) => destruct c
  | |- emitsOnly _ (match ?x with _ => _ end) => destruct x
  | |- emitsOnly _ (let '_ := ?x in _) => destruct x
  end.

Ltac emits_all_by fin :=
  repeat first
    [ progress cbv beta iota
    | lazymatch goal with
      | |- emitsOnly _ (isSystemDisk _) =>
          apply (emitsOnly_weaken isLookup); [lookups_pass | apply isSystemDisk_lookups]
      end
    | emits_step_by fin
    | progress autounfold with worker ].

Section WholeRuns.

Context {W : Type} `{Machine W}.

(** X2. Every run signals exactly one outcome, [errorOccurred] or
    [installComplete], and it is the last thing the run does. *)
Theorem run_ends_with_one_outcome (self : InstallerWorker) (w : W) :
  endsWithOneOutcome (events (run self w)) = true.
Proof.
  apply runOver_outcome. revert w.
  change (moves outcomeStep false true (run self)).
  each_request self; order_tac outcome_stay.
Qed.

(** X3. No run executes a command of the thorough detach - no holder is
    killed, no swap turned off, no LUKS mapping closed, no volume group
    deactivated, no disk powered off: [run] prepares with
    [safePreflightUnmounts] only. *)
Theorem run_never_detaches_holders (self : InstallerWorker) :
  emitsOnly (fun e => negb (isDetachCommand e)) (run self).
Proof. emits_all. Qed.

(** X4. The only partition table a run changes is that of the selected
    drive: every [parted --script] command is on [/dev/<selectedDrive>]. *)
Theorem run_changes_only_selected_drive (self : InstallerWorker) :
  emitsOnly (partedScriptOn ("/dev/" +:+ selectedDrive self)) (run self).
Proof.
  emits_all_by ltac:(first [reflexivity | cbn; by rewrite String.eqb_refl]).
Qed.

(** X5. The errors about the request itself are raised before the partition
    table is touched: none of them follows a [parted --script] command. *)
Theorem run_precondition_errors_precede_mutation (self : InstallerWorker) (w : W) :
  noneAfter isPartedScript isPreconditionError (events (run self w)) = true.
Proof.
  apply runOver_noneAfter. revert w.
  change (accepted (noneAfterStep isPartedScript isPreconditionError) false (run self)).
  each_request self; order_tac ltac:(none_after_stay isPartedScript isPreconditionError).
Qed.

(** X6. A file system is only made after this run created a partition for
    it: [mkfs.fat] comes after a successful [mkpart primary fat32], and
    [mkfs.ext4] after a successful [mkpart primary ext4].  The branches
    that reuse an existing ESP run no [mkfs.fat] at all. *)
Theorem run_formats_only_after_creating (self : InstallerWorker) (w : W) :
  onlyAfter (isCreated "fat32") (isMkfs "mkfs.fat") (events (run self w)) = true
  /\ onlyAfter (isCreated "ext4") (isMkfs "mkfs.ext4") (events (run self w)) = true
  /\ (forall partedBin devPath existingEsp startMiB endMiB,
        emitsOnly (fun e => negb (isMkfs "mkfs.fat" e))
          (recreateReusingEsp partedBin devPath existingEsp startMiB endMiB : M W unit))
  /\ (forall partedBin devPath existingEsp startMiB endMiB,
        emitsOnly (fun e => negb (isMkfs "mkfs.fat" e))
          (freeSpaceReusingEsp partedBin devPath existingEsp startMiB endMiB : M W unit)).
Proof.
  split; [| split; [| split; intros; emits_all]];
    apply runOver_onlyAfter; revert w.
  - change (accepted (onlyAfterStep (isCreated "fat32") (isMkfs "mkfs.fat")) false (run self)).
    each_request self;
      order_tac ltac:(only_after_stay (isCreated "fat32") (isMkfs "mkfs.fat")).
  - change (accepted (onlyAfterStep (isCreated "ext4") (isMkfs "mkfs.ext4")) false (run self)).
    each_request self;
      order_tac ltac:(only_after_stay (isCreated "ext4") (isMkfs "mkfs.ext4")).
Qed.


(** X1. Without a [parted] binary - none on the path, none at
    [/usr/sbin/parted] or [/sbin/parted] - a run reports "parted not found"
    and does nothing else: no command is run, the state file of an earlier
    run stays, the machine is as it was. *)
Theorem run_without_parted (self : InstallerWorker) (w : W) :
  result (locatePartedBinary w) = "" ->
  run self w = (tt, w, [ErrorOccurred "parted not found"]).
Proof.
  intros Hp.
  assert (Hl : locatePartedBinary w = ("", w, [])).
  { revert Hp. unfold locatePartedBinary.
    unfold mbind, M_mbind, M_bind, ask, mret, M_mret, M_ret, result, machine, events.
    cbn. destruct (negb (Qt.isEmpty (findExecutable "parted" w)));
      [cbn; by intros -> |].
    cbn. destruct (fileExists "/usr/sbin/parted" w); [cbn; discriminate |].
    cbn. destruct (fileExists "/sbin/parted" w); [cbn; discriminate |].
    reflexivity. }
  unfold run, mbind, M_mbind, M_bind. rewrite Hl. reflexivity.
Qed.

Lemma mountsRecordedStep_stays (s : option string * option string) (e : Event) :
  (negb (isMount e) && negb (isWriteJson e))%bool = true ->
  mountsRecordedStep s e = Some s.
Proof.
  destruct e as [argv rc | | | | | | | |]; try done.
  cbn [mountsRecordedStep isRootMount isEspMount isWriteJson].
  intros [->%negb_true_iff _]%andb_prop. done.
Qed.

End WholeRuns.

Ltac mounts_recorded_stay :=
  cbn [fst snd Qt.at_ nth];
  first
    [ apply moves_writeJson; unfold mountsRecordedStep;
      rewrite bool_decide_true; [reflexivity |];
      cbv [Qt.isEmpty String.append]; cbn [fst snd];
      split; [reflexivity | split; by simplify_map_eq]
    | apply (moves_staying mountsRecordedStep
               (fun e => (negb (isMount e) && negb (isWriteJson e))%bool));
      [intros ? ?; by apply mountsRecordedStep_stays | emits_all] ].


(** On a machine without [parted]. *)
Lemma run_without_parted_witness :
  result (locatePartedBinary tt) = ""
  /\ run (Scripted.wipe true) tt = (tt, tt, [ErrorOccurred "parted not found"]).
Proof. split; [reflexivity | apply run_without_parted; reflexivity]. Defined.

(** ** The device helpers *)

Lemma childPartitionsOfRows_from (base name : string) (rows : list string)
    (acc : gset string) :
  name ∈ foldl (fun (out : gset string) r =>
                  let cols := Qt.splitWs r in
                  if (length cols <? 3)%nat then out
                  else
                    let name := Qt.at_ cols 0 in
                    let type := Qt.at_ cols 1 in
                    let pk := Qt.at_ cols 2 in
                    if (String.eqb type "part" && String.eqb pk base)%bool
                    then {[ name ]} ∪ out else out) acc rows
  <-> name ∈ acc \/ existsb (isChildRow base name) rows = true.
Proof.
  revert acc. induction rows as [| r rows IH]; intros acc; cbn [foldl existsb].
  - split; [by left | by intros [? | ?]].
  - rewrite IH. clear IH. generalize (existsb (isChildRow base name) rows).
    intros rest. unfold isChildRow. cbv zeta.
    destruct (length (Qt.splitWs r) <? 3)%nat eqn:Hlen.
    + assert ((3 <=? length (Qt.splitWs r))%nat = false) as ->
        by (apply Nat.leb_gt; by apply Nat.ltb_lt).
      cbn [andb orb]. reflexivity.
    + assert ((3 <=? length (Qt.splitWs r))%nat = true) as ->
        by (apply Nat.leb_le; apply Nat.ltb_ge in Hlen; lia).
      cbn [andb].
      destruct (String.eqb (Qt.at_ (Qt.splitWs r) 1) "part"); cbn [andb];
        [| rewrite andb_false_r; cbn [orb]; reflexivity ].
      destruct (String.eqb (Qt.at_ (Qt.splitWs r) 2) base); cbn [andb];
        [| rewrite andb_false_r; cbn [orb]; reflexivity ].
      rewrite andb_true_r, elem_of_union, elem_of_singleton.
      destruct (String.eqb_spec (Qt.at_ (Qt.splitWs r) 0) name) as [-> | Hne];
        cbn [orb]; [tauto |].
      split; [intros [[? | ?] | ?]; [congruence | by left | by right] | tauto].
Qed.

(** X9. A kernel name is a child partition of a disk exactly when some row
    of [lsblk -o NAME,TYPE,PKNAME] has at least three fields, that name
    first, type [part] and the base name of the disk as parent: the disk
    itself, partitions of other disks and rows without a parent are left
    out. *)
Theorem childPartitionsOfRows_spec (base name : string) (rows : list string) :
  name ∈ childPartitionsOfRows base rows
  <-> existsb (isChildRow base name) rows = true.
Proof.
  unfold childPartitionsOfRows. rewrite childPartitionsOfRows_from.
  split; [intros [Hin | ?]; [set_solver | done] | by right].
Qed.

Section Returns.

Context {W : Type} `{Machine W}.

Lemma returns_bind {A B} (Q : B -> bool) (m : M W A) (k : A -> M W B) :
  (forall a, returns Q (k a)) -> returns Q (m ≫= k).
Proof. intros Hk w. rewrite result_bind. apply Hk. Qed.

Lemma returns_ret {A} (Q : A -> bool) (a : A) : Q a = true -> returns Q (mret a : M W A).
Proof. intros Ha w. exact Ha. Qed.

Lemma partitionNodeFor_dev (base : string) (n : Z) :
  emptyOrDev (partitionNodeFor base n) = true.
Proof. unfold partitionNodeFor. by destruct (endsWithDigit base). Qed.

Lemma espFromLsblkRows_dev (base : string) (rows : list string) :
  emptyOrDev (default "" (espFromLsblkRows base rows)) = true.
Proof.
  induction rows as [| r rows IH]; [done |]. cbn [espFromLsblkRows]. cbv zeta.
  destruct (length (Qt.splitWs r) <? 6)%nat; [exact IH |].
  match goal with |- context [if ?c then _ else _] => destruct c end; [done | exact IH].
Qed.

Lemma espFromPartedLines_dev (base : string) (plines : list string) :
  emptyOrDev (default "" (espFromPartedLines base plines)) = true.
Proof.
  induction plines as [| l plines IH]; [done |]. cbn [espFromPartedLines]. cbv zeta.
  destruct (7 <=? length (Qt.split ":" l))%nat; [| exact IH].
  match goal with |- context [if ?c then _ else _] => destruct c end;
    [apply partitionNodeFor_dev | exact IH].
Qed.

Lemma biosGrubFromPartedLines_dev (base : string) (lines : list string) :
  emptyOrDev (default "" (biosGrubFromPartedLines base lines)) = true.
Proof.
  induction lines as [| l lines IH]; [done |]. cbn [biosGrubFromPartedLines]. cbv zeta.
  destruct (length (Qt.split ":" l) <? 7)%nat; [exact IH |].
  match goal with |- context [if ?c then _ else _] => destruct c end; [exact IH |].
  match goal with |- context [if ?c then _ else _] => destruct c end; [| exact IH].
  destruct (Num.toIntOk _); apply partitionNodeFor_dev.
Qed.

Lemma findExistingEsp_dev (partedBin devPath : string) :
  returns emptyOrDev (findExistingEsp partedBin devPath).
Proof.
  unfold findExistingEsp. apply returns_bind. intros out.
  generalize (espFromLsblkRows_dev (baseNameOf devPath) (Qt.lines out)).
  destruct (espFromLsblkRows _ _); intros Hd.
  - by apply returns_ret.
  - apply returns_bind. intros pout. apply returns_ret, espFromPartedLines_dev.
Qed.

Lemma findExistingBiosGrub_dev (partedBin devPath : string) :
  returns emptyOrDev (findExistingBiosGrub partedBin devPath).
Proof.
  unfold findExistingBiosGrub. apply returns_bind. intros out.
  apply returns_ret, biosGrubFromPartedLines_dev.
Qed.

Lemma newPartitionOf_dev (after before : gset string) :
  emptyOrDev (newPartitionOf after before) = true.
Proof. unfold newPartitionOf. by destruct (negb _). Qed.

Lemma detectNewPartitionNode_dev (devPath : string) (before : gset string) :
  returns emptyOrDev (detectNewPartitionNode devPath before).
Proof.
  unfold detectNewPartitionNode. apply returns_bind. intros after.
  apply returns_ret, newPartitionOf_dev.
Qed.

Lemma resolveBaseDiskFrom_dev (hops : nat) (cur : string) :
  returns emptyOrDev (resolveBaseDiskFrom hops cur).
Proof.
  revert cur. induction hops as [| hops IH]; intros cur; cbn [resolveBaseDiskFrom].
  - by apply returns_ret.
  - apply returns_bind. intros raw. cbv zeta.
    repeat match goal with
           | |- returns _ (if ?c then _ else _) => destruct c
           | |- returns _ (mret _) => by apply returns_ret
           end.
    apply IH.
Qed.

(** X10. What the look-ups of devices return is a node under [/dev/] or the
    empty string, nothing else: the existing ESP, the existing bios_grub
    partition, the new partition found by the diff, and the base disk of a
    device.  The callers' test [isEmpty()] is therefore the whole test for
    "none". *)
Theorem device_lookups_return_dev_nodes (partedBin devPath : string)
    (before : gset string) (w : W) :
  emptyOrDev (result (findExistingEsp partedBin devPath w)) = true
  /\ emptyOrDev (result (findExistingBiosGrub partedBin devPath w)) = true
  /\ emptyOrDev (result (detectNewPartitionNode devPath before w)) = true
  /\ emptyOrDev (result (resolveBaseDisk devPath w)) = true.
Proof.
  repeat split.
  - apply findExistingEsp_dev.
  - apply findExistingBiosGrub_dev.
  - apply detectNewPartitionNode_dev.
  - unfold resolveBaseDisk. destruct (negb _); [done | apply resolveBaseDiskFrom_dev].
Qed.

End Returns.

(** ** What is formatted and mounted *)

Lemma emitsOnly_bind_returns {W : Type} `{Machine W} {A B}
    (P : Event -> bool) (Q : A -> bool) (m : M W A) (k : A -> M W B) :
  returns Q m -> emitsOnly P m ->
  (forall a, Q a = true -> emitsOnly P (k a)) ->
  emitsOnly P (m ≫= k).
Proof.
  intros Hq Hm Hk w. rewrite events_bind, forallb_app, Hm. apply Hk, Hq.
Qed.

(** A node that is not empty, among those that are empty or under [/dev/]. *)
Ltac dev_node :=
  first
    [ reflexivity
    | match goal with
      | He : Qt.isEmpty ?a = false, Hq : emptyOrDev ?a = true |- _ =>
          change (Qt.startsWith "/dev/" a = true);
          unfold emptyOrDev in Hq; rewrite He in Hq; exact Hq
      end ].

Ltac emits_dev :=
  repeat first
    [ progress cbv beta iota
    | lazymatch goal with
      | |- emitsOnly _ (isSystemDisk _) =>
          apply (emitsOnly_weaken isLookup); [lookups_pass | apply isSystemDisk_lookups]
      | |- emitsOnly _ (findExistingEsp _ _ ≫= _) =>
          eapply emitsOnly_bind_returns;
          [apply findExistingEsp_dev | emits_all | intros ? ?]
      | |- emitsOnly _ (findExistingBiosGrub _ _ ≫= _) =>
          eapply emitsOnly_bind_returns;
          [apply findExistingBiosGrub_dev | emits_all | intros ? ?]
      | |- emitsOnly _ (detectNewPartitionNode _ _ ≫= _) =>
          eapply emitsOnly_bind_returns;
          [apply detectNewPartitionNode_dev | emits_all | intros ? ?]
      | |- emitsOnly _ (if negb (Qt.isEmpty ?x) then _ else _) =>
          destruct (Qt.isEmpty x) eqn:?; cbn [negb]
      | |- emitsOnly _ (if Qt.isEmpty ?x then _ else _) =>
          destruct (Qt.isEmpty x) eqn:?
      end
    | emits_step_by dev_node
    | progress unfold settle, childPartitionsSet, detectOrFail, isPartitionVfat,
        unmountStaging, recordTargetMountState, locatePartedBinary, getPartitionGeometry,
        freeSpaceFormatAndMount, freeSpaceReusingEsp, freeSpaceCarvingEsp,
        freeSpaceBiosRoot, createInExtent, recreateReusingEsp, recreateCarvingEsp,
        recreateReusingBiosGrub, recreateCarvingBiosGrub, recreateFromSelectedPartition,
        createFromFreeSpace, runWipeDrive, safePreflightUnmounts, run ].

(** X11. Whatever a run formats or mounts is a node under [/dev/]: the
    argument of every [mkfs.fat], [mkfs.ext4] and [mount] starts with
    [/dev/]. *)
Theorem run_formats_and_mounts_dev_nodes {W : Type} `{Machine W} (self : InstallerWorker) :
  emitsOnly onDevNode (run self).
Proof. emits_dev. Qed.

(** ** Requests that cannot be served *)

Section Requests.

Context {W : Type} `{Machine W}.

(** X12. In the partition strategy a target that does not end in a
    partition number - nothing selected, or a whole disk - is refused before
    the partition table is touched: no [parted --script] command is run and
    the run does not complete. *)
Theorem run_usePartition_needs_partition_number (self : InstallerWorker) :
  mode self = UsePartition ->
  partitionNumberFromPath (targetPartition self) = "" ->
  emitsOnly (fun e => negb (changesTableOrCompletes e)) (run self).
Proof.
  destruct self as [drive [| |] target efi]; intros Hmode Hnum;
    cbn [mode targetPartition] in Hmode, Hnum; try discriminate Hmode.
  unfold run, recreateFromSelectedPartition.
  cbn [mode efiInstall selectedDrive targetPartition].
  rewrite Hnum. cbn [Qt.isEmpty failIf]. emits_all.
Qed.

(** X13. A run in BIOS mode leaves every ESP alone: it makes no fat32
    partition, sets no [esp] flag or [ESP] name, runs no [mkfs.fat] and
    mounts nothing on [/mnt/boot/efi]. *)
Theorem run_bios_leaves_esp_alone (self : InstallerWorker) :
  efiInstall self = false ->
  emitsOnly (fun e => negb (touchesEsp e)) (run self).
Proof.
  destruct self as [drive [| |] target [|]]; intros Hefi;
    cbn in Hefi; try discriminate Hefi;
    unfold run, runWipeDrive, createFromFreeSpace, createInExtent,
      recreateFromSelectedPartition;
    cbn [mode efiInstall selectedDrive targetPartition]; emits_all.
Qed.

End Requests.

Lemma run_usePartition_needs_partition_number_witness :
  mode (usePartition "/dev/sdb" true) = UsePartition
  /\ partitionNumberFromPath (targetPartition (usePartition "/dev/sdb" true)) = ""
  /\ forallb (fun e => negb (changesTableOrCompletes e))
       (events (run (usePartition "/dev/sdb" true) (dataDisk 100 2000))) = true.
Proof.
  split; [reflexivity |]. split; [reflexivity |].
  apply (run_usePartition_needs_partition_number (usePartition "/dev/sdb" true));
    reflexivity.
Defined.

Lemma run_bios_leaves_esp_alone_witness :
  efiInstall (usePartition "/dev/sdb3" false) = false
  /\ forallb (fun e => negb (touchesEsp e))
       (events (run (usePartition "/dev/sdb3" false) (espDisk 1000 2000))) = true.
Proof.
  split; [reflexivity |].
  apply (run_bios_leaves_esp_alone (usePartition "/dev/sdb3" false)); reflexivity.
Defined.

(** ** Partition nodes and their numbers *)

Lemma rev_app_append (s a b : string) :
  String.rev_app s (a +:+ b) = String.rev_app s a +:+ b.
Proof.
  revert a. induction s as [| c s IH]; intros a; [reflexivity |].
  cbn [String.rev_app]. change (String c (a +:+ b)) with (String c a +:+ b). apply IH.
Qed.

Lemma rev_app_empty (s a : string) : String.rev_app s a = String.rev s +:+ a.
Proof. unfold String.rev. by rewrite <- rev_app_append. Qed.

Lemma rev_cons (c : ascii) (s : string) :
  String.rev (String c s) = String.rev s +:+ String c "".
Proof. unfold String.rev at 1. cbn [String.rev_app]. apply rev_app_empty. Qed.

Lemma append_assoc (a b c : string) : (a +:+ b) +:+ c = a +:+ (b +:+ c).
Proof.
  induction a as [| x a IH]; [reflexivity |].
  change ((String x a +:+ b) +:+ c) with (String x ((a +:+ b) +:+ c)). by rewrite IH.
Qed.

Lemma rev_append (s t : string) : String.rev (s +:+ t) = String.rev t +:+ String.rev s.
Proof.
  induction s as [| c s IH].
  - cbn. by rewrite append_empty.
  - change (String c s +:+ t) with (String c (s +:+ t)).
    by rewrite !rev_cons, IH, append_assoc.
Qed.

Lemma splitGo_nonempty (sep : ascii) (cur s : string) : Qt.splitGo sep cur s <> [].
Proof.
  revert cur. induction s as [| c s IH]; intros cur; cbn [Qt.splitGo]; [done |].
  destruct (Ascii.eqb c sep); [done | apply IH].
Qed.

Lemma last_cons_nonempty {A} (a d : A) (l : list A) : l <> [] -> List.last (a :: l) d = List.last l d.
Proof. by destruct l. Qed.

(** The last section of a text is what follows its last separator. *)
Lemma splitGo_last_append (sep : ascii) (cur x t : string) :
  lacks sep t = true ->
  List.last (Qt.splitGo sep cur (x +:+ t)) "" = List.last (Qt.splitGo sep cur x) "" +:+ t.
Proof.
  intros Ht. revert cur. induction x as [| c x IH]; intros cur.
  - cbn [Qt.splitGo List.last]. change ("" +:+ t) with t.
    revert cur. induction t as [| a t IHt]; intros cur.
    + cbn [Qt.splitGo List.last]. by rewrite append_empty.
    + cbn [lacks] in Ht. apply andb_prop in Ht as [Ha Ht].
      cbn [Qt.splitGo]. apply negb_true_iff in Ha. rewrite Ha.
      rewrite (IHt Ht). rewrite rev_cons, append_assoc. reflexivity.
  - change (String c x +:+ t) with (String c (x +:+ t)). cbn [Qt.splitGo].
    destruct (Ascii.eqb c sep).
    + rewrite !last_cons_nonempty by apply splitGo_nonempty. apply IH.
    + apply IH.
Qed.

Lemma splitGo_last_suffix (sep : ascii) (cur x : string) :
  exists pre, String.rev cur +:+ x = pre +:+ List.last (Qt.splitGo sep cur x) "".
Proof.
  revert cur. induction x as [| c x IH]; intros cur; cbn [Qt.splitGo].
  - exists "". cbn [List.last]. by rewrite append_empty.
  - destruct (Ascii.eqb c sep).
    + rewrite last_cons_nonempty by apply splitGo_nonempty.
      destruct (IH "") as [pre Hpre]. change (String.rev "" +:+ x) with x in Hpre.
      exists (String.rev cur +:+ String c pre).
      rewrite append_assoc. change (String c pre +:+ ?l) with (String c (pre +:+ l)).
      by rewrite <- Hpre.
    + destruct (IH (String c cur)) as [pre Hpre]. exists pre.
      rewrite <- Hpre, rev_cons, append_assoc. reflexivity.
Qed.

Lemma endsWithDigit_append (s t : string) :
  t <> "" -> endsWithDigit (s +:+ t) = endsWithDigit t.
Proof.
  intros Ht. unfold endsWithDigit. rewrite rev_append.
  destruct (String.rev t) as [| c r] eqn:Hrev; [| reflexivity].
  exfalso. apply Ht. rewrite <- (rev_rev t), Hrev. reflexivity.
Qed.

Lemma leadingDigits_append (a b : string) :
  allDigits a = true -> firstIsDigit b = false -> leadingDigits (a +:+ b) = a.
Proof.
  intros Ha Hb. induction a as [| c a IH].
  - change ("" +:+ b) with b. destruct b as [| x b]; [reflexivity |].
    cbn [firstIsDigit] in Hb. cbn [leadingDigits]. by rewrite Hb.
  - cbn [allDigits] in Ha. apply andb_prop in Ha as [Hc Ha].
    change (String c a +:+ b) with (String c (a +:+ b)).
    cbn [leadingDigits]. by rewrite Hc, (IH Ha).
Qed.

Lemma allDigits_rev (s : string) : allDigits s = true -> allDigits (String.rev s) = true.
Proof. intros Hs. by apply allDigits_rev_app. Qed.

Lemma trailingDigits_append (y t : string) :
  allDigits t = true -> endsWithDigit y = false -> trailingDigits (y +:+ t) = t.
Proof.
  intros Ht Hy. unfold trailingDigits. rewrite rev_append.
  rewrite leadingDigits_append; [apply rev_rev | by apply allDigits_rev |].
  unfold endsWithDigit in Hy. unfold firstIsDigit. exact Hy.
Qed.

Lemma allDigits_lacks_slash (t : string) : allDigits t = true -> lacks "/" t = true.
Proof.
  induction t as [| c t IH]; [done |]. cbn [allDigits lacks].
  intros [Hc Ht]%andb_prop. rewrite (IH Ht), andb_true_r.
  destruct c as [[|] [|] [|] [|] [|] [|] [|] [|]]; try discriminate Hc; reflexivity.
Qed.

Lemma number_allDigits (n : Z) : 0 <= n -> allDigits (Qt.number n) = true.
Proof.
  intros Hn. destruct (number_nonneg n Hn) as (d & _ & -> & _).
  apply string_of_uint_allDigits.
Qed.

Lemma lastSection_endsWithDigit (x : string) :
  endsWithDigit x = false -> endsWithDigit (Qt.lastSection "/" x) = false.
Proof.
  intros Hx. unfold Qt.lastSection, Qt.split.
  destruct (splitGo_last_suffix "/" "" x) as [pre Hpre].
  change (String.rev "" +:+ x) with x in Hpre.
  destruct (List.last (Qt.splitGo "/" "" x) "") as [| c l] eqn:Hlast; [reflexivity |].
  rewrite <- Hx, Hpre. symmetry. by apply endsWithDigit_append.
Qed.

(** X14. The number is read back from the node that was built for it: for
    every base name - [sda], [nvme0n1], [mmcblk0] - and every partition
    number that is not negative, [partitionNumberFromPath] of
    [partitionNodeFor] is the number as [QString::number] prints it. *)
Theorem partitionNumberFromPath_partitionNodeFor (baseName : string) (partNum : Z) :
  0 <= partNum ->
  partitionNumberFromPath (partitionNodeFor baseName partNum) = Qt.number partNum.
Proof.
  intros Hn. pose proof (number_allDigits partNum Hn) as Hd.
  unfold partitionNumberFromPath, partitionNodeFor.
  destruct (endsWithDigit baseName) eqn:Hb.
  - rewrite <- !append_assoc.
    unfold Qt.lastSection, Qt.split.
    rewrite splitGo_last_append by by apply allDigits_lacks_slash.
    rewrite splitGo_last_append by reflexivity.
    apply trailingDigits_append; [exact Hd |].
    by rewrite endsWithDigit_append.
  - rewrite <- append_assoc.
    unfold Qt.lastSection, Qt.split.
    rewrite splitGo_last_append by by apply allDigits_lacks_slash.
    apply trailingDigits_append; [exact Hd |].
    apply lastSection_endsWithDigit.
    destruct baseName as [| c b]; [reflexivity |].
    by rewrite endsWithDigit_append.
Qed.

Lemma partitionNumberFromPath_partitionNodeFor_witness :
  0 <= 2 /\ partitionNumberFromPath (partitionNodeFor "nvme0n1" 2) = "2".
Proof.
  split; [lia |].
  apply (partitionNumberFromPath_partitionNodeFor "nvme0n1" 2). lia.
Defined.

(** ** The preflight of [run] *)

Section Preflight.

Context {W : Type} `{Machine W}.

Lemma executed_forEach_inv {A} (l : list A) (body : A -> M W unit) (argv : list string) (w : W) :
  argv ∈ executed (events (forEach l body w)) ->
  exists x w', x ∈ l /\ argv ∈ executed (events (body x w')).
Proof.
  revert w. induction l as [| y l IH]; intros w; cbn [forEach].
  - intros Hin. by apply elem_of_nil in Hin.
  - rewrite events_bind, executed_app. intros [Hy | Hl]%elem_of_app.
    + exists y, w. split; [apply list_elem_of_here | exact Hy].
    + destruct (IH _ Hl) as (x & w' & Hx & Hin).
      exists x, w'. split; [by apply list_elem_of_further | exact Hin].
Qed.

(** X16. The preflight unmounts nothing of the host but what is mounted
    under [/media/], [/run/media/] or [/mnt/]: every [umount -l] it runs is
    for a partition row of [lsblk -o NAME,TYPE,MOUNTPOINT <disk>] with such
    a mount point, and none is run when the disk is the system disk. *)
Theorem safePreflightUnmounts_unmounts_only_external (devPath node : string) (w : W) :
  let sys := isSystemDisk devPath (machine (unmountStaging w)) in
  let rows := Qt.lines (result (startAndRead
                                  ["lsblk"; "-ln"; "-o"; "NAME,TYPE,MOUNTPOINT"; devPath]
                                  (machine sys))) in
  ["sudo"; "umount"; "-l"; node] ∈ executed (events (safePreflightUnmounts devPath w)) ->
  result sys = false
  /\ exists cols, cols ∈ Qt.splitWsKeep <$> rows
       /\ Qt.at_ cols 1 = "part"
       /\ node = "/dev/" +:+ Qt.at_ cols 0
       /\ isExternalMountPoint (Qt.at_ cols 2) = true.
Proof.
  intros sys rows. unfold safePreflightUnmounts.
  rewrite events_bind, events_bind. fold sys.
  pose proof (isSystemDisk_lookups devPath (machine (unmountStaging w))) as Hl.
  fold sys in Hl.
  rewrite !executed_app, (lookups_execute_nothing _ Hl).
  destruct (events_unmountStaging w) as [-> _]. cbn [app].
  destruct (result sys) eqn:Hsys.
  - intros Hin. exfalso. cbn in Hin.
    repeat (apply elem_of_cons in Hin as [Hin | Hin]; [discriminate Hin |]).
    by apply elem_of_nil in Hin.
  - intros Hin. split; [reflexivity |].
    apply elem_of_app in Hin as [Hin | Hin].
    { exfalso. unfold stagingUnmounts in Hin.
      repeat (apply elem_of_cons in Hin as [Hin | Hin]; [discriminate Hin |]).
      by apply elem_of_nil in Hin. }
    rewrite events_bind, executed_app in Hin.
    apply elem_of_app in Hin as [Hin | Hin]; [by apply elem_of_nil in Hin |].
    rewrite events_bind, executed_app in Hin.
    apply elem_of_app in Hin as [Hin | Hin].
    + apply executed_forEach_inv in Hin as (line & w' & Hline & Hin).
      exists (Qt.splitWsKeep line). split; [by apply list_elem_of_fmap_2 |].
      revert Hin. cbv zeta.
      destruct (2 <=? length (Qt.splitWsKeep line))%nat eqn:Hlen; cbn [andb];
        [| intros Hin; by apply elem_of_nil in Hin].
      destruct (String.eqb_spec (Qt.at_ (Qt.splitWsKeep line) 1) "part") as [Hpart | Hpart];
        [| intros Hin; by apply elem_of_nil in Hin].
      assert (Hmp : (if (3 <=? length (Qt.splitWsKeep line))%nat
                     then Qt.at_ (Qt.splitWsKeep line) 2 else "")
                    = Qt.at_ (Qt.splitWsKeep line) 2).
      { destruct (3 <=? length (Qt.splitWsKeep line))%nat eqn:H3; [reflexivity |].
        apply Nat.leb_gt in H3. unfold Qt.at_. symmetry. apply nth_overflow. lia. }
      rewrite Hmp.
      destruct (isExternalMountPoint (Qt.at_ (Qt.splitWsKeep line) 2));
        [| intros Hin; by apply elem_of_nil in Hin].
      rewrite events_bind, executed_app. cbn.
      intros Hin. apply elem_of_cons in Hin as [Hin | Hin];
        [| by apply elem_of_nil in Hin].
      repeat split; [exact Hpart | congruence].
    + exfalso. cbn in Hin.
      repeat (apply elem_of_cons in Hin as [Hin | Hin]; [discriminate Hin |]).
      by apply elem_of_nil in Hin.
Qed.

End Preflight.

Lemma safePreflightUnmounts_unmounts_only_external_witness :
  ["sudo"; "umount"; "-l"; "/dev/sdb1"]
    ∈ executed (events (safePreflightUnmounts "/dev/sdb" mountedDisk))
  /\ result (isSystemDisk "/dev/sdb" (machine (unmountStaging mountedDisk))) = false.
Proof.
  assert (Hin : ["sudo"; "umount"; "-l"; "/dev/sdb1"]
                  ∈ executed (events (safePreflightUnmounts "/dev/sdb" mountedDisk))).
  { vm_compute. do 3 apply list_elem_of_further. apply list_elem_of_here. }
  split; [exact Hin |].
  exact (proj1 (safePreflightUnmounts_unmounts_only_external
                  "/dev/sdb" "/dev/sdb1" mountedDisk Hin)).
Defined.

(** On that disk the preflight unmounts [sdb1] and leaves [sdb3], which is
    mounted on [/home]. *)
Example safePreflightUnmounts_on_mountedDisk :
  executed (events (safePreflightUnmounts "/dev/sdb" mountedDisk))
  = stagingUnmounts
    ++ [ ["sudo"; "umount"; "-l"; "/dev/sdb1"]; ["sudo"; "udevadm"; "settle"] ].
Proof. vm_compute. reflexivity. Qed.

(** ** Numbers printed and read back *)



(** ** The thorough detach *)

(** X29. On a disk that is not the system disk, [bestEffortDetachDevice]
    kills the holders of the disk node and of every child partition
    ([fuser -km]), and the last command it runs is the power-off of the
    disk. *)
Theorem bestEffortDetachDevice_kills_holders_everywhere {W : Type} `{Machine W}
    (devPath : string) (w : W) :
  let sys := isSystemDisk devPath (machine (unmountStaging w)) in
  let evs := events (bestEffortDetachDevice devPath w) in
  result sys = false ->
  ["sudo"; "fuser"; "-km"; devPath] ∈ executed evs
  /\ (forall pn, pn ∈ result (childPartitionsSet devPath (machine sys)) ->
                 ["sudo"; "fuser"; "-km"; "/dev/" +:+ pn] ∈ executed evs)
  /\ List.last (executed evs) [] = ["sudo"; "udisksctl"; "power-off"; "-b"; devPath].
Proof.
  intros sys evs Hsys. subst evs. unfold bestEffortDetachDevice.
  rewrite events_bind, events_bind. fold sys. rewrite Hsys.
  rewrite events_bind. set (parts := result (childPartitionsSet devPath (machine sys))).
  repeat rewrite events_bind.
  repeat rewrite executed_app.
  match goal with
  | |- context [forEach (devPath :: ?l) ?body ?m] =>
      set (kill := executed (events (forEach (devPath :: l) body m)));
      assert (Hkill : forall n, n ∈ devPath :: l -> ["sudo"; "fuser"; "-km"; n] ∈ kill)
  end.
  { intros n Hn. subst kill. apply executed_forEach with (x := n); [exact Hn |].
    intros w'. rewrite events_bind, executed_app. apply elem_of_app. left.
    apply list_elem_of_here. }
  split; [| split].
  - repeat (apply elem_of_app;
            first [left; solve [apply Hkill, list_elem_of_here] | right]).
  - intros pn Hpn.
    assert (Hin : ["sudo"; "fuser"; "-km"; "/dev/" +:+ pn] ∈ kill).
    { apply Hkill, list_elem_of_further.
      apply (list_elem_of_fmap_2 (fun pn => "/dev/" +:+ pn)). by apply elem_of_elements. }
    repeat (apply elem_of_app; first [left; solve [exact Hin] | right]).
  - rewrite !app_assoc.
    match goal with
    | |- List.last ((?l ++ ?t1) ++ ?t2) _ = _ =>
        change t2 with (@nil (list string));
        change t1 with [ ["sudo"; "udisksctl"; "power-off"; "-b"; devPath] ]
    end.
    rewrite app_nil_r. apply last_last.
Qed.

Lemma bestEffortDetachDevice_kills_holders_everywhere_witness :
  result (isSystemDisk "/dev/sdb" (machine (unmountStaging (withPartitions blank [1])))) = false
  /\ ["sudo"; "fuser"; "-km"; "/dev/sdb1"]
     ∈ executed (events (bestEffortDetachDevice "/dev/sdb" (withPartitions blank [1]))).
Proof.
  split; [reflexivity |].
  apply (bestEffortDetachDevice_kills_holders_everywhere "/dev/sdb"
           (withPartitions blank [1])); [reflexivity |].
  apply (bool_decide_unpack _). vm_compute. exact I.
Defined.

(** ** What a run may destroy *)

(** X17. A run destroys what the request names and nothing else: [mklabel]
    is only run by the wipe, [rm] only by the partition strategy and only
    for the number of the selected partition; the free-space strategy
    neither relabels the disk nor removes a partition. *)
Theorem run_destroys_as_asked {W : Type} `{Machine W} (self : InstallerWorker) :
  emitsOnly (destroysAsAsked self) (run self).
Proof.
  each_request self;
    emits_all_by ltac:(first [reflexivity | cbn; by rewrite String.eqb_refl]).
Qed.

(** X18. In EFI mode [installComplete] is only signalled after a mount on
    [/mnt/boot/efi] was run. *)
Theorem run_efi_completes_only_after_esp_mount {W : Type} `{Machine W}
    (self : InstallerWorker) (w : W) :
  efiInstall self = true ->
  onlyAfter isEspMount isComplete (events (run self w)) = true.
Proof.
  intros Hefi. apply runOver_onlyAfter. revert w.
  change (accepted (onlyAfterStep isEspMount isComplete) false (run self)).
  destruct self as [drive [| |] target [|]]; cbn in Hefi; try discriminate Hefi;
    unfold run; cbn [mode efiInstall selectedDrive targetPartition];
    order_tac ltac:(only_after_stay isEspMount isComplete).
Qed.

Lemma run_efi_completes_only_after_esp_mount_witness :
  efiInstall (wipe true) = true
  /\ onlyAfter isEspMount isComplete (events (run (wipe true) blank)) = true.
Proof.
  split; [reflexivity |].
  apply (run_efi_completes_only_after_esp_mount (wipe true)). reflexivity.
Defined.

(** ** The earlier properties on the scripted host *)

Lemma safePreflightUnmounts_spares_system_disk_witness :
  result (isSystemDisk "/dev/sda" (machine (unmountStaging blank))) = true
  /\ executed (events (safePreflightUnmounts "/dev/sda" blank))
     = stagingUnmounts ++ [ ["sudo"; "udevadm"; "settle"] ]
  /\ ["sudo"; "umount"; "-l"; "/dev/sdb1"]
     ∈ executed (events (safePreflightUnmounts "/dev/sdb" mountedDisk)).
Proof.
  split; [reflexivity |]. split.
  - apply (safePreflightUnmounts_spares_system_disk "/dev/sda" blank).
    vm_compute. reflexivity.
  - apply (safePreflightUnmounts_spares_system_disk "/dev/sdb" mountedDisk)
      with (mp := "/media/usb") (rest := []);
      [vm_compute; reflexivity | | reflexivity].
    apply (bool_decide_unpack _). vm_compute. exact I.
Defined.

Lemma rootSourceDevice_follows_uuid_witness :
  let host := withRootSource blank "UUID=0a1b2c3d-root" in
  Qt.trimmed (result (startAndRead ["findmnt"; "-no"; "SOURCE"; "/"] host))
  = "UUID=0a1b2c3d-root"
  /\ result (rootSourceDevice host) = "/dev/sda2".
Proof.
  split; [reflexivity |].
  exact (rootSourceDevice_follows_uuid "0a1b2c3d-root"
           (withRootSource blank "UUID=0a1b2c3d-root") eq_refl eq_refl).
Defined.

Lemma run_removes_state_first_witness :
  result (locatePartedBinary blank) ≠ ""
  /\ exists rest, events (run (wipe true) blank) = RemoveFile targetStateFilePath :: rest.
Proof.
  split; [discriminate |].
  apply (run_removes_state_first (wipe true) blank). discriminate.
Defined.


Lemma run_usePartition_failed_root_mount_fatal_witness :
  let host := withFailing (dataDisk 100 2000) [mountRoot "/dev/sdb3"] in
  mode (usePartition "/dev/sdb3" true) = UsePartition
  /\ is_Some (runOver (fatalStep isRootMount) false
                (events (run (usePartition "/dev/sdb3" true) host))).
Proof.
  split; [reflexivity |].
  apply (run_usePartition_failed_root_mount_fatal (usePartition "/dev/sdb3" true)).
  reflexivity.
Defined.

Lemma run_useFreeSpace_bios_failed_root_mount_fatal_witness :
  let host := withFailing blank [mountRoot "/dev/sdb1"] in
  let request := useFreeSpace "__FREE__:2048.00:10240.00" false in
  mode request = UseFreeSpace /\ efiInstall request = false
  /\ is_Some (runOver (fatalStep isRootMount) false (events (run request host))).
Proof.
  split; [reflexivity |]. split; [reflexivity |].
  apply (run_useFreeSpace_bios_failed_root_mount_fatal
           (useFreeSpace "__FREE__:2048.00:10240.00" false)); reflexivity.
Defined.


(** ** The tests of the further properties, tried *)

(** The tests on commands recognise the commands of a wipe, and the
    commands of the thorough detach. *)
Example command_tests_on_a_wipe :
  let evs := events (run (wipe true) blank) in
  executed (only isPartedScript evs)
  = [ parted ["mklabel"; "gpt"];
      parted ["mkpart"; "primary"; "fat32"; "1MiB"; "513MiB"];
      parted ["name"; "1"; "ESP"];
      parted ["set"; "1"; "esp"; "on"];
      parted ["mkpart"; "primary"; "ext4"; "513MiB"; "100%"] ]
  /\ executed (only (isCreated "fat32") evs)
     = [ parted ["mkpart"; "primary"; "fat32"; "1MiB"; "513MiB"] ]
  /\ executed (only (isMkfs "mkfs.fat") evs) = [ ["sudo"; "mkfs.fat"; "-F32"; "/dev/sdb1"] ]
  /\ executed (only (isFormatted "mkfs.ext4") evs)
     = [ ["sudo"; "mkfs.ext4"; "-F"; "/dev/sdb2"] ]
  /\ length (only touchesEsp evs) = 5%nat
  /\ executed (only isDetachCommand
                 (events (bestEffortDetachDevice "/dev/sdb" (withPartitions blank [1]))))
     = [ ["sudo"; "udisksctl"; "unmount"; "-b"; "/dev/sdb1"];
         ["sudo"; "fuser"; "-km"; "/dev/sdb"];
         ["sudo"; "fuser"; "-km"; "/dev/sdb1"];
         ["sudo"; "blockdev"; "--rereadpt"; "/dev/sdb"];
         ["sudo"; "udisksctl"; "power-off"; "-b"; "/dev/sdb"] ].
Proof. repeat split; vm_compute; reflexivity. Qed.

(** The tests on lists of events reject the lists they are meant to. *)
Example event_list_tests_reject :
  let mkfs := Execute ["sudo"; "mkfs.fat"; "-F32"; "/dev/sdb1"] 0 in
  let rm := Execute (parted ["rm"; "3"]) 0 in
  let mount := Execute (mountRoot "/dev/sdb2") 0 in
  onlyAfter (isCreated "fat32") (isMkfs "mkfs.fat") [mkfs] = false
  /\ onlyAfter (isCreated "fat32") (isMkfs "mkfs.fat")
       [Execute (parted ["mkpart"; "primary"; "fat32"; "1MiB"; "513MiB"]) 1; mkfs] = false
  /\ noneAfter isPartedScript isPreconditionError
       [rm; ErrorOccurred "Invalid geometry for selected partition."] = false
  /\ endsWithOneOutcome [ErrorOccurred "parted not found"; InstallComplete] = false
  /\ endsWithOneOutcome [InstallComplete; mount] = false
  /\ endsWithOneOutcome [mount] = false
  /\ recordsItsMounts
       [mount; WriteJson targetStateFilePath {[ "root" := "/dev/sdb3" ]}] = false
  /\ recordsItsMounts
       [mount; WriteJson targetStateFilePath
                 (<["esp" := "/dev/sdb1"]> {[ "root" := "/dev/sdb2" ]})] = false
  /\ recordsItsMounts
       [mount; WriteJson targetStateFilePath {[ "root" := "/dev/sdb2" ]}] = true.
Proof. repeat split; vm_compute; reflexivity. Qed.
